(** * Horizon Protocol deployment metadata: accessors of [index.js]

    A shallow embedding of the accessor layer of [index.js] (network folder
    resolution, deployment and facet loading, the synth / feed / market
    aggregators, the PerpsV2 proxied-market grouping, the bytes32 key helpers
    and the decode enhancer) together with the properties the specification
    states about them.

    Conventions of the embedding:
    - a JSON value is a [value]; a JavaScript object is a finite map from
      property names to values ([gmap string value]), so [Object.assign] is a
      right-biased merge and two objects with the same properties are equal;
      the map holds the own properties, and where the code looks a plain
      object up under a name it is given ([data[folder]], [assets[asset]],
      [PerpsV2Proxied[marketName]], [memo[contract]], [map[folder]],
      [source in ast]) the names every object inherits from
      [Object.prototype] are told apart; a contract name asked of
      [deployment.targets] or [deployment.sources] is an own key or absent;
    - a map keeps no document order: [Object.entries] is the enumeration of
      the map, and what is stated of a result does not depend on it;
    - the [targets] of a deployment are kept as an association list, because
      [getPerpsV2ProxiedMarkets] walks them in [Object.keys] order;
    - a function that can throw returns a [result];
    - the asset registry ([assets], required once at module level and shared
      by every call) is threaded explicitly through the functions that reach
      [getFeeds], which writes to it. *)

From Stdlib Require Import Ascii String ZArith.
From stdpp Require Import gmap strings list fin_maps pretty.

#[local] Set Warnings "-register-all".
#[local] Open Scope string_scope.

(** ** Results of functions that may throw *)

Inductive result (A : Type) : Type :=
| Ok (a : A)
| Throw (msg : string).
Arguments Ok {A} a.
Arguments Throw {A} msg.

Definition bind {A B} (r : result A) (k : A -> result B) : result B :=
  match r with
  | Ok a => k a
  | Throw msg => Throw msg
  end.

Notation "'let!' x ':=' r 'in' k" := (bind r (fun x => k))
  (at level 10, x name, r at level 100, k at level 200).

Definition is_Throw {A} (r : result A) : Prop :=
  match r with Ok _ => False | Throw _ => True end.

(** [xs.map(f)] where [f] may throw: the first exception aborts the map. *)
Fixpoint mapM {A B} (f : A -> result B) (xs : list A) : result (list B) :=
  match xs with
  | [] => Ok []
  | x :: xs' => let! y := f x in let! ys := mapM f xs' in Ok (y :: ys)
  end.

(** ** JavaScript string primitives used by the accessors *)

(** [s.startsWith(p)] *)
Fixpoint startsWith (s p : string) {struct p} : bool :=
  match p with
  | EmptyString => true
  | String a p' =>
      match s with
      | EmptyString => false
      | String b s' => Ascii.eqb a b && startsWith s' p'
      end
  end.

(** [s.includes(p)] *)
Fixpoint includes (s p : string) : bool :=
  startsWith s p ||
  match s with
  | EmptyString => false
  | String _ s' => includes s' p
  end.

(** [s.slice(n)] for a non-negative [n] *)
Fixpoint slice (s : string) (n : nat) {struct n} : string :=
  match n, s with
  | O, _ => s
  | S _, EmptyString => EmptyString
  | S n', String _ s' => slice s' n'
  end.

(** [c.repeat(n)] for a one-character string *)
Fixpoint repeat_char (c : ascii) (n : nat) : string :=
  match n with
  | O => EmptyString
  | S n' => String c (repeat_char c n')
  end.

(** ** Network resolver *)

(** [getFolderNameForNetwork({ network, useOvm = false })] *)
Definition getFolderNameForNetwork (network : string) (useOvm : bool) : string :=
  if includes network "ovm" then network
  else if useOvm then network ++ "-ovm" else network.

(** ** Key-encoding helpers

    [toBytes32] and [fromBytes32] are one-line wrappers around three
    functions of the [web3-utils] package, embedded here as that package
    defines them. *)

Module W3Utils.

Definition hex_digit (n : N) : ascii :=
  match n with
  | 0 => "0" | 1 => "1" | 2 => "2" | 3 => "3" | 4 => "4" | 5 => "5"
  | 6 => "6" | 7 => "7" | 8 => "8" | 9 => "9" | 10 => "a" | 11 => "b"
  | 12 => "c" | 13 => "d" | 14 => "e" | _ => "f"
  end%N%char.

(** [code.toString(16)] for a character code below 256 *)
Definition toString16 (code : N) : string :=
  if (code <? 16)%N then String (hex_digit code) ""
  else String (hex_digit (code / 16)) (String (hex_digit (code mod 16)) "").

(** Value of one hexadecimal digit, either case. *)
Definition hex_val (c : ascii) : option N :=
  let n := N_of_ascii c in
  if ((48 <=? n) && (n <=? 57))%N then Some (n - 48)%N
  else if ((97 <=? n) && (n <=? 102))%N then Some (n - 87)%N
  else if ((65 <=? n) && (n <=? 70))%N then Some (n - 55)%N
  else None.

Definition is_hex_digit (c : ascii) : bool :=
  match hex_val c with Some _ => true | None => false end.

(** The digits [asciiToHex] writes for one character:
    [n = code.toString(16)], then [n.length < 2 ? '0' + n : n]. *)
Definition byte_hex (c : ascii) : string :=
  let n := toString16 (N_of_ascii c) in
  if (String.length n <? 2)%nat then "0" ++ n else n.

(** The loop of [asciiToHex]. *)
Fixpoint asciiToHex_loop (str : string) : string :=
  match str with
  | EmptyString => EmptyString
  | String c rest => byte_hex c ++ asciiToHex_loop rest
  end.

(** [asciiToHex(str)]: [if (!str) return "0x00"], else ["0x" + hex]. *)
Definition asciiToHex (str : string) : string :=
  match str with
  | EmptyString => "0x00"
  | _ => "0x" ++ asciiToHex_loop str
  end.

(** [/^0x/i.test(s)] *)
Definition has_0x_prefix (s : string) : bool :=
  startsWith s "0x" || startsWith s "0X".

(** [rightPad(string, chars)] with the default sign ["0"]:
    [padding = chars - length + 1] when that is not negative, else [0], and
    [new Array(padding).join("0")] is [padding - 1] zeros (none when
    [padding] is [0]). *)
Definition rightPad (s : string) (chars : Z) : string :=
  let hasPrefix := has_0x_prefix s in
  let body := if hasPrefix then slice s 2 else s in
  let padding :=
    if (0 <=? chars - Z.of_nat (String.length body) + 1)%Z
    then (chars - Z.of_nat (String.length body) + 1)%Z else 0%Z in
  (if hasPrefix then "0x" else "") ++ body ++ repeat_char "0" (Z.to_nat (padding - 1)).

Fixpoint all_hex (s : string) : bool :=
  match s with
  | EmptyString => true
  | String c rest => is_hex_digit c && all_hex rest
  end.

(** [isHexStrict(hex)]: [/^(-)?0x[0-9a-f]*$/i] *)
Definition isHexStrict (hex : string) : bool :=
  let unsigned := if startsWith hex "-" then slice hex 1 else hex in
  has_0x_prefix unsigned && all_hex (slice unsigned 2).

(** [String.fromCharCode(parseInt(pair, 16))] on a slice of one or two
    characters: the longest prefix of hexadecimal digits is read (after an
    optional sign and an optional [0x]); when there is none the result of
    [parseInt] is [NaN] and the character is [\x00]. Character codes are
    bytes here; no slice of a string accepted by [isHexStrict] yields a code
    above 255. *)
Definition char_of_pair (pair : string) : ascii :=
  let unsigned := if startsWith pair "-" then slice pair 1 else pair in
  let digits := if has_0x_prefix unsigned then slice unsigned 2 else unsigned in
  match digits with
  | EmptyString => Ascii.zero
  | String a EmptyString =>
      match hex_val a with
      | Some x => if startsWith pair "-" then ascii_of_N ((65536 - x) mod 256) else ascii_of_N x
      | None => Ascii.zero
      end
  | String a (String b _) =>
      match hex_val a, hex_val b with
      | Some x, Some y => ascii_of_N (16 * x + y)
      | Some x, None => ascii_of_N x
      | None, _ => Ascii.zero
      end
  end.

(** The loop of [hexToAscii]: [for (; i < l; i += 2)] over two-character
    slices (the last slice has one character when the length is odd). *)
Fixpoint hexToAscii_loop (hex : string) : string :=
  match hex with
  | EmptyString => EmptyString
  | String a EmptyString => String (char_of_pair (String a "")) ""
  | String a (String b rest) =>
      String (char_of_pair (String a (String b ""))) (hexToAscii_loop rest)
  end.

(** [hexToAscii(hex)]: throws unless [isHexStrict(hex)]; the two characters
    of a lower-case ["0x"] are skipped. *)
Definition hexToAscii (hex : string) : result string :=
  if negb (isHexStrict hex) then Throw "The parameter must be a valid HEX string."
  else
    let body := if startsWith hex "0x" then slice hex 2 else hex in
    Ok (hexToAscii_loop body).

End W3Utils.

(** [toBytes32 = key => rightPad(asciiToHex(key), 64)] *)
Definition toBytes32 (key : string) : string :=
  W3Utils.rightPad (W3Utils.asciiToHex key) 64.

(** [fromBytes32 = key => hexToAscii(key)] *)
Definition fromBytes32 (key : string) : result string :=
  W3Utils.hexToAscii key.

(** [s.replaceAll('\x00', '')] *)
Fixpoint strip_nul (s : string) : string :=
  match s with
  | EmptyString => EmptyString
  | String c rest =>
      if Ascii.eqb c Ascii.zero then strip_nul rest else String c (strip_nul rest)
  end.

(** ** JSON values and JavaScript objects *)

(** Numbers are the integers (the only numbers the accessors inspect). *)
Inductive value : Type :=
| VUndef
| VNull
| VBool (b : bool)
| VNum (n : Z)
| VStr (s : string)
| VArr (l : list value)
| VObj (o : gmap string value).

Abbreviation obj := (gmap string value).

(** The asset registry, [assets = require('./publish/assets.json')]: one
    object per asset symbol. *)
Abbreviation registry := (gmap string (gmap string value)).

(** [!!v] *)
Definition truthy (v : value) : bool :=
  match v with
  | VUndef | VNull => false
  | VBool b => b
  | VNum n => negb (n =? 0)%Z
  | VStr s => negb (String.eqb s "")
  | VArr _ | VObj _ => true
  end.

(** [String(v)], the conversion applied to a value used as a property key. *)
Fixpoint to_key (v : value) : string :=
  match v with
  | VUndef => "undefined"
  | VNull => "null"
  | VBool b => if b then "true" else "false"
  | VNum n => pretty n
  | VStr s => s
  | VArr l =>
      (fix join (l : list value) : string :=
         match l with
         | [] => ""
         | [x] => match x with VUndef | VNull => "" | _ => to_key x end
         | x :: rest =>
             (match x with VUndef | VNull => "" | _ => to_key x end) ++ "," ++ join rest
         end) l
  | VObj _ => "[object Object]"
  end.

(** [v.k] for a property name [k] that is neither an index nor [length]:
    reading a property of [undefined] or [null] throws, a primitive or an
    array has no such property. *)
Definition get_prop (v : value) (k : string) : result value :=
  match v with
  | VUndef | VNull => Throw "TypeError: Cannot read properties of undefined"
  | VObj o => Ok (default VUndef (o !! k))
  | _ => Ok VUndef
  end.

(** [o.k] on an object *)
Definition field (o : obj) (k : string) : value := default VUndef (o !! k).

Fixpoint chars_of (s : string) : list value :=
  match s with
  | EmptyString => []
  | String c rest => VStr (String c "") :: chars_of rest
  end.

(** The own enumerable properties of a value, as [Object.assign] and
    [Object.entries] see a source: the fields of an object, the elements of
    an array or the characters of a string under their indices, nothing for
    the other primitives. *)
Definition own_props (v : value) : obj :=
  match v with
  | VObj o => o
  | VArr l => list_to_map (imap (fun i x => (pretty i, x)) l)
  | VStr s => list_to_map (imap (fun i x => (pretty i, x)) (chars_of s))
  | _ => ∅
  end.

(** The names every object literal inherits from [Object.prototype]: read
    through [map[key]] they give a function (or the prototype itself), which
    has no enumerable property of its own. *)
Definition Object_prototype_properties : list string :=
  ["constructor"; "__defineGetter__"; "__defineSetter__"; "hasOwnProperty";
   "__lookupGetter__"; "__lookupSetter__"; "isPrototypeOf"; "propertyIsEnumerable";
   "toString"; "valueOf"; "__proto__"; "toLocaleString"].

(** [key] is one of them. *)
Definition inherited (key : string) : bool :=
  bool_decide (key ∈ Object_prototype_properties).

(** [Object.assign(target, source)]: the properties of [source] are written
    over those of [target]; an [undefined] or [null] source is skipped. *)
Definition Object_assign (target : obj) (source : value) : obj :=
  own_props source ∪ target.

(** [assets[k]] as a value *)
Definition registry_get (assets : registry) (k : string) : value :=
  match assets !! k with
  | Some a => VObj a
  | None => VUndef
  end.

(** [assets[k]] as the target of a write: the entry of the registry, or,
    under a name of [Object.prototype] that is no entry, the inherited object
    (which has no enumerable property until something is written on it).
    What is written on an inherited object is recorded in the registry under
    its name, where the later reads [assets[k]] find it. *)
Definition registry_entry (assets : registry) (k : string) : option obj :=
  match assets !! k with
  | Some a => Some a
  | None => if inherited k then Some ∅ else None
  end.

(** [Object.entries(v)]: the own properties, in the enumeration order of the
    map (the order of the document is not kept). *)
Definition Object_entries (v : value) : result (list (string * value)) :=
  match v with
  | VUndef | VNull => Throw "TypeError: Cannot convert undefined or null to object"
  | _ => Ok (map_to_list (own_props v))
  end.

(** ** Deployment documents *)

Record target_data := {
  address : option string;
  (** name of the entry of [sources] the target was compiled from *)
  source : option string;
}.

(** An ABI fragment: its [type], its [name] when it has one, and the rest. *)
Record fragment := {
  ftype : string;
  fname : option string;
  fextra : obj;
}.

Record source_entry := {
  abi : list fragment;
  bytecode : string;
}.

Record deployment_doc := {
  targets : list (string * target_data);
  sources : gmap string source_entry;
}.

(** [o[k]] on an object kept as an association list *)
Fixpoint assoc {A} (l : list (string * A)) (k : string) : option A :=
  match l with
  | [] => None
  | (k', x) :: rest => if String.eqb k' k then Some x else assoc rest k
  end.

(** ** The static bundle and the modules handed in by the caller *)

(** One network folder of [data]. *)
Record bundle := {
  b_deployment : deployment_doc;
  b_feeds : value;
  b_offchainFeeds : value;
  b_synths : value;
  b_futuresMarkets : value;
  b_perpsv2Markets : value;
  b_rewards : value;
  b_shorting_rewards : value;
  b_versions : value;
}.

(** The [path] module: [path.join]. *)
Record path_module := {
  join : list string -> string;
}.

(** The [fs] module: [fs.existsSync] and [fs.readFileSync]. *)
Record fs_module := {
  existsSync : string -> bool;
  readFileSync : string -> result string;
}.

(** The argument object of the accessors. [wrap] hands the same object to
    every accessor and each one destructures the fields it names. A field
    that can be left [undefined] is an [option]; [useOvm] is read for its
    truthiness only. *)
Record options := {
  network : option string;
  useOvm : bool;
  path : option path_module;
  fs : option fs_module;
  deploymentPath : option string;
  skipPopulate : bool;
  byContract : bool;
  contract : option string;
}.

(** One market of the result: the proxy's address once the proxy has been
    seen, and the consolidated ABI. *)
Record market := {
  m_address : option string;
  m_abi : list fragment;
}.

(** The properties a caller passes to a bound accessor; [None] is a
    property the caller did not write. *)
Record props := {
  p_network : option (option string);
  p_useOvm : option bool;
  p_path : option (option path_module);
  p_fs : option (option fs_module);
  p_deploymentPath : option (option string);
  p_skipPopulate : option bool;
  p_byContract : option bool;
  p_contract : option (option string);
}.

(** [!!s] for an optional string *)
Definition given (s : option string) : bool :=
  match s with
  | Some s => negb (String.eqb s "")
  | None => false
  end.

Module constants.
Definition SYNTHS_FILENAME := "synths.json".
Definition STAKING_REWARDS_FILENAME := "rewards.json".
Definition SHORTING_REWARDS_FILENAME := "shorting-rewards.json".
Definition DEPLOYMENT_FILENAME := "deployment.json".
Definition VERSIONS_FILENAME := "versions.json".
Definition FEEDS_FILENAME := "feeds.json".
Definition OFFCHAIN_FEEDS_FILENAME := "offchain-feeds.json".
Definition FUTURES_MARKETS_FILENAME := "futures-markets.json".
Definition PERPS_V2_MARKETS_FILENAME := "perpsv2-markets.json".
End constants.

(** ** Loading a facet *)

Definition supplied {A} (x : option A) : bool :=
  match x with Some _ => true | None => false end.

(** [path.join(...parts)]; [path] may have been left out by the caller. *)
Definition path_join (p : option path_module) (parts : list string) : result string :=
  match p with
  | Some m => Ok (join m parts)
  | None => Throw "TypeError: Cannot read properties of undefined (reading 'join')"
  end.

(** [fs.existsSync(file)] *)
Definition fs_existsSync (f : option fs_module) (file : string) : result bool :=
  match f with
  | Some m => Ok (existsSync m file)
  | None => Throw "TypeError: Cannot read properties of undefined (reading 'existsSync')"
  end.

(** [fs.readFileSync(file)] *)
Definition fs_readFileSync (f : option fs_module) (file : string) : result string :=
  match f with
  | Some m => readFileSync m file
  | None => Throw "TypeError: Cannot read properties of undefined (reading 'readFileSync')"
  end.

(** The test [!deploymentPath && (!path || !fs)] that opens every accessor:
    when it holds the facet comes from the static bundle. *)
Definition from_bundle (o : options) : bool :=
  negb (given (deploymentPath o)) && (negb (supplied (path o)) || negb (supplied (fs o))).

(** What [getTarget] and [getSource] return: one entry of the mapping
    ([undefined] when the name is not a key) or the whole mapping. *)
Inductive projection (A M : Type) : Type :=
| One (entry : option A)
| All (mapping : M).
Arguments One {A M} entry.
Arguments All {A M} mapping.

Section Accessors.

(** [data]: the bundled folders, by folder name. *)
Variable data : gmap string bundle.
(** [__dirname] *)
Variable dirname : string.
(** [JSON.parse], and [JSON.parse] read at the type of a deployment
    document. *)
Variable JSON_parse : string -> result value.
Variable JSON_parse_deployment : string -> result deployment_doc.

(** [data[getFolderNameForNetwork({ network, useOvm })]], on which a facet
    is read next: a folder of the bundle; or, under a name of
    [Object.prototype] that is no folder, the inherited object ([None]), every
    facet of which is [undefined]; or [undefined], on which the read throws.
    [network] is [undefined] when the accessor has no default for it and the
    caller gave none. *)
Definition data_folder (network : option string) (useOvm : bool) : result (option bundle) :=
  match network with
  | None => Throw "TypeError: Cannot read properties of undefined (reading 'includes')"
  | Some n =>
      match data !! getFolderNameForNetwork n useOvm with
      | Some b => Ok (Some b)
      | None =>
          if inherited (getFolderNameForNetwork n useOvm) then Ok None
          else Throw "TypeError: Cannot read properties of undefined"
      end
  end.

(** [folder.facet] on what [data_folder] found. *)
Definition facet (folder : option bundle) (read : bundle -> value) : value :=
  from_option read VUndef folder.

(** [getPathToNetwork({ network = 'mainnet', file = '', useOvm = false, path })] *)
Definition getPathToNetwork (network : option string) (file : string) (useOvm : bool)
    (path : option path_module) : result string :=
  path_join path
    [dirname; "publish"; "deployed";
     getFolderNameForNetwork (default "mainnet" network) useOvm; file].

(** The location read when the bundle is not used:
    [deploymentPath ? path.join(deploymentPath, file)
                    : getPathToNetwork({ network, useOvm, path, file })]. *)
Definition facet_path (o : options) (network : option string) (file : string)
    : result string :=
  if given (deploymentPath o)
  then path_join (path o) [default "" (deploymentPath o); file]
  else getPathToNetwork network file (useOvm o) (path o).

(** [Cannot find deployment for network: ${network}.] *)
Definition deployment_not_found (network : string) : string :=
  "Cannot find deployment for network: " ++ network ++ ".".

(** [loadDeploymentFile({ network = 'mainnet', path, fs, deploymentPath, useOvm = false })];
    [None] is the [undefined] read on an inherited object. *)
Definition loadDeploymentFile (o : options) : result (option deployment_doc) :=
  let name := default "mainnet" (network o) in
  let network := Some name in
  if from_bundle o then
    let! b := data_folder network (useOvm o) in Ok (b_deployment <$> b)
  else
    let! pathToDeployment := facet_path o network constants.DEPLOYMENT_FILENAME in
    let! found := fs_existsSync (fs o) pathToDeployment in
    if negb found then Throw (deployment_not_found name)
    else let! text := fs_readFileSync (fs o) pathToDeployment in
         let! deployment := JSON_parse_deployment text in
         Ok (Some deployment).

(** [deployment.targets] and [deployment.sources]: the read throws on
    [undefined]. *)
Definition read_deployment (deployment : option deployment_doc) : result deployment_doc :=
  match deployment with
  | Some deployment => Ok deployment
  | None => Throw "TypeError: Cannot read properties of undefined"
  end.

(** [getTarget({ network = 'mainnet', useOvm = false, contract, path, fs, deploymentPath })] *)
Definition getTarget (o : options) : result (projection target_data (list (string * target_data))) :=
  let! deployment := loadDeploymentFile o in
  let! deployment := read_deployment deployment in
  if given (contract o)
  then Ok (One (assoc (targets deployment) (default "" (contract o))))
  else Ok (All (targets deployment)).

(** [getSource({ network = 'mainnet', useOvm = false, contract, path, fs, deploymentPath })] *)
Definition getSource (o : options)
    : result (projection source_entry (gmap string source_entry)) :=
  let! deployment := loadDeploymentFile o in
  let! deployment := read_deployment deployment in
  if given (contract o)
  then Ok (One (sources deployment !! default "" (contract o)))
  else Ok (All (sources deployment)).

(** The reducer of [getFeeds]:
    [memo[asset] = Object.assign(assets[asset], entry)].  The target of
    [Object.assign] is the registry entry itself, so the registry is
    written; an asset symbol under which [assets[asset]] is [undefined]
    makes [Object.assign] throw. The entries are visited in the enumeration
    order of the map. *)
Fixpoint getFeeds_reduce (entries : list (string * value)) (memo : registry)
    (assets : registry) : result registry * registry :=
  match entries with
  | [] => (Ok memo, assets)
  | (asset, entry) :: rest =>
      match registry_entry assets asset with
      | None => (Throw "TypeError: Cannot convert undefined or null to object", assets)
      | Some a =>
          let merged := Object_assign a entry in
          getFeeds_reduce rest (<[asset := merged]> memo) (<[asset := merged]> assets)
      end
  end.

(** The first half of [getFeeds]: the raw feeds document. *)
Definition load_feeds (o : options) : result value :=
  if from_bundle o then
    let! b := data_folder (network o) (useOvm o) in Ok (facet b b_feeds)
  else
    let! pathToFeeds := facet_path o (network o) constants.FEEDS_FILENAME in
    let! found := fs_existsSync (fs o) pathToFeeds in
    if negb found then Throw "Cannot find feeds file."
    else let! text := fs_readFileSync (fs o) pathToFeeds in
         JSON_parse text.

(** [getFeeds({ network, path, fs, deploymentPath, useOvm = false })] *)
Definition getFeeds (o : options) (assets : registry) : result registry * registry :=
  match load_feeds o with
  | Throw msg => (Throw msg, assets)
  | Ok feeds =>
      match Object_entries feeds with
      | Throw msg => (Throw msg, assets)
      | Ok entries => getFeeds_reduce entries ∅ assets
      end
  end.

(** [getOffchainFeeds({ network, path, fs, deploymentPath, useOvm = false })] *)
Definition getOffchainFeeds (o : options) : result value :=
  if from_bundle o then
    let! b := data_folder (network o) (useOvm o) in Ok (facet b b_offchainFeeds)
  else
    let! pathToFeeds := facet_path o (network o) constants.OFFCHAIN_FEEDS_FILENAME in
    let! found := fs_existsSync (fs o) pathToFeeds in
    if negb found then Throw "Cannot find off-chain feeds file."
    else let! text := fs_readFileSync (fs o) pathToFeeds in
         JSON_parse text.

(** [synths.find(({ name }) => name === s)] for a string [s]; destructuring
    an [undefined] or [null] element throws. *)
Fixpoint find_named (synths : list value) (s : string) : result (option value) :=
  match synths with
  | [] => Ok None
  | x :: rest =>
      let! name := get_prop x "name" in
      match name with
      | VStr n => if String.eqb n s then Ok (Some x) else find_named rest s
      | _ => find_named rest s
      end
  end.

(** [Object.assign({}, assets[indexEntry.asset], indexEntry)] *)
Definition mixin_index_entry (assets : registry) (indexEntry : value) : result value :=
  let! asset := get_prop indexEntry "asset" in
  Ok (VObj (Object_assign (Object_assign ∅ (registry_get assets (to_key asset))) indexEntry)).

(** The callback of [synths.map] in [getSynths]. *)
Definition populate_synth (assets feeds : registry) (synths : list value) (synth : value)
    : result value :=
  (* synth = Object.assign({}, assets[synth.asset], synth) *)
  let! asset := get_prop synth "asset" in
  let synth := Object_assign (Object_assign ∅ (registry_get assets (to_key asset))) synth in
  (* if (feeds[synth.asset]) synth = Object.assign({ feed }, synth) *)
  let synth :=
    match feeds !! to_key (field synth "asset") with
    | Some entry => Object_assign {[ "feed" := field entry "feed" ]} (VObj synth)
    | None => synth
    end in
  (* replace an index placeholder with the index details *)
  let! synth :=
    match field synth "index" with
    | VStr placeholder =>
        let! found := find_named synths placeholder in
        let! index :=
          match found with
          | Some x => get_prop x "index"
          | None => Ok VUndef
          end in
        if negb (truthy index)
        then Throw "index mapping cannot be found - this is an error in the deployment config and should be fixed"
        else Ok (Object_assign (Object_assign ∅ (VObj synth)) (VObj {[ "index" := index ]}))
    | _ => Ok synth
    end in
  (* if (synth.index) synth.index = synth.index.map(...) *)
  if truthy (field synth "index") then
    match field synth "index" with
    | VArr entries =>
        let! entries := mapM (mixin_index_entry assets) entries in
        Ok (VObj (<[ "index" := VArr entries ]> synth))
    | _ => Throw "TypeError: synth.index.map is not a function"
    end
  else Ok (VObj synth).

(** The first half of [getSynths]: the raw synth list. *)
Definition load_synths (o : options) : result value :=
  let network := Some (default "mainnet" (network o)) in
  if from_bundle o then
    let! b := data_folder network (useOvm o) in Ok (facet b b_synths)
  else
    let! pathToSynthList := facet_path o network constants.SYNTHS_FILENAME in
    let! found := fs_existsSync (fs o) pathToSynthList in
    if negb found then Throw "Cannot find synth list."
    else let! text := fs_readFileSync (fs o) pathToSynthList in
         JSON_parse text.

(** The options [getSynths] hands to [getFeeds]:
    [{ network, useOvm, path, fs, deploymentPath }], the network with its
    default applied. *)
Definition with_network (o : options) : options :=
  {| network := Some (default "mainnet" (network o)); useOvm := useOvm o;
     path := path o; fs := fs o; deploymentPath := deploymentPath o;
     skipPopulate := false; byContract := false; contract := None |}.

(** [getSynths({ network = 'mainnet', path, fs, deploymentPath, useOvm = false,
    skipPopulate = false })] *)
Definition getSynths (o : options) (assets : registry) : result value * registry :=
  match load_synths o with
  | Throw msg => (Throw msg, assets)
  | Ok synths =>
      if skipPopulate o then (Ok synths, assets)
      else
        match getFeeds (with_network o) assets with
        | (Throw msg, assets) => (Throw msg, assets)
        | (Ok feeds, assets) =>
            match synths with
            | VArr list =>
                (let! out := mapM (populate_synth assets feeds list) list in Ok (VArr out),
                 assets)
            | _ => (Throw "TypeError: synths.map is not a function", assets)
            end
        end
  end.

(** The callback of [futuresMarkets.map] and [perpsMarkets.map]: the asset
    key loses its first character when it is one of the legacy keys, then
    [Object.assign({}, assets[assetKey], market)]. *)
Definition mixin_market (marketsWithIncorrectAssetKey : list string) (assets : registry)
    (market : value) : result value :=
  let! asset := get_prop market "asset" in
  let assetKey :=
    match asset with
    | VStr s => if bool_decide (s ∈ marketsWithIncorrectAssetKey) then slice s 1 else s
    | other => to_key other
    end in
  Ok (VObj (Object_assign (Object_assign ∅ (registry_get assets assetKey)) market)).

(** The list read by [getFuturesMarkets] and [getPerpsMarkets] when the
    bundle is not used: [[]] when the file is absent, else
    [JSON.parse(...) || []]. *)
Definition load_markets (o : options) (file : string) : result value :=
  let network := Some (default "mainnet" (network o)) in
  let! pathToList := facet_path o network file in
  let! found := fs_existsSync (fs o) pathToList in
  if negb found then Ok (VArr [])
  else let! text := fs_readFileSync (fs o) pathToList in
       let! parsed := JSON_parse text in
       Ok (if truthy parsed then parsed else VArr []).

(** [markets.map(callback)] *)
Definition map_markets (legacy : list string) (assets : registry) (markets : value)
    : result value :=
  match markets with
  | VArr list => let! out := mapM (mixin_market legacy assets) list in Ok (VArr out)
  | _ => Throw "TypeError: map is not a function"
  end.

(** [getFuturesMarkets({ network = 'mainnet', useOvm = false, path, fs, deploymentPath })] *)
Definition getFuturesMarkets (o : options) (assets : registry) : result value :=
  let! futuresMarkets :=
    if from_bundle o then
      let! b := data_folder (Some (default "mainnet" (network o))) (useOvm o) in
      Ok (facet b b_futuresMarkets)
    else load_markets o constants.FUTURES_MARKETS_FILENAME in
  map_markets ["zBTC"; "zETH"; "zLINK"] assets futuresMarkets.

(** [getPerpsMarkets({ network = 'mainnet', useOvm = false, path, fs, deploymentPath })] *)
Definition getPerpsMarkets (o : options) (assets : registry) : result value :=
  let! perpsMarkets :=
    if from_bundle o then
      let! b := data_folder (Some (default "mainnet" (network o))) (useOvm o) in
      Ok (facet b b_perpsv2Markets)
    else load_markets o constants.PERPS_V2_MARKETS_FILENAME in
  map_markets ["zBTC"; "zETH"] assets perpsMarkets.

(** The body shared by [getStakingRewards] and [getShortingRewards]:
    the bundled list, [[]] when the file is absent, else the parsed file. *)
Definition load_rewards (o : options) (bundled : bundle -> value) (file : string)
    : result value :=
  let network := Some (default "mainnet" (network o)) in
  if from_bundle o then
    let! b := data_folder network (useOvm o) in Ok (facet b bundled)
  else
    let! pathToList := facet_path o network file in
    let! found := fs_existsSync (fs o) pathToList in
    if negb found then Ok (VArr [])
    else let! text := fs_readFileSync (fs o) pathToList in
         JSON_parse text.

(** [getStakingRewards({ network = 'mainnet', useOvm = false, path, fs, deploymentPath })] *)
Definition getStakingRewards (o : options) : result value :=
  load_rewards o b_rewards constants.STAKING_REWARDS_FILENAME.

(** [getShortingRewards({ network = 'mainnet', useOvm = false, path, fs, deploymentPath })] *)
Definition getShortingRewards (o : options) : result value :=
  load_rewards o b_shorting_rewards constants.SHORTING_REWARDS_FILENAME.

(** The first half of [getVersions]. *)
Definition load_versions (o : options) : result value :=
  let network := Some (default "mainnet" (network o)) in
  if from_bundle o then
    let! b := data_folder network (useOvm o) in Ok (facet b b_versions)
  else
    let! pathToVersions := facet_path o network constants.VERSIONS_FILENAME in
    let! found := fs_existsSync (fs o) pathToVersions in
    if negb found then Throw "Cannot find versions for network."
    else let! text := fs_readFileSync (fs o) pathToVersions in
         JSON_parse text.

(** The reducer of [getVersions] with [byContract]: every contract of the
    release gets the release's stamp merged under its own entry. Under a
    contract name that every object inherits from [Object.prototype],
    [memo[contract] || []] is the inherited object, which has no [push]. *)
Definition versions_by_contract (memo : gmap string (list value)) (version : value)
    : result (gmap string (list value)) :=
  let! tag := get_prop version "tag" in
  let! release := get_prop version "release" in
  let! date := get_prop version "date" in
  let! commit := get_prop version "commit" in
  let! block := get_prop version "block" in
  let! contracts := get_prop version "contracts" in
  let! entries := Object_entries contracts in
  let stamp : obj :=
    <[ "tag" := tag ]> (<[ "release" := release ]> (<[ "date" := date ]>
      (<[ "commit" := commit ]> {[ "block" := block ]}))) in
  if existsb (fun entry => inherited entry.1) entries
  then Throw "TypeError: memo[contract].push is not a function"
  else
    Ok (foldl (fun memo '(contract, contractEntry) =>
                 <[ contract := (default [] (memo !! contract)
                                 ++ [VObj (Object_assign stamp contractEntry)])%list ]> memo)
              memo entries).

Fixpoint foldM {A B} (f : A -> B -> result A) (xs : list B) (a : A) : result A :=
  match xs with
  | [] => Ok a
  | x :: xs' => let! a' := f a x in foldM f xs' a'
  end.

(** [getVersions({ network = 'mainnet', path, fs, deploymentPath, useOvm,
    byContract = false })] *)
Definition getVersions (o : options) : result value :=
  let! versions := load_versions o in
  if byContract o then
    let! entries := Object_entries versions in
    let! memo := foldM versions_by_contract (entries.*2) ∅ in
    Ok (VObj (VArr <$> memo))
  else Ok versions.

(** *** PerpsV2 proxied markets *)

(** [!!f.name] *)
Definition named (f : fragment) : bool := given (fname f).

(** The predicate of [consolidatedAbi.find]:
    [f.type === abiFragment.type && f.name && abiFragment.name
     && f.name === abiFragment.name] *)
Definition same_fragment (abiFragment f : fragment) : bool :=
  String.eqb (ftype f) (ftype abiFragment) && named f && named abiFragment
  && bool_decide (fname f = fname abiFragment).

(** [_consolidateAbi(currentAbi, consolidatedAbi)]: the array
    [consolidatedAbi] is extended in place; its new content is returned. *)
Definition _consolidateAbi (currentAbi consolidatedAbi : list fragment) : list fragment :=
  foldl (fun consolidatedAbi abiFragment =>
           if negb (existsb (same_fragment abiFragment) consolidatedAbi) then
             if negb (String.eqb (ftype abiFragment) "constructor")
             then (consolidatedAbi ++ [abiFragment])%list
             else consolidatedAbi
           else consolidatedAbi)
        consolidatedAbi currentAbi.

Definition proxyPrefix := "PerpsV2Proxy".
Definition marketPrefix := "PerpsV2Market".
Definition excludedContracts :=
  ["PerpsV2MarketSettings"; "PerpsV2MarketData"; "PerpsV2ExchangeRate"].
Definition excludedLegacyContracts := ["PerpsV2DelayedOrder"; "PerpsV2OffchainDelayedOrder"].
Definition prefixes :=
  ["PerpsV2MarketViews"; "PerpsV2DelayedIntent"; "PerpsV2DelayedExecution";
   "PerpsV2MarketLiquidate"].

(** [sourceData.abi] as the argument of [_consolidateAbi]: it is read only
    for a component whose market name was found; [sourceData] is
    [undefined] when the target's source is not a key of [sources], and is
    the whole mapping (whose [abi] is no array) when the target names no
    source. *)
Definition abi_of (sourceData : projection source_entry (gmap string source_entry))
    : result (list fragment) :=
  match sourceData with
  | One (Some s) => Ok (abi s)
  | One None => Throw "TypeError: Cannot read properties of undefined (reading 'abi')"
  | All _ => Throw "TypeError: currentAbi is not iterable"
  end.

(** [if (!PerpsV2Proxied[marketName]) { PerpsV2Proxied[marketName] = {};
    PerpsV2Proxied[marketName].abi = []; }]: under a name of
    [Object.prototype] that is no market yet the lookup gives the inherited
    object, which is truthy, and no market is made. *)
Definition init_market (PerpsV2Proxied : gmap string market) (marketName : string)
    : gmap string market :=
  match PerpsV2Proxied !! marketName with
  | Some _ => PerpsV2Proxied
  | None =>
      if inherited marketName then PerpsV2Proxied
      else <[ marketName := {| m_address := None; m_abi := [] |} ]> PerpsV2Proxied
  end.

(** [_consolidateAbi(currentAbi, PerpsV2Proxied[marketName].abi)] once the
    market is initialised.  Where [PerpsV2Proxied[marketName]] is an
    inherited object its [abi] is [undefined], on which
    [consolidatedAbi.find] throws at the first fragment. *)
Definition consolidate_market (currentAbi : list fragment) (marketName : string)
    (PerpsV2Proxied : gmap string market) : result (gmap string market) :=
  match PerpsV2Proxied !! marketName, currentAbi with
  | None, _ :: _ => Throw "TypeError: Cannot read properties of undefined (reading 'find')"
  | _, _ =>
      Ok (alter (fun m => {| m_address := m_address m;
                             m_abi := _consolidateAbi currentAbi (m_abi m) |})
                marketName PerpsV2Proxied)
  end.

(** [_analyzeAndIncludePerpsV2(target, targetData, sourceData, PerpsV2Proxied)] *)
Definition _analyzeAndIncludePerpsV2 (target : string) (targetData : target_data)
    (sourceData : projection source_entry (gmap string source_entry))
    (PerpsV2Proxied : gmap string market) : result (gmap string market) :=
  if bool_decide (target ∈ excludedContracts)
     || startsWith target "PerpsV2MarketState"
     || existsb (fun prefix => startsWith target prefix) excludedLegacyContracts
  then Ok PerpsV2Proxied
  else if startsWith target proxyPrefix then
    let marketName := slice target (String.length proxyPrefix) in
    let PerpsV2Proxied := init_market PerpsV2Proxied marketName in
    (* on an inherited object the address is written outside the mapping *)
    Ok (alter (fun m => {| m_address := address targetData; m_abi := m_abi m |})
              marketName PerpsV2Proxied)
  else
    (* for (const prefix of prefixes): no [break], the last match stays *)
    let marketName : option string :=
      foldl (fun found prefix =>
               if startsWith target prefix
               then Some (slice target (String.length prefix)) else found)
            None prefixes in
    let marketName :=
      match marketName with
      | Some name => Some name
      | None =>
          if startsWith target marketPrefix
          then Some (slice target (String.length marketPrefix)) else None
      end in
    match marketName with
    | Some marketName =>
        let PerpsV2Proxied := init_market PerpsV2Proxied marketName in
        let! currentAbi := abi_of sourceData in
        consolidate_market currentAbi marketName PerpsV2Proxied
    | None => Ok PerpsV2Proxied
    end.

(** The options of the three loads inside [getPerpsV2ProxiedMarkets]:
    [{ contract, network, useOvm: false, path, fs, deploymentPath }].  The
    accessor destructures [{ network = 'mainnet', fs, deploymentPath, path }]
    only. *)
Definition perps_options (o : options) (contract : option string) : options :=
  {| network := Some (default "mainnet" (network o)); useOvm := false;
     path := path o; fs := fs o; deploymentPath := deploymentPath o;
     skipPopulate := false; byContract := false; contract := contract |}.

(** The body of [for (const target of targets)]. *)
Definition perps_visit (o : options) (PerpsV2Proxied : gmap string market) (target : string)
    : result (gmap string market) :=
  if negb (startsWith target "PerpsV2") then Ok PerpsV2Proxied
  else
    let! targetData := getTarget (perps_options o (Some target)) in
    match targetData with
    | One (Some targetData) =>
        let! sourceData := getSource (perps_options o (source targetData)) in
        _analyzeAndIncludePerpsV2 target targetData sourceData PerpsV2Proxied
    | One None => Throw "TypeError: Cannot read properties of undefined (reading 'source')"
    | All _ =>
        (* not reached: a name that starts with 'PerpsV2' is not empty *)
        Throw "unreachable"
    end.

(** [getPerpsV2ProxiedMarkets({ network = 'mainnet', fs, deploymentPath, path })] *)
Definition getPerpsV2ProxiedMarkets (o : options) : result (gmap string market) :=
  let! deploymentData := loadDeploymentFile (perps_options o None) in
  let! deploymentData := read_deployment deploymentData in
  let targets := (targets deploymentData).*1 in
  foldM (perps_visit o) targets ∅.

(** *** The binding factory *)

(** [Object.assign({ network, deploymentPath, fs, path, useOvm }, prop)]
    for [wrap({ network, deploymentPath, fs, path, useOvm = false })]. *)
Definition wrap_options (w : options) (prop : props) : options :=
  {| network := default (network w) (p_network prop);
     useOvm := default (useOvm w) (p_useOvm prop);
     path := default (path w) (p_path prop);
     fs := default (fs w) (p_fs prop);
     deploymentPath := default (deploymentPath w) (p_deploymentPath prop);
     skipPopulate := default false (p_skipPopulate prop);
     byContract := default false (p_byContract prop);
     contract := default None (p_contract prop) |}.

(** [wrap(w).getPerpsV2ProxiedMarkets(prop)] *)
Definition wrap_getPerpsV2ProxiedMarkets (w : options) (prop : props)
    : result (gmap string market) :=
  getPerpsV2ProxiedMarkets (wrap_options w prop).

(** [wrap(w).getTarget(prop)] *)
Definition wrap_getTarget (w : options) (prop : props) :=
  getTarget (wrap_options w prop).

End Accessors.

(** ** The decode enhancer *)

Definition error_decoding : string := "\error decoding\".

(** [decodedBytes32(p)]: [fromBytes32] throws on anything that is not a
    strict hex string; the exception is caught. *)
Definition decodedBytes32 (p : value) : obj :=
  let attempt :=
    match p with
    | VStr key => let! ascii := fromBytes32 key in Ok (strip_nul ascii)
    | _ => Throw "The parameter must be a valid HEX string."
    end in
  match attempt with
  | Ok ascii => {[ "ascii" := VStr ascii ]}
  | Throw _ => {[ "ascii" := VStr error_decoding ]}
  end.

Definition is_digit (c : ascii) : bool :=
  let n := N_of_ascii c in ((48 <=? n) && (n <=? 57))%N.

(** Number of digits at the head of a string. *)
Fixpoint leading_digits (s : string) : nat :=
  match s with
  | EmptyString => O
  | String c rest => if is_digit c then S (leading_digits rest) else O
  end.

(** [formatDecimals]: [s.replace(/(\d)(?=(\d{3})+(?!\d))/g, '$1,')], a comma
    after every digit that is followed by a run of exactly [3k] digits,
    [k >= 1]. *)
Fixpoint formatDecimals (s : string) : string :=
  match s with
  | EmptyString => EmptyString
  | String c rest =>
      let n := leading_digits rest in
      if is_digit c && (0 <? n)%nat && (n mod 3 =? 0)%nat
      then String c (String "," (formatDecimals rest))
      else String c (formatDecimals rest)
  end.

(** The [.] of a regular expression: any character but a line terminator. *)
Definition regex_dot (c : ascii) : bool :=
  negb (Ascii.eqb c "010" || Ascii.eqb c "013").

(** What follows [int] in [/u?int[1-3][0-9]?./]. *)
Definition int_width (s : string) : bool :=
  match s with
  | String d rest =>
      let n := N_of_ascii d in
      ((49 <=? n) && (n <=? 51))%N &&
      match rest with
      | EmptyString => false
      | String c rest' =>
          (is_digit c && match rest' with String c' _ => regex_dot c' | EmptyString => false end)
          || regex_dot c
      end
  | EmptyString => false
  end.

(** [/u?int[1-3][0-9]?./.test(s)]: the pattern is not anchored. *)
Fixpoint is_int_type (s : string) : bool :=
  (startsWith s "int" && int_width (slice s 3)) ||
  match s with
  | EmptyString => false
  | String _ rest => is_int_type rest
  end.

Section Enhance.

(** [w3utils.toBN]: the integer a value denotes; it throws on anything
    else. *)
Variable toBN : value -> result Z.
(** The global [isNaN], on property names. *)
Variable isNaN : string -> bool.

(** [decodeUint(p)]; [BN.div] truncates towards zero. *)
Definition decodeUint (p : value) : obj :=
  match toBN p with
  | Ok value =>
      <[ "bp" := VStr (pretty (value ÷ 10 ^ 14)%Z) ]>
      (<[ "decimal" := VStr (formatDecimals (pretty (value ÷ 10 ^ 18)%Z)) ]>
      {[ "number" := VStr (formatDecimals (pretty value)) ]})
  | Throw _ => {[ "ascii" := VStr error_decoding ]}
  end.

(** The body of [for (const key of keys)] in the tuple branch, for the
    value [p.value[key]]: [startsWith] is called on it outside any [try]. *)
Definition enhance_tuple_field (v : value) : result value :=
  match v with
  | VStr s =>
      if startsWith s "0x" then
        if (String.length s =? 66)%nat
        then Ok (VObj (<[ "original" := v ]> {[ "enhanced" := VObj (decodedBytes32 v) ]}))
        else Ok v
      else Ok (VObj (<[ "original" := v ]> {[ "enhanced" := VObj (decodeUint v) ]}))
  | VUndef | VNull => Throw "TypeError: Cannot read properties of undefined (reading 'startsWith')"
  | _ => Throw "TypeError: p.value[key].startsWith is not a function"
  end.

(** The tuple branch: the named fields of [p.value], each enhanced. The
    result [values] is an empty array that carries them as named
    properties; it is kept as the object of those properties. *)
Definition enhance_tuple (v : value) : result value :=
  match v with
  | VUndef | VNull => Throw "TypeError: Cannot convert undefined or null to object"
  | _ =>
      let keys := filter (fun kv => isNaN kv.1 = true) (map_to_list (own_props v)) in
      let! values := mapM (fun kv => let! x := enhance_tuple_field kv.2 in Ok (kv.1, x)) keys in
      Ok (VObj (list_to_map values))
  end.

(** The callback of [decoded.method.params.map]. *)
Definition enhance_param (p : value) : result value :=
  let! type := get_prop p "type" in
  let! value := get_prop p "value" in
  match type with
  | VStr "bytes32" =>
      Ok (VObj (<[ "enhanced" := VObj (decodedBytes32 value) ]> (own_props p)))
  | _ =>
      (* if (p.type === 'bytes32[]') p.value = p.value.map(...) *)
      let! p :=
        match type with
        | VStr "bytes32[]" =>
            match value with
            | VArr elements =>
                Ok (VObj (<[ "value" :=
                   VArr ((fun original =>
                            VObj (<[ "original" := original ]>
                                    {[ "enhanced" := VObj (decodedBytes32 original) ]}))
                         <$> elements) ]> (own_props p)))
            | _ => Throw "TypeError: p.value.map is not a function"
            end
        | _ => Ok p
        end in
      let! value := get_prop p "value" in
      if is_int_type (to_key type) then
        Ok (VObj (<[ "enhanced" := VObj (decodeUint value) ]> (own_props p)))
      else
        match type with
        | VStr "tuple" =>
            let! values := enhance_tuple value in
            Ok (VObj (<[ "value" := values ]> (own_props p)))
        | _ => Ok p
        end
  end.

(** [enhanceDecodedData(decoded)] *)
Definition enhanceDecodedData (decoded : value) : result value :=
  let! method := get_prop decoded "method" in
  let! params := get_prop method "params" in
  match params with
  | VArr params =>
      let! enhancedParams := mapM enhance_param params in
      let enhancedMethod := <[ "params" := VArr enhancedParams ]> (own_props method) in
      Ok (VObj (<[ "method" := VObj enhancedMethod ]> (own_props decoded)))
  | _ => Throw "TypeError: decoded.method.params.map is not a function"
  end.

End Enhance.

(** ** Predicates on a consolidated ABI *)

(** No fragment is a constructor. *)
Definition no_constructor (abi : list fragment) : Prop :=
  Forall (fun f => ftype f <> "constructor") abi.

(** The key [_consolidateAbi] compares: the type and the name. *)
Definition fragment_key (f : fragment) : string * option string := (ftype f, fname f).

(** No two fragments, at different places, have the same key. *)
Definition keys_unique (abi : list fragment) : Prop :=
  forall i j f g, abi !! i = Some f -> abi !! j = Some g -> i <> j ->
                  fragment_key f <> fragment_key g.

(** The same, for the fragments that have a (non-empty) name only. *)
Definition named_keys_unique (abi : list fragment) : Prop :=
  forall i j f g, abi !! i = Some f -> abi !! j = Some g -> i <> j ->
                  named f = true -> named g = true ->
                  fragment_key f <> fragment_key g.

(** The invariant of the accumulator [PerpsV2Proxied]. *)
Definition markets_ok (PerpsV2Proxied : gmap string market) : Prop :=
  forall name m, PerpsV2Proxied !! name = Some m ->
                 no_constructor (m_abi m) /\ named_keys_unique (m_abi m).

(** The options of a call that reads the static bundle: nothing but the
    network (and the [useOvm] flag) is given. *)
Definition bundled (network : option string) (useOvm : bool) : options :=
  {| network := network; useOvm := useOvm; path := None; fs := None;
     deploymentPath := None; skipPopulate := false; byContract := false;
     contract := None |}.

(** A folder of the bundle that holds a deployment document and the synth
    and feed facets; the other facets are empty lists. *)
Definition folder (d : deployment_doc) (synths feeds : value) : bundle :=
  {| b_deployment := d; b_feeds := feeds; b_offchainFeeds := VObj ∅;
     b_synths := synths; b_futuresMarkets := VArr []; b_perpsv2Markets := VArr [];
     b_rewards := VArr []; b_shorting_rewards := VArr []; b_versions := VObj ∅ |}.

(** A [JSON.parse] for the calls that read no file. *)
Definition no_parse {A} (text : string) : result A := Throw "SyntaxError".



(** No property written by the caller. *)
Definition no_props : props :=
  {| p_network := None; p_useOvm := None; p_path := None; p_fs := None;
     p_deploymentPath := None; p_skipPopulate := None; p_byContract := None;
     p_contract := None |}.

(** A [path] module that joins with [/], and a file system with no file. *)
Definition slash_path : path_module := {| join := String.concat "/" |}.
Definition empty_fs : fs_module :=
  {| existsSync := fun _ => false; readFileSync := fun _ => Throw "ENOENT" |}.

(** The options of a call that reads a directory on disk. *)
Definition on_disk (network : option string) (useOvm : bool) (deploymentPath : option string)
    (f : fs_module) : options :=
  {| network := network; useOvm := useOvm; path := Some slash_path; fs := Some f;
     deploymentPath := deploymentPath; skipPopulate := false; byContract := false;
     contract := None |}.

(** ** Sample inputs *)

Module Examples.

Definition fallback : fragment :=
  {| ftype := "fallback"; fname := None; fextra := ∅ |}.
Definition transfer : fragment :=
  {| ftype := "function"; fname := Some "transfer"; fextra := ∅ |}.
Definition constructor : fragment :=
  {| ftype := "constructor"; fname := None; fextra := ∅ |}.

(** The deployment of the grouping example: a proxy, its views component
    with the one-fragment ABI [[f1]], and the settings helper. *)
Definition btc_deployment (A : option string) (f1 : fragment) : deployment_doc :=
  {| targets :=
       [("PerpsV2ProxyBTC", {| address := A; source := Some "ProxyPerpsV2" |});
        ("PerpsV2MarketViewsBTC",
         {| address := Some "0x01"; source := Some "PerpsV2MarketViews" |});
        ("PerpsV2MarketSettings",
         {| address := Some "0x02"; source := Some "PerpsV2MarketSettings" |})];
     sources :=
       <[ "ProxyPerpsV2" := {| abi := [constructor]; bytecode := "" |} ]>
       (<[ "PerpsV2MarketViews" := {| abi := [f1]; bytecode := "" |} ]>
        {[ "PerpsV2MarketSettings" := {| abi := [transfer]; bytecode := "" |} ]}) |}.

(** A market whose two components both declare a nameless [fallback]. *)
Definition fallback_deployment : deployment_doc :=
  {| targets :=
       [("PerpsV2MarketViewsBTC",
         {| address := Some "0x01"; source := Some "PerpsV2MarketViews" |});
        ("PerpsV2MarketBTC",
         {| address := Some "0x03"; source := Some "PerpsV2Market" |})];
     sources :=
       <[ "PerpsV2MarketViews" := {| abi := [fallback; transfer]; bytecode := "" |} ]>
       {[ "PerpsV2Market" := {| abi := [fallback; transfer]; bytecode := "" |} ]} |}.

(** A network with its OVM twin: the grouping example in the plain
    folder, the two-fallback deployment in the [-ovm] folder. *)
Definition two_folders : gmap string bundle :=
  <[ "mainnet" := folder (btc_deployment (Some "0xA") transfer) (VArr []) (VObj ∅) ]>
  {[ "mainnet-ovm" := folder fallback_deployment (VArr []) (VObj ∅) ]}.

(** A bundle with one folder. *)
Definition one_folder (name : string) (d : deployment_doc) : gmap string bundle :=
  {[ name := folder d (VArr []) (VObj ∅) ]}.

Definition parse_disk_folder (text : string) : result deployment_doc :=
  if String.eqb text "plain" then Ok (btc_deployment (Some "0xA") transfer)
  else if String.eqb text "ovm" then Ok fallback_deployment
  else Throw "SyntaxError".

(** A directory given as [deploymentPath], with the deployment of the
    grouping example in it. *)
Definition fork_disk : fs_module :=
  {| existsSync := fun file => String.eqb file "/deployments/fork/deployment.json";
     readFileSync := fun file =>
       if String.eqb file "/deployments/fork/deployment.json" then Ok "plain"
       else Throw "ENOENT" |}.

(** Two networks that share the symbol [BTC]: [mainnet] has a feed for
    it, [testnet] has a synth on it and no feed. *)
Definition btc_asset : obj :=
  <[ "asset" := VStr "BTC" ]> {[ "category" := VStr "crypto" ]}.
Definition btc_registry : registry := {[ "BTC" := btc_asset ]}.
Definition btc_feed : value :=
  VObj (<[ "asset" := VStr "BTC" ]> {[ "feed" := VStr "0xFEED" ]}).
Definition zBTC : value :=
  VObj (<[ "name" := VStr "zBTC" ]> {[ "asset" := VStr "BTC" ]}).
Definition zBTC_with_feed : value :=
  VObj (<[ "name" := VStr "zBTC" ]> (<[ "asset" := VStr "BTC" ]>
          {[ "feed" := VStr "0xRAW" ]})).
Definition empty_deployment : deployment_doc := {| targets := []; sources := ∅ |}.
Definition feed_networks : gmap string bundle :=
  <[ "mainnet" := folder empty_deployment (VArr [zBTC_with_feed])
                    (VObj {[ "BTC" := btc_feed ]}) ]>
  {[ "testnet" := folder empty_deployment (VArr [zBTC]) (VObj ∅) ]}.

(** An index synth and a synth whose [index] names it. *)
Definition zDEFI : value :=
  VObj (<[ "name" := VStr "zDEFI" ]> (<[ "asset" := VStr "DEFI" ]>
          {[ "index" := VArr [VObj (<[ "asset" := VStr "BTC" ]>
                                      {[ "weight" := VNum 2 ]})] ]})).
Definition iDEFI : value :=
  VObj (<[ "name" := VStr "iDEFI" ]> (<[ "asset" := VStr "DEFI" ]>
          {[ "index" := VStr "zDEFI" ]})).
Definition index_networks : gmap string bundle :=
  {[ "mainnet" := folder empty_deployment (VArr [zDEFI; iDEFI])
                    (VObj {[ "BTC" := btc_feed ]}) ]}.

(** A decoded call whose one parameter is a tuple with a boolean member,
    as the decoder returns it: the members under their index and under
    their name. *)
Definition order_param : value :=
  VObj (<[ "name" := VStr "order" ]> (<[ "type" := VStr "tuple" ]>
    {[ "value" := VObj (<[ "0" := VBool true ]> {[ "isOffchain" := VBool true ]}) ]})).
Definition decoded_order : value :=
  VObj (<[ "contract" := VStr "PerpsV2MarketBTC" ]>
    {[ "method" := VObj (<[ "name" := VStr "submitOrder" ]>
                           {[ "params" := VArr [order_param] ]}) ]}).

(** A decoded call with a [bytes32] and a [uint256] parameter. *)
Definition decoded_exchange : value :=
  VObj {[ "method" := VObj (<[ "name" := VStr "exchange" ]>
    {[ "params" := VArr
         [VObj (<[ "name" := VStr "key" ]> (<[ "type" := VStr "bytes32" ]>
                  {[ "value" := VStr (toBytes32 "zUSD") ]}));
          VObj (<[ "name" := VStr "amount" ]> (<[ "type" := VStr "uint256" ]>
                  {[ "value" := VStr "1234567" ]}))] ]}) ]}.

(** Stand-ins for [isNaN] and [toBN] on the strings of the samples: a
    property name is a number when it is made of digits; a string of
    digits denotes 1234567 (the only amount of the samples). *)
Definition digits_only (s : string) : bool :=
  negb (String.eqb s "") && (String.length s =? leading_digits s)%nat.
Definition sample_isNaN (s : string) : bool := negb (digits_only s).
Definition sample_toBN (v : value) : result Z :=
  match v with
  | VStr s => if digits_only s then Ok 1234567%Z else Throw "not a number"
  | _ => Throw "not a number"
  end.

(** Futures and perps markets of one network: two legacy keys. *)
Definition link_asset : obj := {[ "asset" := VStr "LINK" ]}.
Definition market_registry : registry :=
  <[ "BTC" := btc_asset ]> {[ "LINK" := link_asset ]}.
Definition zLINK_market : value :=
  VObj (<[ "asset" := VStr "zLINK" ]> {[ "marketKey" := VStr "zLINK" ]}).
Definition zBTC_market : value :=
  VObj (<[ "asset" := VStr "zBTC" ]> {[ "marketKey" := VStr "zBTC" ]}).
Definition market_folder : bundle :=
  {| b_deployment := empty_deployment; b_feeds := VObj ∅;
     b_offchainFeeds := VObj ∅; b_synths := VArr [];
     b_futuresMarkets := VArr [zBTC_market; zLINK_market];
     b_perpsv2Markets := VArr [zBTC_market; zLINK_market];
     b_rewards := VArr []; b_shorting_rewards := VArr [];
     b_versions := VObj ∅ |}.
Definition market_networks : gmap string bundle := {[ "mainnet" := market_folder ]}.

(** The same perps markets in a file of the [mainnet] directory. *)
Definition market_disk : fs_module :=
  {| existsSync := fun file =>
       String.eqb file "/publish/deployed/mainnet/perpsv2-markets.json";
     readFileSync := fun file =>
       if String.eqb file "/publish/deployed/mainnet/perpsv2-markets.json"
       then Ok "markets" else Throw "ENOENT" |}.
Definition parse_markets (text : string) : result value :=
  if String.eqb text "markets" then Ok (VArr [zBTC_market; zLINK_market])
  else Throw "SyntaxError".

(** A proxy whose market name is a name of [Object.prototype]. *)
Definition inherited_deployment : deployment_doc :=
  {| targets :=
       [("PerpsV2ProxytoString",
         {| address := Some "0xA"; source := Some "ProxyPerpsV2" |})];
     sources := {[ "ProxyPerpsV2" := {| abi := [constructor]; bytecode := "" |} ]} |}.

(** A component whose source is not among the sources. *)
Definition orphan_deployment : deployment_doc :=
  {| targets :=
       [("PerpsV2ProxyBTC", {| address := Some "0xA"; source := Some "ProxyPerpsV2" |});
        ("PerpsV2DelayedIntentBTC",
         {| address := Some "0x04"; source := Some "PerpsV2DelayedIntent" |})];
     sources := {[ "ProxyPerpsV2" := {| abi := [constructor]; bytecode := "" |} ]} |}.


(** Two releases: the second redeploys [Synthetix] and adds [Exchanger]. *)
Definition release (tag : string) (block : Z) (contracts : obj) : value :=
  VObj (<[ "tag" := VStr tag ]> (<[ "release" := VStr "" ]> (<[ "block" := VNum block ]>
         {[ "contracts" := VObj contracts ]}))).
Definition two_releases : value :=
  VObj (<[ "v2.0.0" :=
            release "v2.0.0" 100
              {[ "Synthetix" := VObj {[ "address" := VStr "0x01" ]} ]} ]>
         {[ "v2.1.0" :=
              release "v2.1.0" 200
                (<[ "Synthetix" := VObj {[ "address" := VStr "0x02" ]} ]>
                   {[ "Exchanger" := VObj {[ "address" := VStr "0x03" ]} ]}) ]}).
Definition versions_folder : bundle :=
  {| b_deployment := empty_deployment; b_feeds := VObj ∅; b_offchainFeeds := VObj ∅;
     b_synths := VArr []; b_futuresMarkets := VArr []; b_perpsv2Markets := VArr [];
     b_rewards := VArr []; b_shorting_rewards := VArr []; b_versions := two_releases |}.
Definition versions_networks : gmap string bundle := {[ "mainnet" := versions_folder ]}.
Definition by_contract_options : options :=
  {| network := None; useOvm := false; path := None; fs := None;
     deploymentPath := None; skipPopulate := false; byContract := true;
     contract := None |}.


(** A network with the [HZN] feed, the [ProxySynthetix] target, a synth
    and an internal synth. *)
Definition token_deployment : deployment_doc :=
  {| targets :=
       [("ProxySynthetix", {| address := Some "0x0A"; source := Some "ProxyERC20" |});
        ("ProxyzBTC", {| address := Some "0x0B"; source := Some "ProxyERC20" |})];
     sources := ∅ |}.
Definition zInternal : value :=
  VObj (<[ "name" := VStr "zInternal" ]> (<[ "asset" := VStr "BTC" ]>
         {[ "category" := VStr "internal" ]})).
Definition token_registry : registry :=
  <[ "HZN" := {[ "asset" := VStr "HZN" ]} ]> btc_registry.
Definition token_feeds : value :=
  VObj (<[ "HZN" := VObj (<[ "asset" := VStr "HZN" ]> {[ "feed" := VStr "0xF0" ]}) ]>
         {[ "BTC" := btc_feed ]}).
Definition token_networks : gmap string bundle :=
  {[ "mainnet" := folder token_deployment (VArr [zBTC; zInternal]) token_feeds ]}.


(** Three releases: one out, one pending on the other layer, one pending. *)
Definition some_releases : list value :=
  [VObj (<[ "name" := VStr "Alnitak" ]> {[ "released" := VBool true ]});
   VObj (<[ "name" := VStr "Mintaka (Optimism)" ]> {[ "ovm" := VBool true ]});
   VObj (<[ "name" := VStr "Sirius-B" ]> {[ "released" := VBool false ]})].

End Examples.


(** ** Predicates on the result of [getSynths] *)

(** [entries] is [index] with the asset details mixed in from [assets]:
    position by position, [Object.assign({}, assets[entry.asset], entry)],
    so that a field of the index entry wins over the registry's. *)
Definition index_mixed_in (assets : registry) (index entries : list value) : Prop :=
  length entries = length index
  /\ forall j indexEntry, index !! j = Some indexEntry ->
       exists asset,
         get_prop indexEntry "asset" = Ok asset
         /\ entries !! j
            = Some (VObj (own_props indexEntry ∪ default ∅ (assets !! to_key asset))).


(** ** Predicates on strings of digits *)

(** Every character is a decimal digit. *)
Fixpoint all_digits (s : string) : bool :=
  match s with
  | EmptyString => true
  | String c rest => is_digit c && all_digits rest
  end.

(** The string without its commas. *)
Fixpoint strip_commas (s : string) : string :=
  match s with
  | EmptyString => EmptyString
  | String c rest =>
      if Ascii.eqb c "," then strip_commas rest else String c (strip_commas rest)
  end.

(** The widths [w] for which [int<w>] and [uint<w>] are taken for integer
    types by the enhancer: a first digit 1, 2 or 3 and at least one more
    character. *)
Definition enhanced_width (w : string) : bool :=
  match w with
  | String d (String _ _) => ((49 <=? N_of_ascii d) && (N_of_ascii d <=? 51))%N
  | _ => false
  end.


(** ** Chain ids *)

(** An entry of [chainIdMapping]: [{ network, useOvm, fork }]. *)
Record selector := {
  sel_network : string;
  sel_useOvm : bool;
  sel_fork : bool;
}.

(** The literal [chainIdMapping] is built from: the id, the network and the
    [fork] flag where the literal gives one. *)
Definition chainIdBodies : list (string * (string * option bool)) :=
  [("56", ("mainnet", None)); ("97", ("testnet", None)); ("5", ("goerli", None));
   ("80001", ("mumbai", None)); ("421614", ("sepolia", None));
   ("31337", ("mainnet", Some true))].

(** [chainIdMapping]: [memo[id] = Object.assign({ useOvm: false, fork: false }, body)]
    for every entry of the literal. *)
Definition chainIdMapping : gmap string selector :=
  foldl (fun memo '(id, (network, fork)) =>
           <[ id := {| sel_network := network; sel_useOvm := false;
                       sel_fork := default false fork |} ]> memo)
        ∅ chainIdBodies.

(** [getNetworkFromId(obj)]: [typeof obj === 'number' ? obj : obj.id], then
    [chainIdMapping[id]]. *)
Definition getNetworkFromId (obj : value) : result (option selector) :=
  let! id := match obj with
             | VNum _ => Ok obj
             | _ => get_prop obj "id"
             end in
  Ok (chainIdMapping !! to_key id).

(** The key [networkToChainId] files an entry under:
    [network + (useOvm ? '-ovm' : '') + (fork ? '-fork' : '')]. *)
Definition selector_key (s : selector) : string :=
  sel_network s ++ (if sel_useOvm s then "-ovm" else "")
                ++ (if sel_fork s then "-fork" else "").

(** [networkToChainId]: [memo[key] = id] over [Object.entries(chainIdMapping)];
    the ids are the property names of [chainIdMapping], that is, strings. *)
Definition networkToChainId : gmap string string :=
  foldl (fun memo '(id, s) => <[ selector_key s := id ]> memo)
        ∅ (map_to_list chainIdMapping).


(** ** Reading [getPerpsV2ProxiedMarkets] *)

(** What [getSource] finds for a target of a loaded deployment: the entry
    of [sources] its [source] names, or the whole mapping when it names
    none. *)
Definition source_data (d : deployment_doc) (targetData : target_data)
    : projection source_entry (gmap string source_entry) :=
  if given (source targetData)
  then One (sources d !! default "" (source targetData))
  else All (sources d).


(** The prefixes a component name is read with, and the proxy prefix. *)
Definition component_prefixes : list string := prefixes ++ [marketPrefix].

(** The same options for another network and another [useOvm]. *)
Definition retargeted (network : option string) (useOvm : bool) (o : options) : options :=
  {| network := network; useOvm := useOvm; path := path o; fs := fs o;
     deploymentPath := deploymentPath o; skipPopulate := skipPopulate o;
     byContract := byContract o; contract := contract o |}.

(** ** System users *)

(** An object with its keys in insertion order, and [o[k] = v] on such an
    object: a key that is there keeps its place and takes the new value, a
    new key goes to the end. *)
Fixpoint assign_key {A} (o : list (string * A)) (k : string) (v : A) : list (string * A) :=
  match o with
  | [] => [(k, v)]
  | (k', v') :: rest =>
      if String.eqb k' k then (k', v) :: rest else (k', v') :: assign_key rest k v
  end.

(** [Object.assign(target, source)] on such objects. *)
Definition assign_ordered {A} (target source : list (string * A)) : list (string * A) :=
  foldl (fun o '(k, v) => assign_key o k v) target source.

Module Users.

Definition testnetOwner := "0xD9e11e52D2fAF7E735613CcB54478461611Fd4b7".

Definition base : list (string * string) :=
  [("owner", testnetOwner);
   ("deployer", testnetOwner);
   ("marketClosure", testnetOwner);
   ("oracle", "0xac1e8B385230970319906C03A1d8567e3996d1d5");
   ("fee", "0xfeEFEEfeefEeFeefEEFEEfEeFeefEEFeeFEEFEeF");
   ("zero", "0x" ++ repeat_char "0" 40)].

Definition map : list (string * list (string * string)) :=
  [("mainnet",
    assign_ordered (assign_ordered [] base)
      [("owner", "0x81752bC7D54a45bdB9005223d61D2CBd33d04857");
       ("deployer", "0x3a10A18Ca6d9378010D446068d2Fd4dE5D272915");
       ("marketClosure", "0xC105Ea57Eb434Fbe44690d7Dec2702e4a2FBFCf7");
       ("oracle", "0xaC1ED4Fabbd5204E02950D68b6FC8c446AC95362")]);
   ("testnet", assign_ordered [] base);
   ("goerli",
    assign_ordered (assign_ordered [] base)
      [("owner", "0xA3F3E41cc12Abf3608480d9272fca44594a0cC4B")]);
   ("mumbai",
    assign_ordered (assign_ordered [] base)
      [("owner", "0xD9e11e52D2fAF7E735613CcB54478461611Fd4b7")]);
   ("sepolia",
    assign_ordered (assign_ordered [] base)
      [("owner", "0xD9e11e52D2fAF7E735613CcB54478461611Fd4b7")])].

End Users.

(** [getUsers({ network = 'mainnet', user, useOvm = false })]; a user is the
    pair of its [name] and its [address].  [Object.entries] throws on the
    [undefined] that [map[folder]] gives for a folder that is no key. *)
Definition getUsers (network : option string) (user : option string) (useOvm : bool)
    : result (projection (string * string) (list (string * string))) :=
  let folder := getFolderNameForNetwork (default "mainnet" network) useOvm in
  let! users :=
    match assoc Users.map folder with
    | Some entries => Ok entries
    | None =>
        if bool_decide (folder ∈ Object_prototype_properties) then Ok []
        else Throw "TypeError: Cannot convert undefined or null to object"
    end in
  if given user
  then Ok (One (find (fun u => String.eqb u.1 (default "" user)) users))
  else Ok (All users).

(** The names [getUsers] lists. *)
Definition user_names : list string :=
  ["owner"; "deployer"; "marketClosure"; "oracle"; "fee"; "zero"].

(** ** Versions by contract *)

(** [v.k] where the read cannot throw *)
Definition prop_of (v : value) (k : string) : value :=
  match get_prop v k with Ok x => x | Throw _ => VUndef end.

(** [{ tag, release, date, commit, block }] of a release *)
Definition version_stamp (version : value) : obj :=
  <[ "tag" := prop_of version "tag" ]> (<[ "release" := prop_of version "release" ]>
    (<[ "date" := prop_of version "date" ]> (<[ "commit" := prop_of version "commit" ]>
      {[ "block" := prop_of version "block" ]}))).

(** The entry pushed for a contract of a release:
    [Object.assign({ tag, release, date, commit, block }, contractEntry)]. *)
Definition stamped (version contractEntry : value) : value :=
  VObj (Object_assign (version_stamp version) contractEntry).

(** [version.contracts[contract]] is the own property [contractEntry]. *)
Definition deploys (version : value) (contract : string) (contractEntry : value) : Prop :=
  own_props (prop_of version "contracts") !! contract = Some contractEntry.

(** The loop over the contracts of one release. *)
Definition push_entries (stamp : obj) (memo : gmap string (list value))
    (entries : list (string * value)) : gmap string (list value) :=
  foldl (fun memo '(contract, contractEntry) =>
           <[ contract := (default [] (memo !! contract)
                           ++ [VObj (Object_assign stamp contractEntry)])%list ]> memo)
        memo entries.

(** What the reducer has built after the releases [seen]. *)
Definition by_contract (seen : list value) (memo : gmap string (list value)) : Prop :=
  (forall contract entries, memo !! contract = Some entries ->
     entries <> []
     /\ forall e, e ∈ entries ->
          exists version contractEntry,
            version ∈ seen /\ deploys version contract contractEntry
            /\ e = stamped version contractEntry)
  /\ (forall version contract contractEntry,
        version ∈ seen -> deploys version contract contractEntry ->
        exists entries,
          memo !! contract = Some entries /\ stamped version contractEntry ∈ entries).

(** ** Tokens *)

Definition opt_string (s : option string) : value :=
  match s with Some a => VStr a | None => VUndef end.

(** [({ category }) => category !== 'internal'], on a synth the
    destructuring has accepted. *)
Definition not_internal (synth : value) : bool :=
  match prop_of synth "category" with
  | VStr s => negb (String.eqb s "internal")
  | _ => true
  end.

(** [synths.filter(({ category }) => category !== 'internal')]: the
    destructuring throws on an [undefined] or [null] element. *)
Definition filter_synths (synths : list value) : result (list value) :=
  let! _ := mapM (fun synth => get_prop synth "category") synths in
  Ok (filter (fun synth => not_internal synth = true) synths).

(** The callback of [.map] in [getTokens]; every synth it sees has been
    destructured by the filter, so its reads do not throw. *)
Definition token_of (targets : list (string * target_data)) (synth : value) : value :=
  VObj (<[ "symbol" := prop_of synth "name" ]>
       (<[ "asset" := prop_of synth "asset" ]>
       (<[ "name" := prop_of synth "description" ]>
       (<[ "address" :=
             match assoc targets ("Proxy" ++ to_key (prop_of synth "name")) with
             | Some t => opt_string (address t)
             | None => VUndef
             end ]>
       (<[ "index" := prop_of synth "index" ]>
       (<[ "decimals" := VNum 18 ]>
       {[ "feed" := prop_of synth "feed" ]})))))).

(** The first token:
    [Object.assign({ symbol: 'HZN', asset: 'HZN', name: 'Synthetix',
    address: targets.ProxySynthetix.address, decimals: 18 },
    feeds['HZN'].feed ? { feed: feeds['HZN'].feed } : {})]. *)
Definition hzn_token (proxy : target_data) (feed : value) : value :=
  VObj (Object_assign
          (<[ "symbol" := VStr "HZN" ]> (<[ "asset" := VStr "HZN" ]>
           (<[ "name" := VStr "Synthetix" ]>
           (<[ "address" := opt_string (address proxy) ]>
           {[ "decimals" := VNum 18 ]}))))
          (if truthy feed then VObj {[ "feed" := feed ]} else VObj ∅)).

Section Tokens.

Variable data : gmap string bundle.
Variable dirname : string.
Variable JSON_parse : string -> result value.
Variable JSON_parse_deployment : string -> result deployment_doc.

(** [tokens.sort((a, b) => (a.symbol > b.symbol ? 1 : -1))].  The
    comparator never answers 0, so where two symbols are equal the order is
    the engine's: the sorted list is taken from the engine. *)
Variable Array_sort : list value -> list value.

(** The options of the three loads inside [getTokens]:
    [{ network, useOvm, path, fs }]. *)
Definition tokens_options (o : options) : options :=
  {| network := Some (default "mainnet" (network o)); useOvm := useOvm o;
     path := path o; fs := fs o; deploymentPath := None;
     skipPopulate := false; byContract := false; contract := None |}.

(** The returned expression of [getTokens]. *)
Definition tokens_of (synths : value)
    (targets : projection target_data (list (string * target_data))) (feeds : registry)
    : result (list value) :=
  match targets with
  | All targets =>
      let! proxy :=
        match assoc targets "ProxySynthetix" with
        | Some t => Ok t
        | None => Throw "TypeError: Cannot read properties of undefined (reading 'address')"
        end in
      let! feed :=
        match feeds !! "HZN" with
        | Some entry => Ok (field entry "feed")
        | None => Throw "TypeError: Cannot read properties of undefined (reading 'feed')"
        end in
      match synths with
      | VArr list =>
          let! kept := filter_synths list in
          Ok (hzn_token proxy feed :: Array_sort (token_of targets <$> kept))
      | _ => Throw "TypeError: synths.filter is not a function"
      end
  | One _ =>
      (* not reached: no contract is named *)
      Throw "unreachable"
  end.

(** [getTokens({ network = 'mainnet', path, fs, useOvm = false })] *)
Definition getTokens (o : options) (assets : registry) : result (list value) * registry :=
  match getSynths data dirname JSON_parse (tokens_options o) assets with
  | (Throw msg, assets) => (Throw msg, assets)
  | (Ok synths, assets) =>
      match getTarget data dirname JSON_parse_deployment (tokens_options o) with
      | Throw msg => (Throw msg, assets)
      | Ok targets =>
          match getFeeds data dirname JSON_parse (tokens_options o) assets with
          | (Throw msg, assets) => (Throw msg, assets)
          | (Ok feeds, assets) => (tokens_of synths targets feeds, assets)
          end
      end
  end.

End Tokens.

(** ** The next release *)

(** [\w] *)
Definition is_word (c : ascii) : bool :=
  let n := N_of_ascii c in
  ((48 <=? n) && (n <=? 57) || (65 <=? n) && (n <=? 90)
   || (97 <=? n) && (n <=? 122) || (n =? 95))%N.

(** [s.replace(/[^\w]/g, '')] *)
Fixpoint strip_non_word (s : string) : string :=
  match s with
  | EmptyString => EmptyString
  | String c rest =>
      if is_word c then String c (strip_non_word rest) else strip_non_word rest
  end.

Fixpoint all_word (s : string) : bool :=
  match s with
  | EmptyString => true
  | String c rest => is_word c && all_word rest
  end.

(** [({ released, ovm }) => !released && (useOvm ? ovm : !ovm)], read for
    its truthiness. *)
Definition pending (useOvm : bool) (release : value) : result bool :=
  let! released := get_prop release "released" in
  let! ovm := get_prop release "ovm" in
  Ok (negb (truthy released) && (if useOvm then truthy ovm else negb (truthy ovm))).

(** [releases.find(callback)] *)
Fixpoint find_release (useOvm : bool) (releases : list value) : result (option value) :=
  match releases with
  | [] => Ok None
  | release :: rest =>
      let! found := pending useOvm release in
      if found then Ok (Some release) else find_release useOvm rest
  end.

(** [getNextRelease({ useOvm })] over [releases.releases]. *)
Definition getNextRelease (releases : list value) (useOvm : bool) : result value :=
  let! found := find_release useOvm releases in
  let release := default VUndef found in
  let! name := get_prop release "name" in
  match name with
  | VStr n =>
      Ok (VObj (Object_assign (Object_assign ∅ release)
                  (VObj {[ "releaseName" := VStr (strip_non_word n) ]})))
  | _ => Throw "TypeError: release.name.replace is not a function"
  end.

(** ** Syntax trees *)

(** The argument object of [getAST]: [{ source, path, fs, match }]; of
    [path] only [resolve] is used, and [match] is read through [match.test]. *)
Record ast_options := {
  ast_source : option string;
  ast_path : option (list string -> string);
  ast_fs : option fs_module;
  ast_match : option (string -> bool);
}.

(** What [getAST] returns: [ast[source]] for a key of [ast], or for a name
    that [in] finds on the prototype; [{ [key]: entry }]; or [ast]. *)
Inductive ast_result : Type :=
| Entry (entry : value)
| Inherited (name : string)
| Single (key : string) (entry : value)
| Whole (ast : list (string * value)).

Section SyntaxTrees.

Variable dirname : string.
(** [JSON.parse] read at the type of the AST file: an object, its keys in
    their order, none of them [__proto__]. *)
Variable JSON_parse_ast : string -> result (list (string * value)).

(** [getAST({ source, path, fs, match = /^contracts\// })].  The bundle has
    no [ast] (the [require] is commented out), so the call throws unless
    [path] and [fs] are given. *)
Definition getAST (o : ast_options) : result ast_result :=
  let! fullAST :=
    match ast_path o, ast_fs o with
    | Some resolve, Some fs =>
        let pathToAST := resolve [dirname; "build"; "ast"; "asts.json"] in
        if negb (existsSync fs pathToAST) then Throw "Cannot find AST"
        else let! text := readFileSync fs pathToAST in JSON_parse_ast text
    | _, _ => Throw "AST currently not supported in browser mode"
    end in
  let test := default (fun key => startsWith key "contracts/") (ast_match o) in
  (* remove anything not matching the pattern *)
  let ast :=
    foldl (fun memo '(key, val) => assign_key memo key val) []
          (filter (fun e => test e.1 = true) fullAST) in
  let source := default "" (ast_source o) in
  if given (ast_source o) then
    match assoc ast source with
    | Some entry => Ok (Entry entry)
    | None =>
        if bool_decide (source ∈ Object_prototype_properties) then Ok (Inherited source)
        else
          (* try to find the source without a path *)
          match find (fun e => includes e.1 ("/" ++ source)) ast with
          | Some (key, entry) =>
              if negb (truthy (VStr key)) || negb (truthy entry)
              then Throw "Cannot find AST entry for source"
              else Ok (Single key entry)
          | None => Throw "Cannot find AST entry for source"
          end
    end
  else Ok (Whole ast).

End SyntaxTrees.

(** An AST file with a contract, an interface and a test helper, the file
    system that holds it and the options that ask it for a source. *)
Module AstExamples.
Definition some_asts : list (string * value) :=
  [("contracts/Synthetix.sol", VObj {[ "contracts" := VObj ∅ ]});
   ("contracts/interfaces/ISynthetix.sol", VObj {[ "interfaces" := VObj ∅ ]});
   ("test/Helper.sol", VObj ∅)].
Definition ast_files : fs_module :=
  {| existsSync := fun file => String.eqb file "/repo/build/ast/asts.json";
     readFileSync := fun _ => Ok "asts" |}.
Definition ast_parse (text : string) : result (list (string * value)) := Ok some_asts.
Definition ast_for (source : option string) : ast_options :=
  {| ast_source := source; ast_path := Some (String.concat "/"); ast_fs := Some ast_files;
     ast_match := None |}.
End AstExamples.

(** * Properties *)

(** ** Strings *)

Lemma string_cons_app (a : ascii) (s t : string) : String a s ++ t = String a (s ++ t).
Proof. reflexivity. Qed.

Lemma string_nil_app (t : string) : "" ++ t = t.
Proof. reflexivity. Qed.

Lemma startsWith_app (p rest : string) : startsWith (p ++ rest) p = true.
Proof.
  induction p as [|a p IH]; simpl; [by destruct rest|].
  by rewrite Ascii.eqb_refl.
Qed.

Lemma slice_app (p rest : string) : slice (p ++ rest) (String.length p) = rest.
Proof. induction p as [|a p IH]; simpl; [by destruct rest|done]. Qed.

Lemma includes_app_r (a b p : string) :
  includes b p = true -> includes (a ++ b) p = true.
Proof.
  intros Hb. induction a as [|c a IH]; simpl; [done|].
  rewrite IH. apply orb_true_r.
Qed.

Lemma string_length_app (a b : string) :
  String.length (a ++ b) = (String.length a + String.length b)%nat.
Proof. induction a as [|c a IH]; simpl; [done|by rewrite IH]. Qed.

Lemma repeat_char_add (c : ascii) (n m : nat) :
  repeat_char c (n + m) = repeat_char c n ++ repeat_char c m.
Proof. induction n as [|n IH]; simpl; [done|by rewrite IH]. Qed.

(** C9. Folder-key resolution is idempotent: resolving the resolved key again,
    under the same [useOvm] flag, gives the resolved key. *)
Theorem getFolderNameForNetwork_idempotent (network : string) (useOvm : bool) :
  getFolderNameForNetwork (getFolderNameForNetwork network useOvm) useOvm
  = getFolderNameForNetwork network useOvm.
Proof.
  unfold getFolderNameForNetwork.
  destruct (includes network "ovm") eqn:Hovm.
  - by rewrite Hovm.
  - destruct useOvm.
    + by rewrite (includes_app_r network "-ovm" "ovm").
    + by rewrite Hovm.
Qed.

(** ** The bytes32 round trip *)

Module W3UtilsFacts.
Import W3Utils.

Lemma byte_hex_pair (c : ascii) :
  exists a b, byte_hex c = String a (String b "")
              /\ char_of_pair (String a (String b "")) = c
              /\ is_hex_digit a = true /\ is_hex_digit b = true.
Proof.
  destruct c as [[] [] [] [] [] [] [] []];
    do 2 eexists; (split; [reflexivity|]); vm_compute; auto.
Qed.

Lemma asciiToHex_loop_cons (c : ascii) (s : string) :
  asciiToHex_loop (String c s) = byte_hex c ++ asciiToHex_loop s.
Proof. reflexivity. Qed.

Lemma all_hex_app (a b : string) :
  all_hex a = true -> all_hex b = true -> all_hex (a ++ b) = true.
Proof.
  induction a as [|c a IH]; simpl; [done|].
  intros [-> Ha]%andb_true_iff Hb. by rewrite IH.
Qed.

Lemma all_hex_zeros (n : nat) : all_hex (repeat_char "0" n) = true.
Proof. induction n as [|n IH]; simpl; [done|]. by rewrite IH. Qed.

Lemma all_hex_loop (s : string) : all_hex (asciiToHex_loop s) = true.
Proof.
  induction s as [|c s IH]; [done|]. rewrite asciiToHex_loop_cons.
  destruct (byte_hex_pair c) as (a & b & -> & _ & Ha & Hb).
  rewrite !string_cons_app, string_nil_app. cbn [all_hex]. by rewrite Ha, Hb, IH.
Qed.

Lemma length_loop (s : string) :
  String.length (asciiToHex_loop s) = (2 * String.length s)%nat.
Proof.
  induction s as [|c s IH]; [done|]. rewrite asciiToHex_loop_cons.
  destruct (byte_hex_pair c) as (a & b & -> & _).
  rewrite !string_cons_app, string_nil_app. cbn [String.length]. rewrite IH. lia.
Qed.

Lemma hexToAscii_loop_app (s rest : string) :
  hexToAscii_loop (asciiToHex_loop s ++ rest) = s ++ hexToAscii_loop rest.
Proof.
  induction s as [|c s IH]; [done|]. rewrite asciiToHex_loop_cons.
  destruct (byte_hex_pair c) as (a & b & -> & Hc & _).
  rewrite !string_cons_app, string_nil_app. cbn [hexToAscii_loop]. by rewrite Hc, IH.
Qed.

Lemma hexToAscii_loop_zeros (n : nat) :
  hexToAscii_loop (repeat_char "0" (2 * n)) = repeat_char Ascii.zero n.
Proof.
  induction n as [|n IH]; [done|].
  replace (2 * S n)%nat with (S (S (2 * n))) by lia.
  cbn [repeat_char hexToAscii_loop]. by rewrite IH.
Qed.

(** The shape of an encoded key. *)
Lemma toBytes32_shape (s : string) :
  toBytes32 s
  = "0x" ++ asciiToHex_loop s ++ repeat_char "0" (2 * (32 - String.length s))
    \/ (s = "" /\ toBytes32 s = "0x" ++ repeat_char "0" 64).
Proof.
  destruct s as [|c s]; [right; by vm_compute|left].
  unfold toBytes32, asciiToHex, rightPad.
  set (body := asciiToHex_loop (String c s)).
  change (has_0x_prefix ("0x" ++ body)) with true. cbv iota.
  change (slice ("0x" ++ body) 2) with body.
  do 3 f_equal. subst body. rewrite length_loop.
  destruct (0 <=? 64 - Z.of_nat (2 * String.length (String c s)) + 1)%Z eqn:Hle.
  - apply Z.leb_le in Hle. lia.
  - apply Z.leb_gt in Hle. lia.
Qed.

Lemma fromBytes32_toBytes32 (s : string) :
  fromBytes32 (toBytes32 s)
  = Ok (s ++ repeat_char Ascii.zero (32 - String.length s)).
Proof.
  destruct (toBytes32_shape s) as [->|[-> _]]; [|by vm_compute].
  unfold fromBytes32, hexToAscii, isHexStrict.
  set (tail := asciiToHex_loop s ++ _).
  change (startsWith ("0x" ++ tail) "-") with false. cbv iota.
  change (has_0x_prefix ("0x" ++ tail)) with true.
  change (startsWith ("0x" ++ tail) "0x") with true.
  change (slice ("0x" ++ tail) 2) with tail.
  subst tail. rewrite all_hex_app by auto using all_hex_loop, all_hex_zeros.
  simpl negb. cbv iota.
  by rewrite hexToAscii_loop_app, hexToAscii_loop_zeros.
Qed.

Lemma strip_nul_app (a b : string) : strip_nul (a ++ b) = strip_nul a ++ strip_nul b.
Proof.
  induction a as [|c a IH]; [done|].
  rewrite string_cons_app. cbn [strip_nul].
  destruct (Ascii.eqb c Ascii.zero); [done|]. by rewrite string_cons_app, IH.
Qed.

Lemma strip_nul_zeros (n : nat) : strip_nul (repeat_char Ascii.zero n) = "".
Proof. induction n as [|n IH]; simpl; done. Qed.

Lemma string_app_empty_r (a : string) : a ++ "" = a.
Proof. induction a as [|c a IH]; [done|]. by rewrite string_cons_app, IH. Qed.

End W3UtilsFacts.

(** C7, as the code has it. [fromBytes32] keeps the padding: decoding an
    encoded key gives the key followed by one zero byte for each byte it is
    short of 32. The key itself comes back only once the zero bytes are
    removed, which is what [decodedBytes32] does with [replaceAll]. *)
Theorem fromBytes32_toBytes32_padded (s : string) :
  exists decoded,
    fromBytes32 (toBytes32 s) = Ok decoded
    /\ decoded = s ++ repeat_char Ascii.zero (32 - String.length s)
    /\ strip_nul decoded = strip_nul s.
Proof.
  eexists. split; [apply W3UtilsFacts.fromBytes32_toBytes32|]. split; [done|].
  rewrite W3UtilsFacts.strip_nul_app, W3UtilsFacts.strip_nul_zeros.
  apply W3UtilsFacts.string_app_empty_r.
Qed.

(** C7, as stated, fails: the four-character key [zUSD] does not come back
    from the round trip; 28 zero bytes follow it. *)
Lemma fromBytes32_toBytes32_not_inverse :
  fromBytes32 (toBytes32 "zUSD") <> Ok "zUSD"
  /\ fromBytes32 (toBytes32 "zUSD") = Ok ("zUSD" ++ repeat_char Ascii.zero 28).
Proof. split; [|by vm_compute]. vm_compute. discriminate. Qed.

(** ** The PerpsV2 grouping *)

Lemma foldM_invariant {A B} (P : A -> Prop) (f : A -> B -> result A) (xs : list B) :
  (forall a x a', P a -> f a x = Ok a' -> P a') ->
  forall a r, P a -> foldM f xs a = Ok r -> P r.
Proof.
  intros Hstep. induction xs as [|x xs IH]; intros a r Ha; simpl.
  - by intros [= <-].
  - destruct (f a x) as [a'|] eqn:Hf; simpl; [|done]. eauto.
Qed.

Lemma same_fragment_true (a f : fragment) :
  same_fragment a f = true
  <-> fragment_key f = fragment_key a /\ named f = true /\ named a = true.
Proof.
  unfold same_fragment, fragment_key.
  rewrite !andb_true_iff, String.eqb_eq, bool_decide_eq_true.
  split.
  - intros [[[-> ?] ?] ->]. done.
  - intros [[= -> ->] [? ?]]. done.
Qed.

Lemma existsb_false_elem {A} (p : A -> bool) (l : list A) (x : A) :
  existsb p l = false -> x ∈ l -> p x = false.
Proof.
  induction l as [|y l IH]; simpl; [by intros _ ?%elem_of_nil|].
  intros [Hy Hl]%orb_false_iff [->|Hx]%elem_of_cons; auto.
Qed.

Lemma no_constructor_snoc (abi : list fragment) (f : fragment) :
  no_constructor abi -> ftype f <> "constructor" -> no_constructor (abi ++ [f]).
Proof. intros Habi Hf. apply Forall_app. split; [done|]. by constructor. Qed.

Lemma named_keys_unique_snoc (abi : list fragment) (a : fragment) :
  named_keys_unique abi ->
  existsb (same_fragment a) abi = false ->
  named_keys_unique (abi ++ [a]).
Proof.
  intros Habi Hnew i j f g Hi Hj Hij Hf Hg Hkey.
  apply lookup_app_Some in Hi as [Hi|[Hlen Hi]];
    apply lookup_app_Some in Hj as [Hj|[Hlen' Hj]].
  - by apply (Habi i j f g).
  - apply list_lookup_singleton_Some in Hj as [_ <-].
    apply list_elem_of_lookup_2 in Hi.
    pose proof (existsb_false_elem _ _ _ Hnew Hi) as Hno.
    assert (same_fragment a f = true) as Hyes by by apply same_fragment_true.
    congruence.
  - apply list_lookup_singleton_Some in Hi as [_ <-].
    apply list_elem_of_lookup_2 in Hj.
    pose proof (existsb_false_elem _ _ _ Hnew Hj) as Hno.
    assert (same_fragment a g = true) as Hyes by by apply same_fragment_true.
    congruence.
  - apply list_lookup_singleton_Some in Hi as [Hi _].
    apply list_lookup_singleton_Some in Hj as [Hj _]. lia.
Qed.

(** [_consolidateAbi] keeps a consolidated ABI free of constructors and of
    repeated named keys, whatever it is given to add. *)
Lemma _consolidateAbi_ok (currentAbi consolidatedAbi : list fragment) :
  no_constructor consolidatedAbi /\ named_keys_unique consolidatedAbi ->
  no_constructor (_consolidateAbi currentAbi consolidatedAbi)
  /\ named_keys_unique (_consolidateAbi currentAbi consolidatedAbi).
Proof.
  unfold _consolidateAbi.
  revert consolidatedAbi.
  induction currentAbi as [|a currentAbi IH]; intros acc [Hc Hu]; simpl; [done|].
  apply IH.
  destruct (existsb (same_fragment a) acc) eqn:Hfound; simpl; [done|].
  destruct (String.eqb (ftype a) "constructor") eqn:Htype; simpl; [done|].
  apply String.eqb_neq in Htype.
  split; [by apply no_constructor_snoc|by apply named_keys_unique_snoc].
Qed.

(** Whenever the consolidation returns, it has altered the market's entry
    (which leaves the mapping as it is where the name is no market). *)
Lemma consolidate_market_Ok (currentAbi : list fragment) (marketName : string)
    (PerpsV2Proxied out : gmap string market) :
  consolidate_market currentAbi marketName PerpsV2Proxied = Ok out ->
  out = alter (fun m => {| m_address := m_address m;
                           m_abi := _consolidateAbi currentAbi (m_abi m) |})
              marketName PerpsV2Proxied.
Proof.
  unfold consolidate_market.
  destruct (PerpsV2Proxied !! marketName), currentAbi; by intros [= <-].
Qed.

Lemma consolidate_market_Some (currentAbi : list fragment) (marketName : string)
    (PerpsV2Proxied : gmap string market) :
  is_Some (PerpsV2Proxied !! marketName) ->
  consolidate_market currentAbi marketName PerpsV2Proxied
  = Ok (alter (fun m => {| m_address := m_address m;
                           m_abi := _consolidateAbi currentAbi (m_abi m) |})
              marketName PerpsV2Proxied).
Proof.
  intros [m Hm]. unfold consolidate_market. rewrite Hm. by destruct currentAbi.
Qed.

Section PerpsFacts.

Context (data : gmap string bundle) (dirname : string)
        (JSON_parse_deployment : string -> result deployment_doc).

Local Abbreviation load := (loadDeploymentFile data dirname JSON_parse_deployment).
Local Abbreviation target_of := (getTarget data dirname JSON_parse_deployment).
Local Abbreviation source_of := (getSource data dirname JSON_parse_deployment).
Local Abbreviation visit := (perps_visit data dirname JSON_parse_deployment).
Local Abbreviation markets_of :=
  (getPerpsV2ProxiedMarkets data dirname JSON_parse_deployment).

(** Every load inside [getPerpsV2ProxiedMarkets] reads the same document:
    [loadDeploymentFile] does not look at [contract]. *)
Lemma loadDeploymentFile_perps (o : options) (c : option string) :
  load (perps_options o c) = load (perps_options o None).
Proof. reflexivity. Qed.

Lemma markets_ok_empty : markets_ok ∅.
Proof. intros name m Hm. by rewrite lookup_empty in Hm. Qed.

Lemma markets_ok_init (PerpsV2Proxied : gmap string market) (marketName : string) :
  markets_ok PerpsV2Proxied -> markets_ok (init_market PerpsV2Proxied marketName).
Proof.
  intros Hok. unfold init_market.
  destruct (PerpsV2Proxied !! marketName) eqn:Hm; [done|].
  destruct (inherited marketName); [done|].
  intros name m [[_ <-]|[_ Hin]]%lookup_insert_Some; [|by eapply Hok].
  split; [constructor|]. intros i j f g Hi. simpl in Hi. by rewrite lookup_nil in Hi.
Qed.

Lemma markets_ok_alter (PerpsV2Proxied : gmap string market) (marketName : string)
    (f : market -> market) :
  markets_ok PerpsV2Proxied ->
  (forall m, no_constructor (m_abi m) /\ named_keys_unique (m_abi m) ->
             no_constructor (m_abi (f m)) /\ named_keys_unique (m_abi (f m))) ->
  markets_ok (alter f marketName PerpsV2Proxied).
Proof.
  intros Hok Hf name m Hm.
  apply lookup_alter_Some in Hm as [(_ & m' & Hm' & ->)|[_ Hm]]; [|by eapply Hok].
  apply Hf. by eapply Hok.
Qed.

Lemma _analyzeAndIncludePerpsV2_ok target targetData sourceData PerpsV2Proxied out :
  markets_ok PerpsV2Proxied ->
  _analyzeAndIncludePerpsV2 target targetData sourceData PerpsV2Proxied = Ok out ->
  markets_ok out.
Proof.
  intros Hok. unfold _analyzeAndIncludePerpsV2.
  destruct (_ || _ || _); [by intros [= <-]|].
  destruct (startsWith target proxyPrefix).
  - intros [= <-]. apply markets_ok_alter; [by apply markets_ok_init|done].
  - match goal with |- context [match ?found with Some _ => _ | None => _ end = Ok out] =>
      destruct found as [marketName|] end; [|by intros [= <-]].
    destruct (abi_of sourceData) as [currentAbi|]; simpl; [|done].
    intros Hout. apply consolidate_market_Ok in Hout as ->.
    apply markets_ok_alter; [by apply markets_ok_init|].
    intros m Hm. by apply _consolidateAbi_ok.
Qed.

Lemma perps_visit_ok (o : options) PerpsV2Proxied target out :
  markets_ok PerpsV2Proxied ->
  visit o PerpsV2Proxied target = Ok out ->
  markets_ok out.
Proof.
  intros Hok. unfold perps_visit.
  destruct (negb _); [by intros [= <-]|].
  destruct (getTarget _ _ _ _) as [[[targetData|]|]|]; simpl; try done.
  destruct (getSource _ _ _ _) as [sourceData|]; simpl; [|done].
  by apply _analyzeAndIncludePerpsV2_ok.
Qed.

Lemma getPerpsV2ProxiedMarkets_ok (o : options) (markets : gmap string market) :
  markets_of o = Ok markets -> markets_ok markets.
Proof.
  unfold getPerpsV2ProxiedMarkets.
  destruct (loadDeploymentFile _ _ _ _) as [[deploymentData|]|]; simpl; [|done..].
  apply (foldM_invariant markets_ok); [|apply markets_ok_empty].
  intros a x a' Ha Hx. by eapply perps_visit_ok.
Qed.

End PerpsFacts.

(** C6, as the code has it. In every mapping [getPerpsV2ProxiedMarkets]
    returns, no market's [abi] holds a constructor fragment, and no two
    fragments of a market that both have a non-empty name share their
    (type, name) pair. Fragments without a name are not compared. *)
Theorem getPerpsV2ProxiedMarkets_abi_unique_named
    (data : gmap string bundle) (dirname : string)
    (JSON_parse_deployment : string -> result deployment_doc)
    (o : options) (markets : gmap string market) (name : string) (m : market) :
  getPerpsV2ProxiedMarkets data dirname JSON_parse_deployment o = Ok markets ->
  markets !! name = Some m ->
  no_constructor (m_abi m) /\ named_keys_unique (m_abi m).
Proof.
  intros Hrun Hm. by eapply getPerpsV2ProxiedMarkets_ok.
Qed.

Lemma getPerpsV2ProxiedMarkets_abi_unique_named_witness :
  no_constructor [Examples.fallback; Examples.transfer; Examples.fallback]
  /\ named_keys_unique [Examples.fallback; Examples.transfer; Examples.fallback].
Proof.
  apply (getPerpsV2ProxiedMarkets_abi_unique_named
           (Examples.one_folder "mainnet" Examples.fallback_deployment) "" no_parse
           (bundled None false)
           {[ "BTC" := {| m_address := None;
                          m_abi := [Examples.fallback; Examples.transfer;
                                    Examples.fallback] |} ]}
           "BTC"
           {| m_address := None;
              m_abi := [Examples.fallback; Examples.transfer; Examples.fallback] |}).
  - vm_compute. reflexivity.
  - vm_compute. reflexivity.
Defined.

(** C6, as stated, fails: two components of one market that both declare a
    nameless [fallback] leave two fragments with the same (type, name) pair in
    the market's [abi]. *)
Lemma getPerpsV2ProxiedMarkets_abi_nameless_repeated :
  exists markets m,
    getPerpsV2ProxiedMarkets
      (Examples.one_folder "mainnet" Examples.fallback_deployment) "" no_parse
      (bundled None false) = Ok markets
    /\ markets !! "BTC" = Some m
    /\ m_abi m = [Examples.fallback; Examples.transfer; Examples.fallback]
    /\ ~ keys_unique (m_abi m).
Proof.
  eexists _, _. split; [by vm_compute|]. split; [by vm_compute|]. split; [done|].
  intros Huniq. by apply (Huniq 0 2 Examples.fallback Examples.fallback).
Qed.

Lemma foldM_ext {A B} (f g : A -> B -> result A) (xs : list B) (a : A) :
  (forall a x, f a x = g a x) -> foldM f xs a = foldM g xs a.
Proof.
  intros Hfg. revert a. induction xs as [|x xs IH]; intros a; simpl; [done|].
  rewrite Hfg. destruct (g a x); simpl; [apply IH|done].
Qed.

Section PerpsExample.

Context (data : gmap string bundle) (dirname : string)
        (JSON_parse_deployment : string -> result deployment_doc).

Lemma getTarget_key (o : options) (d : deployment_doc) (target : string) :
  loadDeploymentFile data dirname JSON_parse_deployment (perps_options o None)
  = Ok (Some d) ->
  startsWith target "PerpsV2" = true ->
  getTarget data dirname JSON_parse_deployment (perps_options o (Some target))
  = Ok (One (assoc (targets d) target)).
Proof.
  intros Hd Hp. unfold getTarget.
  rewrite (loadDeploymentFile_perps data dirname JSON_parse_deployment o (Some target)), Hd.
  simpl. by destruct target.
Qed.

Lemma getSource_name (o : options) (d : deployment_doc) (name : string) :
  loadDeploymentFile data dirname JSON_parse_deployment (perps_options o None)
  = Ok (Some d) ->
  name <> "" ->
  getSource data dirname JSON_parse_deployment (perps_options o (Some name))
  = Ok (One (sources d !! name)).
Proof.
  intros Hd Hn. unfold getSource.
  rewrite (loadDeploymentFile_perps data dirname JSON_parse_deployment o (Some name)), Hd.
  simpl. by destruct name.
Qed.

Lemma getSource_loaded (o : options) (d : deployment_doc) (c : option string) :
  loadDeploymentFile data dirname JSON_parse_deployment (perps_options o None)
  = Ok (Some d) ->
  exists sourceData,
    getSource data dirname JSON_parse_deployment (perps_options o c) = Ok sourceData.
Proof.
  intros Hd. unfold getSource.
  rewrite (loadDeploymentFile_perps data dirname JSON_parse_deployment o c), Hd.
  simpl. destruct (given _); eauto.
Qed.

(** A visit of the loop, once the deployment is known to load. *)
Lemma perps_visit_loaded (o : options) (d : deployment_doc) (target : string)
    (PerpsV2Proxied : gmap string market) :
  loadDeploymentFile data dirname JSON_parse_deployment (perps_options o None)
  = Ok (Some d) ->
  perps_visit data dirname JSON_parse_deployment o PerpsV2Proxied target
  = if negb (startsWith target "PerpsV2") then Ok PerpsV2Proxied
    else match assoc (targets d) target with
         | Some targetData =>
             _analyzeAndIncludePerpsV2 target targetData (source_data d targetData)
               PerpsV2Proxied
         | None => Throw "TypeError: Cannot read properties of undefined (reading 'source')"
         end.
Proof.
  intros Hd. unfold perps_visit.
  destruct (startsWith target "PerpsV2") eqn:Hprefix; [|done]. cbn [negb].
  rewrite (getTarget_key o d target Hd Hprefix).
  cbn [bind]. destruct (assoc (targets d) target) as [targetData|]; [|done].
  unfold getSource.
  rewrite (loadDeploymentFile_perps data dirname JSON_parse_deployment o _), Hd.
  cbn [bind read_deployment]. unfold source_data. cbn [contract perps_options].
  by destruct (given (source targetData)).
Qed.

Lemma getPerpsV2ProxiedMarkets_loaded (o : options) (d : deployment_doc) :
  loadDeploymentFile data dirname JSON_parse_deployment (perps_options o None)
  = Ok (Some d) ->
  getPerpsV2ProxiedMarkets data dirname JSON_parse_deployment o
  = foldM (perps_visit data dirname JSON_parse_deployment o) (targets d).*1 ∅.
Proof. intros Hd. unfold getPerpsV2ProxiedMarkets. by rewrite Hd. Qed.



Lemma analyze_proxy_btc targetData sourceData PerpsV2Proxied :
  _analyzeAndIncludePerpsV2 "PerpsV2ProxyBTC" targetData sourceData PerpsV2Proxied
  = Ok (alter (fun m => {| m_address := address targetData; m_abi := m_abi m |}) "BTC"
              (init_market PerpsV2Proxied "BTC")).
Proof. reflexivity. Qed.

Lemma analyze_views_btc targetData sourceData PerpsV2Proxied :
  _analyzeAndIncludePerpsV2 "PerpsV2MarketViewsBTC" targetData sourceData PerpsV2Proxied
  = (let! currentAbi := abi_of sourceData in
     consolidate_market currentAbi "BTC" (init_market PerpsV2Proxied "BTC")).
Proof. reflexivity. Qed.

Lemma init_market_BTC (PerpsV2Proxied : gmap string market) :
  init_market PerpsV2Proxied "BTC"
  = match PerpsV2Proxied !! "BTC" with
    | Some _ => PerpsV2Proxied
    | None => <[ "BTC" := {| m_address := None; m_abi := [] |} ]> PerpsV2Proxied
    end.
Proof. reflexivity. Qed.

Lemma analyze_settings targetData sourceData PerpsV2Proxied :
  _analyzeAndIncludePerpsV2 "PerpsV2MarketSettings" targetData sourceData PerpsV2Proxied
  = Ok PerpsV2Proxied.
Proof. reflexivity. Qed.

Lemma _consolidateAbi_single (f1 : fragment) :
  _consolidateAbi [f1] []
  = if String.eqb (ftype f1) "constructor" then [] else [f1].
Proof. unfold _consolidateAbi. simpl. by destruct (String.eqb _ _). Qed.

End PerpsExample.

(** C2. On a deployment whose targets are [PerpsV2ProxyBTC] (address [A]),
    [PerpsV2MarketViewsBTC] and [PerpsV2MarketSettings], where the source of
    the views target has the ABI [[f1]], [f1] an ABI fragment of the
    component (not its constructor), the result is exactly
    [{ BTC: { address: A, abi: [f1] } }]: the proxy gives the address under
    the name left when the proxy prefix is taken off, the views component
    gives its fragment, and [PerpsV2MarketSettings] gives nothing. *)
Theorem getPerpsV2ProxiedMarkets_btc
    (data : gmap string bundle) (dirname : string)
    (JSON_parse_deployment : string -> result deployment_doc)
    (o : options) (d : deployment_doc) (proxy views settings : target_data)
    (viewsSource : string) (src : source_entry) (f1 : fragment) :
  loadDeploymentFile data dirname JSON_parse_deployment (perps_options o None)
  = Ok (Some d) ->
  targets d = [("PerpsV2ProxyBTC", proxy); ("PerpsV2MarketViewsBTC", views);
               ("PerpsV2MarketSettings", settings)] ->
  source views = Some viewsSource -> viewsSource <> "" ->
  sources d !! viewsSource = Some src -> abi src = [f1] ->
  ftype f1 <> "constructor" ->
  getPerpsV2ProxiedMarkets data dirname JSON_parse_deployment o
  = Ok {[ "BTC" := {| m_address := address proxy; m_abi := [f1] |} ]}.
Proof.
  intros Hd Htargets Hsource Hname Hsrc Habi Hf1.
  unfold getPerpsV2ProxiedMarkets. rewrite Hd. cbn [bind read_deployment]. rewrite Htargets.
  cbn [fmap list_fmap fst foldM].
  (* the proxy *)
  unfold perps_visit at 1. change (negb (startsWith "PerpsV2ProxyBTC" "PerpsV2")) with false.
  cbv iota. rewrite (getTarget_key _ _ _ o d) by done. rewrite Htargets.
  cbn [bind assoc String.eqb Ascii.eqb Bool.eqb].
  destruct (getSource_loaded data dirname JSON_parse_deployment o d (source proxy) Hd)
    as [proxySource ->].
  cbn [bind]. rewrite analyze_proxy_btc. cbn [bind].
  rewrite init_market_BTC, lookup_empty, insert_empty, alter_singleton_eq. cbn [m_abi].
  (* the views component *)
  unfold perps_visit at 1.
  change (negb (startsWith "PerpsV2MarketViewsBTC" "PerpsV2")) with false.
  cbv iota. rewrite (getTarget_key _ _ _ o d) by done. rewrite Htargets.
  cbn [bind assoc String.eqb Ascii.eqb Bool.eqb].
  rewrite Hsource, (getSource_name _ _ _ o d) by done. rewrite Hsrc.
  cbn [bind]. rewrite analyze_views_btc. cbn [bind abi_of]. rewrite Habi.
  rewrite init_market_BTC, lookup_singleton_eq.
  rewrite consolidate_market_Some by (by rewrite lookup_singleton_eq).
  rewrite alter_singleton_eq. cbn [bind m_address m_abi].
  (* the settings helper *)
  unfold perps_visit at 1.
  change (negb (startsWith "PerpsV2MarketSettings" "PerpsV2")) with false.
  cbv iota. rewrite (getTarget_key _ _ _ o d) by done. rewrite Htargets.
  cbn [bind assoc String.eqb Ascii.eqb Bool.eqb].
  destruct (getSource_loaded data dirname JSON_parse_deployment o d (source settings) Hd)
    as [settingsSource ->].
  cbn [bind]. rewrite analyze_settings. cbn [bind]. f_equal.
  rewrite _consolidateAbi_single. apply String.eqb_neq in Hf1. by rewrite Hf1.
Qed.

Lemma getPerpsV2ProxiedMarkets_btc_witness :
  getPerpsV2ProxiedMarkets
    (Examples.one_folder "mainnet"
       (Examples.btc_deployment (Some "0xA") Examples.transfer))
    "" no_parse (bundled None true)
  = Ok {[ "BTC" := {| m_address := Some "0xA"; m_abi := [Examples.transfer] |} ]}.
Proof.
  apply (getPerpsV2ProxiedMarkets_btc _ _ _ _
           (Examples.btc_deployment (Some "0xA") Examples.transfer)
           {| address := Some "0xA"; source := Some "ProxyPerpsV2" |}
           {| address := Some "0x01"; source := Some "PerpsV2MarketViews" |}
           {| address := Some "0x02"; source := Some "PerpsV2MarketSettings" |}
           "PerpsV2MarketViews"
           {| abi := [Examples.transfer]; bytecode := "" |}
           Examples.transfer).
  - vm_compute. reflexivity.
  - reflexivity.
  - reflexivity.
  - discriminate.
  - vm_compute. reflexivity.
  - reflexivity.
  - discriminate.
Defined.

(** The constructor of a component is the one fragment that is never
    pushed: were the one fragment of the views component its constructor, the
    market's [abi] would be empty. *)
Lemma constructor_fragment_dropped_btc :
  getPerpsV2ProxiedMarkets
    (Examples.one_folder "mainnet"
       (Examples.btc_deployment (Some "0xA") Examples.constructor))
    "" no_parse (bundled None false)
  = Ok {[ "BTC" := {| m_address := Some "0xA"; m_abi := [] |} ]}
  /\ getPerpsV2ProxiedMarkets
       (Examples.one_folder "mainnet"
          (Examples.btc_deployment (Some "0xA") Examples.constructor))
       "" no_parse (bundled None false)
     <> Ok {[ "BTC" := {| m_address := Some "0xA"; m_abi := [Examples.constructor] |} ]}.
Proof.
  assert (getPerpsV2ProxiedMarkets
            (Examples.one_folder "mainnet"
               (Examples.btc_deployment (Some "0xA") Examples.constructor))
            "" no_parse (bundled None false)
          = Ok {[ "BTC" := {| m_address := Some "0xA"; m_abi := [] |} ]}) as Hrun
    by (vm_compute; reflexivity).
  split; [done|]. rewrite Hrun. intros Heq.
  apply (f_equal (fun r => match r with
                           | Ok markets => m_abi <$> markets !! "BTC"
                           | Throw _ => None
                           end)) in Heq.
  rewrite !lookup_singleton_eq in Heq. discriminate.
Qed.

(** ** The grouping never looks at [useOvm] *)

Lemma from_bundle_disk (o : options) (p : path_module) (f : fs_module) :
  path o = Some p -> fs o = Some f -> from_bundle o = false.
Proof.
  intros Hp Hf. unfold from_bundle. rewrite Hp, Hf. simpl. apply andb_false_r.
Qed.


Section PerpsFolder.

Context (data : gmap string bundle) (dirname : string)
        (JSON_parse_deployment : string -> result deployment_doc).



End PerpsFolder.



(** The same binding, with [useOvm] true, reads the [-ovm] folder through
    [getTarget] and the plain folder through [getPerpsV2ProxiedMarkets]. *)
Example wrap_useOvm_contrast :
  wrap_getTarget Examples.two_folders "" no_parse (bundled (Some "mainnet") true) no_props
  = Ok (All (targets Examples.fallback_deployment))
  /\ wrap_getPerpsV2ProxiedMarkets Examples.two_folders "" no_parse
       (bundled (Some "mainnet") true) no_props
     = Ok {[ "BTC" := {| m_address := Some "0xA"; m_abi := [Examples.transfer] |} ]}.
Proof. split; by vm_compute. Qed.

(** ** Missing files *)

(** C5. With [path] and [fs] supplied, so that a location on disk is read,
    and the facet file absent there: [getSynths], [getFeeds],
    [loadDeploymentFile] and [getVersions] throw their own error (and leave
    the registry as it was), while [getFuturesMarkets], [getPerpsMarkets], [getStakingRewards]
    and [getShortingRewards] return the empty list. This holds for every
    network, flag and deployment path. *)
Theorem missing_file_asymmetry
    (data : gmap string bundle) (dirname : string)
    (JSON_parse : string -> result value)
    (JSON_parse_deployment : string -> result deployment_doc)
    (o : options) (p : path_module) (f : fs_module) (assets : registry) :
  path o = Some p -> fs o = Some f ->
  let named := Some (default "mainnet" (network o)) in
  (forall file, facet_path dirname o named constants.SYNTHS_FILENAME = Ok file ->
                existsSync f file = false ->
                getSynths data dirname JSON_parse o assets
                = (Throw "Cannot find synth list.", assets))
  /\ (forall file, facet_path dirname o (network o) constants.FEEDS_FILENAME = Ok file ->
                   existsSync f file = false ->
                   getFeeds data dirname JSON_parse o assets
                   = (Throw "Cannot find feeds file.", assets))
  /\ (forall file, facet_path dirname o named constants.DEPLOYMENT_FILENAME = Ok file ->
                   existsSync f file = false ->
                   loadDeploymentFile data dirname JSON_parse_deployment o
                   = Throw (deployment_not_found (default "mainnet" (network o))))
  /\ (forall file, facet_path dirname o named constants.VERSIONS_FILENAME = Ok file ->
                   existsSync f file = false ->
                   getVersions data dirname JSON_parse o
                   = Throw "Cannot find versions for network.")
  /\ (forall file, facet_path dirname o named constants.FUTURES_MARKETS_FILENAME = Ok file ->
                   existsSync f file = false ->
                   getFuturesMarkets data dirname JSON_parse o assets = Ok (VArr []))
  /\ (forall file, facet_path dirname o named constants.PERPS_V2_MARKETS_FILENAME = Ok file ->
                   existsSync f file = false ->
                   getPerpsMarkets data dirname JSON_parse o assets = Ok (VArr []))
  /\ (forall file, facet_path dirname o named constants.STAKING_REWARDS_FILENAME = Ok file ->
                   existsSync f file = false ->
                   getStakingRewards data dirname JSON_parse o = Ok (VArr []))
  /\ (forall file, facet_path dirname o named constants.SHORTING_REWARDS_FILENAME = Ok file ->
                   existsSync f file = false ->
                   getShortingRewards data dirname JSON_parse o = Ok (VArr [])).
Proof.
  intros Hp Hf named.
  pose proof (from_bundle_disk o p f Hp Hf) as Hdisk.
  repeat split; intros file Hfile Hmissing.
  - unfold getSynths, load_synths. fold named. by rewrite Hdisk, Hfile; simpl; rewrite Hf; simpl; rewrite Hmissing.
  - unfold getFeeds, load_feeds. by rewrite Hdisk, Hfile; simpl; rewrite Hf; simpl; rewrite Hmissing.
  - unfold loadDeploymentFile. fold named. by rewrite Hdisk, Hfile; simpl; rewrite Hf; simpl; rewrite Hmissing.
  - unfold getVersions, load_versions. fold named. by rewrite Hdisk, Hfile; simpl; rewrite Hf; simpl; rewrite Hmissing.
  - unfold getFuturesMarkets, load_markets. fold named. by rewrite Hdisk, Hfile; simpl; rewrite Hf; simpl; rewrite Hmissing.
  - unfold getPerpsMarkets, load_markets. fold named. by rewrite Hdisk, Hfile; simpl; rewrite Hf; simpl; rewrite Hmissing.
  - unfold getStakingRewards, load_rewards. fold named. by rewrite Hdisk, Hfile; simpl; rewrite Hf; simpl; rewrite Hmissing.
  - unfold getShortingRewards, load_rewards. fold named. by rewrite Hdisk, Hfile; simpl; rewrite Hf; simpl; rewrite Hmissing.
Qed.

Lemma missing_file_asymmetry_witness :
  let o := on_disk (Some "testnet") true (Some "/deployments/testnet") empty_fs in
  getSynths ∅ "/pkg" no_parse o ∅ = (Throw "Cannot find synth list.", ∅)
  /\ getFeeds ∅ "/pkg" no_parse o ∅ = (Throw "Cannot find feeds file.", ∅)
  /\ loadDeploymentFile ∅ "/pkg" no_parse o
     = Throw "Cannot find deployment for network: testnet."
  /\ getVersions ∅ "/pkg" no_parse o = Throw "Cannot find versions for network."
  /\ getFuturesMarkets ∅ "/pkg" no_parse o ∅ = Ok (VArr [])
  /\ getPerpsMarkets ∅ "/pkg" no_parse o ∅ = Ok (VArr [])
  /\ getStakingRewards ∅ "/pkg" no_parse o = Ok (VArr [])
  /\ getShortingRewards ∅ "/pkg" no_parse o = Ok (VArr []).
Proof.
  intros o.
  destruct (missing_file_asymmetry ∅ "/pkg" no_parse no_parse o slash_path empty_fs ∅
              eq_refl eq_refl)
    as (H1 & H2 & H3 & H4 & H5 & H6 & H7 & H8).
  exact (conj (H1 _ eq_refl eq_refl) (conj (H2 _ eq_refl eq_refl)
        (conj (H3 _ eq_refl eq_refl) (conj (H4 _ eq_refl eq_refl)
        (conj (H5 _ eq_refl eq_refl) (conj (H6 _ eq_refl eq_refl)
        (conj (H7 _ eq_refl eq_refl) (H8 _ eq_refl eq_refl)))))))).
Defined.

(** ** The asset registry, feeds and synths *)

(** C4, on the code. [getFeeds] writes the feed entry of a symbol into the
    registry entry of that symbol: after a call for [mainnet] the shared
    registry holds [mainnet]'s [BTC] feed, and [getSynths] for [testnet],
    which has no feed at all, returns another result than before the
    call. *)
Theorem getFeeds_writes_registry :
  let mainnet := bundled (Some "mainnet") false in
  let testnet := bundled (Some "testnet") false in
  let before := Examples.btc_registry in
  exists feeds after,
    getFeeds Examples.feed_networks "" no_parse mainnet before = (Ok feeds, after)
    /\ after <> before
    /\ after !! "BTC" = Some (<[ "feed" := VStr "0xFEED" ]> Examples.btc_asset)
    /\ getSynths Examples.feed_networks "" no_parse testnet before
       = (Ok (VArr [VObj (<[ "name" := VStr "zBTC" ]> Examples.btc_asset)]), before)
    /\ getSynths Examples.feed_networks "" no_parse testnet after
       = (Ok (VArr [VObj (<[ "name" := VStr "zBTC" ]>
                            (<[ "feed" := VStr "0xFEED" ]> Examples.btc_asset))]), after).
Proof.
  intros mainnet testnet before.
  exists {[ "BTC" := <[ "feed" := VStr "0xFEED" ]> Examples.btc_asset ]},
         {[ "BTC" := <[ "feed" := VStr "0xFEED" ]> Examples.btc_asset ]}.
  split; [by vm_compute|]. split.
  - intros Heq. apply (f_equal (fun r : registry => r !! "BTC" ≫= (.!! "feed"))) in Heq.
    vm_compute in Heq. discriminate.
  - split; [by vm_compute|]. split; by vm_compute.
Qed.

(** C3, as stated, fails: a [feed] written on the raw synth record is the
    one returned, not the feed of the feeds mapping. *)
Lemma getSynths_raw_feed_wins :
  exists synth after,
    getSynths Examples.feed_networks "" no_parse (bundled (Some "mainnet") false)
      Examples.btc_registry
    = (Ok (VArr [VObj synth]), after)
    /\ synth !! "feed" = Some (VStr "0xRAW")
    /\ synth !! "feed" <> Some (VStr "0xFEED").
Proof.
  exists (<[ "category" := VStr "crypto" ]> (own_props Examples.zBTC_with_feed)),
         {[ "BTC" := <[ "feed" := VStr "0xFEED" ]> Examples.btc_asset ]}.
  split; [by vm_compute|]. split; [by vm_compute|]. vm_compute. discriminate.
Qed.

Lemma mapM_lookup {A B} (f : A -> result B) (xs : list A) (ys : list B) (i : nat) (x : A) :
  mapM f xs = Ok ys -> xs !! i = Some x ->
  exists y, f x = Ok y /\ ys !! i = Some y.
Proof.
  revert ys i. induction xs as [|x0 xs IH]; intros ys i; simpl; [done|].
  destruct (f x0) as [y0|] eqn:Hx0; simpl; [|done].
  destruct (mapM f xs) as [ys0|] eqn:Hxs; simpl; [|done].
  intros [= <-]. destruct i as [|i]; simpl.
  - intros [= <-]. eauto.
  - intros Hi. by apply (IH ys0).
Qed.

Lemma mapM_lookup_inv {A B} (f : A -> result B) (xs : list A) (ys : list B) (i : nat) (y : B) :
  mapM f xs = Ok ys -> ys !! i = Some y ->
  exists x, xs !! i = Some x /\ f x = Ok y.
Proof.
  revert ys i. induction xs as [|x0 xs IH]; intros ys i; simpl.
  - by intros [= <-].
  - destruct (f x0) as [y0|] eqn:Hx0; simpl; [|done].
    destruct (mapM f xs) as [ys0|] eqn:Hxs; simpl; [|done].
    intros [= <-]. destruct i as [|i]; simpl.
    + intros [= <-]. eauto.
    + intros Hi. by apply (IH ys0).
Qed.

Lemma mapM_length {A B} (f : A -> result B) (xs : list A) (ys : list B) :
  mapM f xs = Ok ys -> length ys = length xs.
Proof.
  revert ys. induction xs as [|x0 xs IH]; intros ys; simpl; [by intros [= <-]|].
  destruct (f x0) as [y0|]; simpl; [|done].
  destruct (mapM f xs) as [ys0|]; simpl; [|done].
  intros [= <-]. simpl. by rewrite (IH ys0).
Qed.

(** [Object.assign]: a property of the source wins, a property the source
    lacks is the target's. *)
Lemma Object_assign_source (target : obj) (source : value) (k : string) (v : value) :
  own_props source !! k = Some v -> Object_assign target source !! k = Some v.
Proof. intros Hk. unfold Object_assign. by apply lookup_union_Some_l. Qed.

Lemma Object_assign_target (target : obj) (source : value) (k : string) :
  own_props source !! k = None -> Object_assign target source !! k = target !! k.
Proof. intros Hk. unfold Object_assign. by rewrite lookup_union_r. Qed.

Lemma Object_assign_empty (source : value) : Object_assign ∅ source = own_props source.
Proof. unfold Object_assign. apply (right_id_L ∅ (∪)). Qed.

Section SynthFacts.

Context (data : gmap string bundle) (dirname : string)
        (JSON_parse : string -> result value).

(** What a successful [getSynths] (not skipping the population) has done:
    it has run [getFeeds], which left the registry [assets'], and has
    populated every raw synth against that registry. *)
Lemma getSynths_populated (o : options) (assets assets' : registry)
    (synths out : list value) :
  skipPopulate o = false ->
  load_synths data dirname JSON_parse o = Ok (VArr synths) ->
  getSynths data dirname JSON_parse o assets = (Ok (VArr out), assets') ->
  exists feeds,
    getFeeds data dirname JSON_parse (with_network o) assets = (Ok feeds, assets')
    /\ mapM (populate_synth assets' feeds synths) synths = Ok out.
Proof.
  intros Hskip Hload. unfold getSynths. rewrite Hload, Hskip.
  destruct (getFeeds _ _ _ _ _) as [[feeds|] assets1]; [|done].
  destruct (mapM _ synths) as [out'|] eqn:Hmap; simpl; [|done].
  intros [= <- <-]. eauto.
Qed.

End SynthFacts.

(** The record [populate_synth] works on once the asset details and the feed
    are mixed in: every field of the raw record is still there. *)
Lemma populate_synth_mixed (assets feeds : registry) (raw : obj) (k : string) (v : value) :
  raw !! k = Some v ->
  let synth := Object_assign (Object_assign ∅
                 (registry_get assets (to_key (default VUndef (raw !! "asset")))))
                 (VObj raw) in
  match feeds !! to_key (field synth "asset") with
  | Some entry => Object_assign {[ "feed" := field entry "feed" ]} (VObj synth)
  | None => synth
  end !! k = Some v.
Proof.
  intros Hk synth.
  assert (synth !! k = Some v) as Hsynth.
  { subst synth. apply Object_assign_source. exact Hk. }
  destruct (feeds !! _); [|exact Hsynth]. apply Object_assign_source. exact Hsynth.
Qed.

Lemma populate_synth_index (assets feeds : registry) (synths : list value) (raw : obj)
    (placeholder : string) (y : value) :
  populate_synth assets feeds synths (VObj raw) = Ok y ->
  raw !! "index" = Some (VStr placeholder) ->
  exists named index entries synth,
    find_named synths placeholder = Ok (Some named)
    /\ get_prop named "index" = Ok (VArr index)
    /\ mapM (mixin_index_entry assets) index = Ok entries
    /\ y = VObj synth
    /\ synth !! "index" = Some (VArr entries).
Proof.
  intros Hrun Hindex. unfold populate_synth in Hrun. cbn [get_prop bind] in Hrun.
  pose proof (populate_synth_mixed assets feeds raw "index" _ Hindex) as Hmixed.
  cbv zeta in Hmixed.
  set (synth2 := match feeds !! _ with Some _ => _ | None => _ end) in *.
  unfold field in Hrun at 1. rewrite Hmixed in Hrun.
  cbn [default from_option id] in Hrun.
  destruct (find_named synths placeholder) as [found|] eqn:Hfind;
    cbn [bind] in Hrun; [|done].
  destruct (match found with Some x => get_prop x "index" | None => Ok VUndef end)
    as [index|] eqn:Hindex'; cbn [bind] in Hrun; [|done].
  destruct (truthy index) eqn:Htruthy; cbn [negb bind] in Hrun; [|done].
  set (synth3 := Object_assign _ (VObj {[ "index" := index ]})) in Hrun.
  assert (synth3 !! "index" = Some index) as Hsynth3.
  { subst synth3. apply Object_assign_source. apply lookup_singleton_eq. }
  unfold field in Hrun. rewrite Hsynth3 in Hrun.
  cbn [default from_option id] in Hrun. rewrite Htruthy in Hrun.
  destruct index as [| | | | |index|]; try done.
  destruct (mapM (mixin_index_entry assets) index) as [entries|] eqn:Hentries;
    cbn [bind] in Hrun; [|done].
  injection Hrun as <-.
  destruct found as [named|]; [|done].
  exists named, index, entries, (<[ "index" := VArr entries ]> synth3).
  repeat split; try done. apply lookup_insert_eq.
Qed.

(** A placeholder that does not lead to a concrete index makes
    [populate_synth] throw. *)
Lemma populate_synth_index_throws (assets feeds : registry) (synths : list value)
    (raw : obj) (placeholder : string) :
  raw !! "index" = Some (VStr placeholder) ->
  (forall named index,
     find_named synths placeholder = Ok (Some named) ->
     get_prop named "index" <> Ok (VArr index)) ->
  is_Throw (populate_synth assets feeds synths (VObj raw)).
Proof.
  intros Hindex Hmissing.
  destruct (populate_synth assets feeds synths (VObj raw)) as [y|] eqn:Hrun; [|done].
  destruct (populate_synth_index _ _ _ _ _ _ Hrun Hindex)
    as (named & index & _ & _ & Hfind & Hget & _).
  by destruct (Hmissing named index).
Qed.

Lemma mixin_index_entry_Ok (assets : registry) (indexEntry merged : value) :
  mixin_index_entry assets indexEntry = Ok merged ->
  exists asset,
    get_prop indexEntry "asset" = Ok asset
    /\ merged = VObj (own_props indexEntry ∪ default ∅ (assets !! to_key asset)).
Proof.
  unfold mixin_index_entry.
  destruct (get_prop indexEntry "asset") as [asset|]; simpl; [|done].
  intros [= <-]. exists asset. split; [done|]. f_equal.
  unfold Object_assign at 1. f_equal.
  rewrite Object_assign_empty. unfold registry_get. by destruct (assets !! _).
Qed.

Lemma index_mixed_in_mapM (assets : registry) (index entries : list value) :
  mapM (mixin_index_entry assets) index = Ok entries ->
  index_mixed_in assets index entries.
Proof.
  intros Hmap. split; [by eapply mapM_length|].
  intros j indexEntry Hj.
  destruct (mapM_lookup _ _ _ _ _ Hmap Hj) as (merged & Hmerged & Hentry).
  apply mixin_index_entry_Ok in Hmerged as (asset & Hasset & ->). eauto.
Qed.

(** Whatever [index] a populated synth ends with, when it is an array it is
    an array of mixed-in entries. *)
Lemma populate_synth_index_entries (assets feeds : registry) (synths : list value)
    (raw : value) (synth : obj) (entries : list value) :
  populate_synth assets feeds synths raw = Ok (VObj synth) ->
  synth !! "index" = Some (VArr entries) ->
  exists index, index_mixed_in assets index entries.
Proof.
  unfold populate_synth.
  destruct (get_prop raw "asset") as [asset|]; cbn [bind]; [|done].
  match goal with |- context [bind ?resolved _] =>
    destruct resolved as [synth3|] end; cbn [bind]; [|done].
  destruct (truthy (field synth3 "index")) eqn:Htruthy.
  - destruct (field synth3 "index") as [| | | | |index|]; try done.
    destruct (mapM (mixin_index_entry assets) index) as [entries'|] eqn:Hmap;
      cbn [bind]; [|done].
    intros [= <-]. rewrite lookup_insert_eq. intros [= <-].
    exists index. by apply index_mixed_in_mapM.
  - intros [= <-] Hindex. unfold field in Htruthy. by rewrite Hindex in Htruthy.
Qed.

(** *** What [getFeeds] returns and writes *)

Lemma registry_entry_insert_ne (assets : registry) (k k' : string) (a : obj) :
  k <> k' -> registry_entry (<[ k := a ]> assets) k' = registry_entry assets k'.
Proof. intros Hne. unfold registry_entry. by rewrite lookup_insert_ne. Qed.

Lemma registry_entry_own (assets : registry) (k : string) (a : obj) :
  assets !! k = Some a -> registry_entry assets k = Some a.
Proof. intros Hk. unfold registry_entry. by rewrite Hk. Qed.

(** Outside the names of [Object.prototype] the entry is the registry's. *)
Lemma registry_entry_plain (assets : registry) (k : string) :
  inherited k = false -> registry_entry assets k = assets !! k.
Proof. intros Hk. unfold registry_entry. rewrite Hk. by destruct (assets !! k). Qed.

Section FeedFacts.

Context (data : gmap string bundle) (dirname : string)
        (JSON_parse : string -> result value).

(** A symbol outside the feeds is neither returned nor written. *)
Lemma getFeeds_reduce_frame (entries : list (string * value))
    (memo assets memo' assets' : registry) (k : string) :
  k ∉ entries.*1 ->
  getFeeds_reduce entries memo assets = (Ok memo', assets') ->
  memo' !! k = memo !! k /\ assets' !! k = assets !! k.
Proof.
  revert memo assets. induction entries as [|[asset entry] entries IH];
    intros memo assets Hk; simpl.
  - by intros [= <- <-].
  - apply not_elem_of_cons in Hk as [Hne Hk].
    destruct (registry_entry assets asset) as [a|]; [|done].
    intros Hrun. destruct (IH _ _ Hk Hrun) as [-> ->].
    by rewrite !lookup_insert_ne.
Qed.

(** A symbol of the feeds is returned as its registry entry with the feed
    entry written over it, and that merged object is also what the
    registry holds afterwards. *)
Lemma getFeeds_reduce_lookup (entries : list (string * value))
    (memo assets memo' assets' : registry) (k : string) (entry : value) :
  NoDup entries.*1 ->
  (k, entry) ∈ entries ->
  getFeeds_reduce entries memo assets = (Ok memo', assets') ->
  exists a, registry_entry assets k = Some a
            /\ memo' !! k = Some (Object_assign a entry)
            /\ assets' !! k = Some (Object_assign a entry).
Proof.
  revert memo assets. induction entries as [|[asset0 entry0] entries IH];
    intros memo assets Hnodup Hin; simpl.
  - by apply elem_of_nil in Hin.
  - apply NoDup_cons in Hnodup as [Hfresh Hnodup].
    destruct (registry_entry assets asset0) as [a0|] eqn:Ha0; [|done].
    intros Hrun. apply elem_of_cons in Hin as [[= -> ->]|Hin].
    + destruct (getFeeds_reduce_frame _ _ _ _ _ _ Hfresh Hrun) as [Hm Ha].
      rewrite lookup_insert_eq in Hm, Ha. eauto.
    + destruct (IH _ _ Hnodup Hin Hrun) as (a & Ha & Hm & Ha').
      assert (asset0 <> k) as Hne.
      { intros ->. apply Hfresh. apply list_elem_of_fmap. by exists (k, entry). }
      rewrite registry_entry_insert_ne in Ha by done. eauto.
Qed.

Lemma getFeeds_lookup (o : options) (doc : obj) (assets feeds assets' : registry)
    (k : string) (entry : value) :
  load_feeds data dirname JSON_parse o = Ok (VObj doc) ->
  doc !! k = Some entry ->
  getFeeds data dirname JSON_parse o assets = (Ok feeds, assets') ->
  exists a, registry_entry assets k = Some a
            /\ feeds !! k = Some (Object_assign a entry)
            /\ assets' !! k = Some (Object_assign a entry).
Proof.
  intros Hload Hk. unfold getFeeds. rewrite Hload. cbn [Object_entries own_props].
  apply getFeeds_reduce_lookup.
  - apply NoDup_fst_map_to_list.
  - by apply elem_of_map_to_list.
Qed.

(** The registry a successful [getFeeds] leaves, symbol by symbol. *)
Lemma getFeeds_written (o : options) (feedsDoc : value) (assets feeds assets' : registry)
    (k : string) :
  load_feeds data dirname JSON_parse o = Ok feedsDoc ->
  getFeeds data dirname JSON_parse o assets = (Ok feeds, assets') ->
  assets' !! k
  = match own_props feedsDoc !! k with
    | Some entry => Some (own_props entry ∪ default ∅ (registry_entry assets k))
    | None => assets !! k
    end.
Proof.
  intros Hload. unfold getFeeds. rewrite Hload.
  destruct (Object_entries feedsDoc) as [entries|] eqn:Hentries; [|done].
  assert (entries = map_to_list (own_props feedsDoc)) as ->.
  { by destruct feedsDoc; try done; injection Hentries as <-. }
  intros Hrun. destruct (own_props feedsDoc !! k) as [entry|] eqn:Hk.
  - destruct (getFeeds_reduce_lookup _ _ _ _ _ k entry
                (NoDup_fst_map_to_list _) ltac:(by apply elem_of_map_to_list) Hrun)
      as (a & Ha & _ & Hassets).
    by rewrite Hassets, Ha.
  - assert (k ∉ (map_to_list (own_props feedsDoc)).*1) as Hfresh.
    { intros ([k' e] & Hk' & Hin)%list_elem_of_fmap. cbn in Hk'. subst k'.
      apply elem_of_map_to_list in Hin. congruence. }
    by destruct (getFeeds_reduce_frame _ _ _ _ _ _ Hfresh Hrun) as [_ ->].
Qed.

End FeedFacts.

(** [find] returns the first synth of the list whose [name] is the string. *)
Lemma find_named_first (synths : list value) (s : string) (named : value) :
  find_named synths s = Ok (Some named) ->
  exists j,
    synths !! j = Some named
    /\ get_prop named "name" = Ok (VStr s)
    /\ forall j' x, (j' < j)%nat -> synths !! j' = Some x ->
         get_prop x "name" <> Ok (VStr s).
Proof.
  induction synths as [|x rest IH]; [done|]. cbn [find_named].
  destruct (get_prop x "name") as [name|] eqn:Hname; cbn [bind]; [|done].
  assert (find_named rest s = Ok (Some named) -> Ok name <> Ok (VStr s) ->
          exists j,
            (x :: rest) !! j = Some named
            /\ get_prop named "name" = Ok (VStr s)
            /\ forall j' y, (j' < j)%nat -> (x :: rest) !! j' = Some y ->
                 get_prop y "name" <> Ok (VStr s)) as Hrest.
  { intros Hfind Hne. destruct (IH Hfind) as (j & Hj & Hn & Hbefore).
    exists (S j). split; [done|]. split; [done|].
    intros [|j'] y Hlt; cbn.
    - intros [= <-]. by rewrite Hname.
    - apply Hbefore. lia. }
  destruct name as [| | | |n| |]; try (intros Hfind; by apply Hrest).
  destruct (String.eqb_spec n s) as [->|Hne].
  - intros [= <-]. exists 0%nat. split; [done|]. split; [done|]. lia.
  - intros Hfind. apply Hrest; [done|]. congruence.
Qed.

(** C1, on the code. A synth record of the loaded list whose [index] is a
    string comes back from [getSynths] with the [index] array of the first
    synth of the list that has this name, and when no synth of that name
    with an [index] array exists [getSynths] throws. But the registry entry
    an index entry is merged over is not the entry of the registry the call
    was given: [getSynths] has run [getFeeds] first, which wrote every feed
    entry into the registry, so for an asset that has a feed the merged entry
    also carries the fields of the feed entry (its [feed] among them). *)
Theorem getSynths_index_resolved
    (data : gmap string bundle) (dirname : string) (JSON_parse : string -> result value)
    (o : options) (assets : registry) (synths : list value) (feedsDoc : value)
    (i : nat) (raw : obj) (placeholder : string) :
  skipPopulate o = false ->
  load_synths data dirname JSON_parse o = Ok (VArr synths) ->
  load_feeds data dirname JSON_parse (with_network o) = Ok feedsDoc ->
  synths !! i = Some (VObj raw) ->
  raw !! "index" = Some (VStr placeholder) ->
  let run := getSynths data dirname JSON_parse o assets in
  let first_named (j : nat) (named : value) :=
    synths !! j = Some named
    /\ get_prop named "name" = Ok (VStr placeholder)
    /\ forall j' x, (j' < j)%nat -> synths !! j' = Some x ->
         get_prop x "name" <> Ok (VStr placeholder) in
  let merged_over (k : string) : obj :=
    match own_props feedsDoc !! k with
    | Some feedEntry => own_props feedEntry ∪ default ∅ (registry_entry assets k)
    | None => default ∅ (assets !! k)
    end in
  let mixed (index entries : list value) :=
    length entries = length index
    /\ forall n indexEntry, index !! n = Some indexEntry ->
         exists asset,
           get_prop indexEntry "asset" = Ok asset
           /\ entries !! n
              = Some (VObj (own_props indexEntry ∪ merged_over (to_key asset))) in
  (forall out, run.1 = Ok out ->
     exists j named index entries synth populated,
       out = VArr populated
       /\ first_named j named
       /\ get_prop named "index" = Ok (VArr index)
       /\ populated !! i = Some (VObj synth)
       /\ synth !! "index" = Some (VArr entries)
       /\ mixed index entries)
  /\ (forall populated k synth entries,
        run.1 = Ok (VArr populated) ->
        populated !! k = Some (VObj synth) ->
        synth !! "index" = Some (VArr entries) ->
        exists index, mixed index entries)
  /\ ((forall j named index,
         first_named j named -> get_prop named "index" <> Ok (VArr index)) ->
      is_Throw run.1).
Proof.
  intros Hskip Hload Hfeeds Hi Hindex run first_named merged_over mixed.
  destruct run as [r assets'] eqn:Hrun. subst run. cbn [fst snd].
  assert (forall feeds index entries,
            getFeeds data dirname JSON_parse (with_network o) assets = (Ok feeds, assets') ->
            index_mixed_in assets' index entries -> mixed index entries) as Hmixed.
  { intros feeds index entries Hget [Hlength Hentries]. split; [done|].
    intros n indexEntry Hn. destruct (Hentries n indexEntry Hn) as (asset & Hasset & ->).
    exists asset. split; [done|]. do 3 f_equal. subst merged_over. cbv beta.
    rewrite (getFeeds_written _ _ _ _ _ _ _ _ (to_key asset) Hfeeds Hget).
    by destruct (own_props feedsDoc !! to_key asset). }
  split; [|split].
  - intros out ->.
    assert (exists populated, out = VArr populated) as [populated ->].
    { unfold getSynths in Hrun. rewrite Hload, Hskip in Hrun.
      destruct (getFeeds _ _ _ _ _) as [[feeds|] assets1]; [|done].
      destruct (mapM _ synths) as [out'|]; simpl in Hrun; [|done].
      injection Hrun as <- <-. eauto. }
    destruct (getSynths_populated _ _ _ _ _ _ _ _ Hskip Hload Hrun)
      as (feeds & Hget & Hmap).
    destruct (mapM_lookup _ _ _ _ _ Hmap Hi) as (y & Hy & Hout).
    destruct (populate_synth_index _ _ _ _ _ _ Hy Hindex)
      as (named & index & entries & synth & Hfind & Hnamed & Hentries & -> & Hsynth).
    destruct (find_named_first _ _ _ Hfind) as (j & Hfirst).
    exists j, named, index, entries, synth, populated.
    do 5 (split; [done|]). apply (Hmixed feeds); [done|]. by apply index_mixed_in_mapM.
  - intros populated k synth entries -> Hk Hsynth.
    destruct (getSynths_populated _ _ _ _ _ _ _ _ Hskip Hload Hrun)
      as (feeds & Hget & Hmap).
    destruct (mapM_lookup_inv _ _ _ _ _ Hmap Hk) as (x & _ & Hx).
    destruct (populate_synth_index_entries _ _ _ _ _ _ Hx Hsynth) as (index & Hin).
    exists index. by apply (Hmixed feeds).
  - intros Hmissing.
    unfold getSynths in Hrun. rewrite Hload, Hskip in Hrun.
    destruct (getFeeds _ _ _ _ _) as [[feeds|] assets1] eqn:Hget;
      [|by injection Hrun as <- <-].
    destruct (mapM _ synths) as [out|] eqn:Hmap; simpl in Hrun;
      injection Hrun as <- <-; [|done].
    destruct (mapM_lookup _ _ _ _ _ Hmap Hi) as (y & Hy & _).
    assert (is_Throw (populate_synth assets1 feeds synths (VObj raw))) as Hthrow.
    { apply (populate_synth_index_throws _ _ _ _ placeholder Hindex).
      intros named index Hfind.
      destruct (find_named_first _ _ _ Hfind) as (j & Hfirst).
      by apply (Hmissing j). }
    by rewrite Hy in Hthrow.
Qed.

Lemma getSynths_index_resolved_witness :
  let synths := [Examples.zDEFI; Examples.iDEFI] in
  let feedsDoc := VObj {[ "BTC" := Examples.btc_feed ]} in
  let assets := Examples.btc_registry in
  let run := getSynths Examples.index_networks "" no_parse (bundled None false) assets in
  let first_named (j : nat) (named : value) :=
    synths !! j = Some named
    /\ get_prop named "name" = Ok (VStr "zDEFI")
    /\ forall j' x, (j' < j)%nat -> synths !! j' = Some x ->
         get_prop x "name" <> Ok (VStr "zDEFI") in
  let merged_over (k : string) : obj :=
    match own_props feedsDoc !! k with
    | Some feedEntry => own_props feedEntry ∪ default ∅ (registry_entry assets k)
    | None => default ∅ (assets !! k)
    end in
  let mixed (index entries : list value) :=
    length entries = length index
    /\ forall n indexEntry, index !! n = Some indexEntry ->
         exists asset,
           get_prop indexEntry "asset" = Ok asset
           /\ entries !! n
              = Some (VObj (own_props indexEntry ∪ merged_over (to_key asset))) in
  (forall out, run.1 = Ok out ->
     exists j named index entries synth populated,
       out = VArr populated
       /\ first_named j named
       /\ get_prop named "index" = Ok (VArr index)
       /\ populated !! 1 = Some (VObj synth)
       /\ synth !! "index" = Some (VArr entries)
       /\ mixed index entries)
  /\ (forall populated k synth entries,
        run.1 = Ok (VArr populated) ->
        populated !! k = Some (VObj synth) ->
        synth !! "index" = Some (VArr entries) ->
        exists index, mixed index entries)
  /\ ((forall j named index,
         first_named j named -> get_prop named "index" <> Ok (VArr index)) ->
      is_Throw run.1).
Proof.
  apply (getSynths_index_resolved Examples.index_networks "" no_parse
           (bundled None false) Examples.btc_registry
           [Examples.zDEFI; Examples.iDEFI] (VObj {[ "BTC" := Examples.btc_feed ]})
           1 (own_props Examples.iDEFI) "zDEFI").
  - reflexivity.
  - vm_compute. reflexivity.
  - vm_compute. reflexivity.
  - reflexivity.
  - vm_compute. reflexivity.
Defined.

(** On the sample: the one entry of the resolved [index] of [iDEFI] has the
    [feed] of the [BTC] feed, which neither the index entry nor the [BTC]
    entry of the registry given has. *)
Example getSynths_index_entry_carries_feed :
  let run := getSynths Examples.index_networks "" no_parse (bundled None false)
               Examples.btc_registry in
  exists first synth,
    run.1 = Ok (VArr [first; VObj synth])
    /\ synth !! "index"
       = Some (VArr [VObj (<[ "feed" := VStr "0xFEED" ]>
                            (<[ "weight" := VNum 2 ]> Examples.btc_asset))])
    /\ Examples.btc_asset !! "feed" = None
    /\ Examples.btc_registry !! "BTC" = Some Examples.btc_asset.
Proof.
  intros run. subst run. eexists _, _. split; [by vm_compute|].
  split; [by vm_compute|]. split; by vm_compute.
Qed.

(** The index step of [populate_synth] touches the [index] field only. *)
Lemma populate_synth_fields (assets feeds : registry) (synths : list value) (raw : obj)
    (y : value) :
  populate_synth assets feeds synths (VObj raw) = Ok y ->
  exists synth,
    y = VObj synth
    /\ forall k, k <> "index" ->
         synth !! k
         = match feeds !! to_key (field (Object_assign (Object_assign ∅
                     (registry_get assets (to_key (default VUndef (raw !! "asset")))))
                     (VObj raw)) "asset") with
           | Some entry =>
               Object_assign {[ "feed" := field entry "feed" ]}
                 (VObj (Object_assign (Object_assign ∅
                    (registry_get assets (to_key (default VUndef (raw !! "asset")))))
                    (VObj raw)))
           | None =>
               Object_assign (Object_assign ∅
                 (registry_get assets (to_key (default VUndef (raw !! "asset")))))
                 (VObj raw)
           end !! k.
Proof.
  unfold populate_synth. cbn [get_prop bind].
  set (synth2 := match feeds !! _ with Some _ => _ | None => _ end).
  intros Hrun.
  assert (exists synth3,
            (forall k, k <> "index" -> synth3 !! k = synth2 !! k)
            /\ (if truthy (field synth3 "index") then
                  match field synth3 "index" with
                  | VArr entries =>
                      let! entries := mapM (mixin_index_entry assets) entries in
                      Ok (VObj (<[ "index" := VArr entries ]> synth3))
                  | _ => Throw "TypeError: synth.index.map is not a function"
                  end
                else Ok (VObj synth3)) = Ok y) as (synth3 & Hsame & Hrest).
  { destruct (field synth2 "index") as [| | | |placeholder| |]; cbn [bind] in Hrun;
      try (by exists synth2).
    destruct (find_named synths placeholder) as [found|]; cbn [bind] in Hrun; [|done].
    destruct (match found with Some x => get_prop x "index" | None => Ok VUndef end)
      as [index|]; cbn [bind] in Hrun; [|done].
    destruct (negb (truthy index)); cbn [bind] in Hrun; [done|].
    eexists. split; [|exact Hrun].
    intros k Hk. rewrite Object_assign_target by by apply lookup_singleton_ne.
    by rewrite Object_assign_empty. }
  clear Hrun. destruct (truthy (field synth3 "index")).
  - destruct (field synth3 "index") as [| | | | |index|]; try done.
    destruct (mapM (mixin_index_entry assets) index) as [entries|];
      cbn [bind] in Hrest; [|done].
    injection Hrest as <-. eexists. split; [done|].
    intros k Hk. rewrite lookup_insert_ne by done. by apply Hsame.
  - injection Hrest as <-. eauto.
Qed.

(** C3, as the code has it. For a synth whose asset symbol has an entry in
    the feeds mapping, the synth [getSynths] returns keeps every field of the
    raw record but [index] (the raw record wins, for [feed] as for the other
    fields), and carries the feed entry's [feed] when the raw record has no
    [feed] of its own. *)
Theorem getSynths_feed_default
    (data : gmap string bundle) (dirname : string) (JSON_parse : string -> result value)
    (o : options) (assets : registry) (synths populated : list value) (feedsDoc : obj)
    (i : nat) (raw : obj) (symbol : string) (entry feed : value) :
  skipPopulate o = false ->
  load_synths data dirname JSON_parse o = Ok (VArr synths) ->
  load_feeds data dirname JSON_parse (with_network o) = Ok (VObj feedsDoc) ->
  synths !! i = Some (VObj raw) ->
  raw !! "asset" = Some (VStr symbol) ->
  feedsDoc !! symbol = Some entry ->
  own_props entry !! "feed" = Some feed ->
  (getSynths data dirname JSON_parse o assets).1 = Ok (VArr populated) ->
  exists synth,
    populated !! i = Some (VObj synth)
    /\ (forall k v, raw !! k = Some v -> k <> "index" -> synth !! k = Some v)
    /\ synth !! "feed" = Some (default feed (raw !! "feed")).
Proof.
  intros Hskip Hload Hfeeds Hi Hasset Hentry Hfeed Hrun.
  destruct (getSynths data dirname JSON_parse o assets) as [r assets'] eqn:Hget.
  cbn [fst] in Hrun. subst r.
  destruct (getSynths_populated _ _ _ _ _ _ _ _ Hskip Hload Hget)
    as (feeds & Hgot & Hmap).
  destruct (getFeeds_lookup _ _ _ _ _ _ _ _ _ _ Hfeeds Hentry Hgot)
    as (a & _ & Hfeeds_symbol & Hassets_symbol).
  destruct (mapM_lookup _ _ _ _ _ Hmap Hi) as (y & Hy & Hout).
  destruct (populate_synth_fields _ _ _ _ _ Hy) as (synth & -> & Hsame).
  exists synth. split; [done|].
  assert (forall k v, raw !! k = Some v -> k <> "index" -> synth !! k = Some v) as Hraw.
  { intros k v Hk Hne. rewrite Hsame by done.
    by apply (populate_synth_mixed assets' feeds raw k v). }
  split; [done|].
  destruct (raw !! "feed") as [own|] eqn:Hown; cbn [default from_option id].
  { by apply Hraw. }
  rewrite Hsame by done. rewrite Hasset. cbn [default from_option id to_key].
  set (synth1 := Object_assign _ (VObj raw)).
  assert (synth1 !! "asset" = Some (VStr symbol)) as Hsynth1_asset.
  { subst synth1. by apply Object_assign_source. }
  assert (synth1 !! "feed" = Some feed) as Hsynth1_feed.
  { subst synth1. rewrite Object_assign_target by done.
    unfold registry_get. rewrite Hassets_symbol, Object_assign_empty.
    cbn [own_props]. by apply Object_assign_source. }
  unfold field at 1. rewrite Hsynth1_asset. cbn [default from_option id to_key].
  rewrite Hfeeds_symbol. by apply Object_assign_source.
Qed.

Lemma getSynths_feed_default_witness :
  exists synth,
    [VObj (<[ "name" := VStr "zBTC" ]>
             (<[ "feed" := VStr "0xFEED" ]> Examples.btc_asset))] !! 0
    = Some (VObj synth)
    /\ (forall k v, own_props Examples.zBTC !! k = Some v -> k <> "index" ->
                    synth !! k = Some v)
    /\ synth !! "feed" = Some (default (VStr "0xFEED") (own_props Examples.zBTC !! "feed")).
Proof.
  apply (getSynths_feed_default
           (<[ "mainnet" := folder Examples.empty_deployment (VArr [Examples.zBTC])
                              (VObj {[ "BTC" := Examples.btc_feed ]}) ]> ∅)
           "" no_parse (bundled None false) Examples.btc_registry
           [Examples.zBTC]
           [VObj (<[ "name" := VStr "zBTC" ]>
                    (<[ "feed" := VStr "0xFEED" ]> Examples.btc_asset))]
           {[ "BTC" := Examples.btc_feed ]} 0 (own_props Examples.zBTC) "BTC"
           Examples.btc_feed (VStr "0xFEED")).
  - reflexivity.
  - vm_compute. reflexivity.
  - vm_compute. reflexivity.
  - reflexivity.
  - vm_compute. reflexivity.
  - vm_compute. reflexivity.
  - vm_compute. reflexivity.
  - vm_compute. reflexivity.
Defined.

(** ** The decode enhancer *)

(** The two helpers that catch their exceptions always return: whatever the
    value, [decodedBytes32] and [decodeUint] give an object, the sentinel
    standing in for a failed decode. *)
Lemma decodedBytes32_sentinel (p : value) :
  (forall key, p <> VStr key) ->
  decodedBytes32 p = {[ "ascii" := VStr error_decoding ]}.
Proof. intros Hp. destruct p; try done. by destruct (Hp s). Qed.

Lemma decodeUint_sentinel (toBN : value -> result Z) (p : value) (msg : string) :
  toBN p = Throw msg -> decodeUint toBN p = {[ "ascii" := VStr error_decoding ]}.
Proof. intros Hp. unfold decodeUint. by rewrite Hp. Qed.

Lemma bind_throws {A B} (r : result A) (k : A -> result B) :
  is_Throw r -> is_Throw (bind r k).
Proof. by destruct r. Qed.

Lemma mapM_throws {A B} (f : A -> result B) (xs : list A) (x : A) :
  x ∈ xs -> is_Throw (f x) -> is_Throw (mapM f xs).
Proof.
  intros Hx Hthrow. induction xs as [|x0 xs IH]; [by apply elem_of_nil in Hx|].
  simpl. apply elem_of_cons in Hx as [<-|Hx].
  - by destruct (f x).
  - destruct (f x0); simpl; [|done]. by destruct (mapM f xs); [destruct IH|].
Qed.

(** A tuple member that is not a string makes the tuple branch throw. *)
Lemma enhance_tuple_field_throws (toBN : value -> result Z) (v : value) :
  (forall s, v <> VStr s) -> is_Throw (enhance_tuple_field toBN v).
Proof. intros Hv. destruct v; try done. by destruct (Hv s). Qed.

(** C8, on the code. The tuple branch calls [startsWith] on every named
    member outside any [try]: for a decoded call with a tuple parameter that
    has a boolean member, [enhanceDecodedData] throws instead of returning an
    enhanced structure. *)
Theorem enhanceDecodedData_tuple_throws
    (toBN : value -> result Z) (isNaN : string -> bool) :
  isNaN "isOffchain" = true ->
  is_Throw (enhanceDecodedData toBN isNaN Examples.decoded_order).
Proof.
  intros Hname.
  assert (is_Throw (enhance_tuple toBN isNaN
            (VObj (<[ "0" := VBool true ]> {[ "isOffchain" := VBool true ]}))))
    as Htuple.
  { unfold enhance_tuple. cbn [own_props].
    apply (bind_throws _ _), (mapM_throws _ _ ("isOffchain", VBool true)); [|done].
    apply list_elem_of_filter. split; [done|].
    apply elem_of_map_to_list. by vm_compute. }
  unfold enhanceDecodedData.
  change (get_prop Examples.decoded_order "method")
    with (Ok (VObj (<[ "name" := VStr "submitOrder" ]>
                      {[ "params" := VArr [Examples.order_param] ]}))).
  cbn [bind].
  change (get_prop (VObj (<[ "name" := VStr "submitOrder" ]>
                            {[ "params" := VArr [Examples.order_param] ]})) "params")
    with (Ok (VArr [Examples.order_param])).
  cbn [bind mapM]. unfold enhance_param.
  change (get_prop Examples.order_param "type") with (Ok (VStr "tuple")).
  change (get_prop Examples.order_param "value")
    with (Ok (VObj (<[ "0" := VBool true ]> {[ "isOffchain" := VBool true ]}))).
  cbn [bind]. change (is_int_type (to_key (VStr "tuple"))) with false. cbv iota.
  change (get_prop Examples.order_param "value")
    with (Ok (VObj (<[ "0" := VBool true ]> {[ "isOffchain" := VBool true ]}))).
  cbn [bind]. by destruct (enhance_tuple _ _ _).
Qed.

Lemma enhanceDecodedData_tuple_throws_witness :
  is_Throw (enhanceDecodedData Examples.sample_toBN Examples.sample_isNaN
              Examples.decoded_order).
Proof.
  apply (enhanceDecodedData_tuple_throws Examples.sample_toBN Examples.sample_isNaN).
  reflexivity.
Defined.

(** Where every failure is inside a helper the sentinel does its work: a
    [bytes32] key and an amount are enhanced, and an amount [toBN] rejects
    gets the sentinel. *)
Example enhanceDecodedData_exchange :
  exists enhanced key amount,
    enhanceDecodedData Examples.sample_toBN Examples.sample_isNaN Examples.decoded_exchange
    = Ok enhanced
    /\ decodedBytes32 (VStr (toBytes32 "zUSD")) = key
    /\ key !! "ascii" = Some (VStr "zUSD")
    /\ decodeUint Examples.sample_toBN (VStr "1234567") = amount
    /\ amount !! "number" = Some (VStr "1,234,567")
    /\ decodeUint Examples.sample_toBN (VStr "0xzz") !! "ascii" = Some (VStr error_decoding).
Proof.
  eexists _, _, _. split; [by vm_compute|].
  split; [done|]. split; [by vm_compute|].
  split; [done|]. split; by vm_compute.
Qed.

(** * Further properties of the accessors *)

(** ** Encoded keys *)

Lemma repeat_char_length (c : ascii) (n : nat) : String.length (repeat_char c n) = n.
Proof. induction n as [|n IH]; simpl; [done|by rewrite IH]. Qed.

Lemma isHexStrict_loop (s : string) (n : nat) :
  W3Utils.isHexStrict ("0x" ++ W3Utils.asciiToHex_loop s ++ repeat_char "0" n) = true.
Proof.
  unfold W3Utils.isHexStrict.
  set (tail := W3Utils.asciiToHex_loop s ++ _).
  change (startsWith ("0x" ++ tail) "-") with false. cbv iota.
  change (W3Utils.has_0x_prefix ("0x" ++ tail)) with true.
  change (slice ("0x" ++ tail) 2) with tail. subst tail.
  by rewrite W3UtilsFacts.all_hex_app
    by auto using W3UtilsFacts.all_hex_loop, W3UtilsFacts.all_hex_zeros.
Qed.

(** X1. A key of at most 32 bytes is encoded on exactly 66 characters
    ([0x] and 64 digits), and the encoding is a strict hex string. *)
Theorem toBytes32_width (s : string) :
  (String.length s <= 32)%nat ->
  String.length (toBytes32 s) = 66%nat /\ W3Utils.isHexStrict (toBytes32 s) = true.
Proof.
  intros Hlen. destruct (W3UtilsFacts.toBytes32_shape s) as [->|[-> _]]; [|by vm_compute].
  split; [|apply isHexStrict_loop].
  rewrite string_cons_app, string_cons_app, string_nil_app. cbn [String.length].
  rewrite string_length_app, W3UtilsFacts.length_loop, repeat_char_length. lia.
Qed.

Lemma toBytes32_width_witness :
  String.length (toBytes32 "zBTC") = 66%nat /\ W3Utils.isHexStrict (toBytes32 "zBTC") = true.
Proof. apply (toBytes32_width "zBTC"). vm_compute. lia. Defined.

(** X2. A key of 32 bytes or more is not cut: its encoding has two digits per
    byte and no padding, and decoding gives the key back exactly. *)
Theorem toBytes32_long_key (s : string) :
  (32 <= String.length s)%nat ->
  String.length (toBytes32 s) = (2 + 2 * String.length s)%nat
  /\ fromBytes32 (toBytes32 s) = Ok s.
Proof.
  intros Hlen. split.
  - destruct (W3UtilsFacts.toBytes32_shape s) as [->|[-> _]]; [|by simpl in Hlen; lia].
    rewrite string_cons_app, string_cons_app, string_nil_app. cbn [String.length].
    rewrite string_length_app, W3UtilsFacts.length_loop, repeat_char_length. lia.
  - rewrite W3UtilsFacts.fromBytes32_toBytes32.
    replace (32 - String.length s)%nat with 0%nat by lia.
    cbn [repeat_char]. by rewrite W3UtilsFacts.string_app_empty_r.
Qed.

Lemma toBytes32_long_key_witness :
  String.length (toBytes32 "0123456789abcdef0123456789abcdefXYZ") = 72%nat
  /\ fromBytes32 (toBytes32 "0123456789abcdef0123456789abcdefXYZ")
     = Ok "0123456789abcdef0123456789abcdefXYZ".
Proof. apply (toBytes32_long_key "0123456789abcdef0123456789abcdefXYZ"). vm_compute. lia. Defined.





(** ** Digit grouping and integer types *)

Lemma leading_digits_le (s : string) : (leading_digits s <= String.length s)%nat.
Proof.
  induction s as [|c s IH]; simpl; [done|]. destruct (is_digit c); lia.
Qed.

Lemma leading_digits_app (s t : string) :
  all_digits s = true ->
  leading_digits (s ++ t) = (String.length s + leading_digits t)%nat.
Proof.
  induction s as [|c s IH]; [done|]. rewrite string_cons_app. cbn.
  intros [-> Hs]%andb_true_iff. by rewrite IH.
Qed.

Lemma leading_digits_all (s : string) :
  all_digits s = true -> leading_digits s = String.length s.
Proof.
  induction s as [|c s IH]; [done|]. cbn.
  intros [-> Hs]%andb_true_iff. by rewrite IH.
Qed.

Lemma formatDecimals_short (s : string) :
  (String.length s <= 3)%nat -> formatDecimals s = s.
Proof.
  induction s as [|c s IH]; [done|]. cbn [String.length formatDecimals]. intros Hlen.
  pose proof (leading_digits_le s) as Hle.
  replace (is_digit c && (0 <? leading_digits s)%nat && (leading_digits s mod 3 =? 0)%nat)
    with false; [by rewrite IH by lia|].
  symmetry. apply andb_false_iff.
  destruct (leading_digits s) as [|[|[|n]]]; [left; apply andb_false_r|by right..|lia].
Qed.

(** X5. Digits are grouped by three from the right: a string of at most
    three characters (one, two or three digits, or none) is left as it is,
    the last three digits of a longer string of digits are set off by a comma
    from what precedes them, and a leading sign takes no comma. *)
Theorem formatDecimals_groups (a b : string) :
  all_digits a = true -> all_digits b = true ->
  a <> "" -> String.length b = 3%nat ->
  (forall s, (String.length s <= 3)%nat -> formatDecimals s = s)
  /\ formatDecimals (a ++ b) = formatDecimals a ++ "," ++ b
  /\ formatDecimals ("-" ++ a ++ b) = "-" ++ formatDecimals a ++ "," ++ b.
Proof.
  intros Ha Hb Hne Hlen.
  assert (formatDecimals b = b) as Hshort by (apply formatDecimals_short; lia).
  assert (formatDecimals (a ++ b) = formatDecimals a ++ "," ++ b) as Hgroup.
  { destruct a as [|c a]; [done|]. clear Hne. revert c Ha.
    induction a as [|c' a IH]; intros c [Hc Ha]%andb_true_iff.
    - rewrite string_cons_app, string_nil_app. cbn [formatDecimals].
      rewrite (leading_digits_all b Hb), Hlen, Hc, Hshort. reflexivity.
    - rewrite string_cons_app. cbn [formatDecimals].
      rewrite (leading_digits_app (String c' a) b Ha), (leading_digits_all b Hb), Hlen.
      rewrite (IH c' Ha). clear IH.
      rewrite (leading_digits_all (String c' a) Ha), Hc. cbn [andb].
      replace ((String.length (String c' a) + 3) mod 3)%nat
        with (String.length (String c' a) mod 3)%nat
        by (rewrite <- Nat.Div0.add_mod_idemp_r; by rewrite Nat.add_0_r).
      replace (0 <? String.length (String c' a) + 3)%nat with true
        by (symmetry; apply Nat.ltb_lt; lia).
      replace (0 <? String.length (String c' a))%nat with true
        by (symmetry; apply Nat.ltb_lt; cbn; lia).
      cbn [andb].
      destruct (String.length (String c' a) mod 3 =? 0)%nat;
        by rewrite !string_cons_app. }
  split; [exact formatDecimals_short|]. split; [done|].
  rewrite string_cons_app, string_nil_app. cbn [formatDecimals].
  change (is_digit "-") with false. cbn [andb]. by rewrite Hgroup.
Qed.

Lemma formatDecimals_groups_witness :
  (forall s, (String.length s <= 3)%nat -> formatDecimals s = s)
  /\ formatDecimals ("1234" ++ "567") = formatDecimals "1234" ++ "," ++ "567"
  /\ formatDecimals ("-" ++ "1234" ++ "567") = "-" ++ formatDecimals "1234" ++ "," ++ "567".
Proof. apply (formatDecimals_groups "1234" "567"); [reflexivity..|discriminate|reflexivity]. Defined.

(** X6. Grouping only inserts commas: with the commas taken out again the
    formatted string is the original (without its own commas). *)
Theorem formatDecimals_strip_commas (s : string) :
  strip_commas (formatDecimals s) = strip_commas s.
Proof.
  induction s as [|c s IH]; [done|]. cbn [formatDecimals].
  destruct (is_digit c && _ && _); cbn [strip_commas];
    destruct (Ascii.eqb c ","); by rewrite ?Ascii.eqb_refl, IH.
Qed.

Lemma is_digit_not_letter (c : ascii) (l : ascii) :
  is_digit c = true -> is_digit l = false -> Ascii.eqb l c = false.
Proof.
  intros Hc Hl. destruct (Ascii.eqb_spec l c) as [->|]; [congruence|done].
Qed.

Lemma is_int_type_digits (w : string) : all_digits w = true -> is_int_type w = false.
Proof.
  induction w as [|c w IH]; [done|]. intros [Hc Hw]%andb_true_iff.
  cbn [is_int_type startsWith]. rewrite (is_digit_not_letter c "i"%char Hc eq_refl).
  by rewrite IH.
Qed.

Lemma regex_dot_digit (c : ascii) : is_digit c = true -> regex_dot c = true.
Proof.
  intros Hc. unfold regex_dot.
  destruct (Ascii.eqb_spec c "010") as [->|_]; [done|].
  by destruct (Ascii.eqb_spec c "013") as [->|_].
Qed.

Lemma int_width_digits (w : string) :
  all_digits w = true -> int_width w = enhanced_width w.
Proof.
  destruct w as [|d [|c rest]]; [done| |].
  - intros _. cbn. apply andb_false_r.
  - intros [_ [Hc _]%andb_true_iff]%andb_true_iff.
    cbn [int_width enhanced_width]. rewrite (regex_dot_digit c Hc).
    by rewrite orb_true_r, andb_true_r.
Qed.

(** X7. Which integer types the enhancer recognises: for a width [w] made of
    digits, [int<w>] and [uint<w>] are taken for integers exactly when [w]
    starts with 1, 2 or 3 and has a second digit. So [uint256], [uint128] and
    [int16] are enhanced, [uint8] and [uint64] are not. *)
Theorem is_int_type_width (w : string) :
  all_digits w = true ->
  is_int_type ("int" ++ w) = enhanced_width w
  /\ is_int_type ("uint" ++ w) = enhanced_width w.
Proof.
  intros Hw.
  assert (is_int_type ("int" ++ w) = enhanced_width w) as Hint.
  { rewrite !string_cons_app, string_nil_app.
    cbn [is_int_type startsWith slice Ascii.eqb Bool.eqb andb orb].
    rewrite (is_int_type_digits w Hw), (int_width_digits w Hw).
    by rewrite !orb_false_r. }
  split; [done|].
  rewrite string_cons_app. cbn [is_int_type startsWith Ascii.eqb Bool.eqb andb orb].
  exact Hint.
Qed.

Lemma is_int_type_width_witness :
  is_int_type ("int" ++ "256") = enhanced_width "256"
  /\ is_int_type ("uint" ++ "256") = enhanced_width "256".
Proof. apply (is_int_type_width "256"). reflexivity. Defined.

(** ** Network resolution *)

Lemma startsWith_refl (s : string) : startsWith s s = true.
Proof. induction s as [|c s IH]; [done|]. cbn. by rewrite Ascii.eqb_refl. Qed.

(** X8. The folder name always starts with the network name; it is the
    network name itself when [useOvm] is false, and it contains [ovm] when
    [useOvm] is true. *)
Theorem getFolderNameForNetwork_shape (network : string) (useOvm : bool) :
  startsWith (getFolderNameForNetwork network useOvm) network = true
  /\ getFolderNameForNetwork network false = network
  /\ includes (getFolderNameForNetwork network true) "ovm" = true.
Proof.
  unfold getFolderNameForNetwork.
  destruct (includes network "ovm") eqn:Hovm.
  - by rewrite startsWith_refl.
  - split; [|split; [done|]].
    + destruct useOvm; [apply startsWith_app|apply startsWith_refl].
    + by apply includes_app_r.
Qed.

(** X9. The two chain-id tables agree, up to the type of the id: every
    name of [networkToChainId] maps to the id, as a string, of a chain whose
    selector spells that name. Handing that string back to [getNetworkFromId]
    finds nothing (only a number is read as an id); handing it back as a
    number finds the selector. *)
Theorem networkToChainId_round_trip (name id : string) :
  networkToChainId !! name = Some id ->
  getNetworkFromId (VStr id) = Ok None
  /\ exists (n : Z) (s : selector),
       id = pretty n
       /\ getNetworkFromId (VNum n) = Ok (Some s)
       /\ getNetworkFromId (VObj {[ "id" := VNum n ]}) = Ok (Some s)
       /\ selector_key s = name.
Proof.
  intros Hname. apply elem_of_map_to_list in Hname.
  assert (map_to_list networkToChainId
          = [("goerli", "5"); ("sepolia", "421614"); ("mumbai", "80001");
             ("mainnet-fork", "31337"); ("mainnet", "56"); ("testnet", "97")]) as Htable
    by (vm_compute; reflexivity).
  rewrite Htable in Hname. clear Htable.
  repeat (apply elem_of_cons in Hname as [[= -> ->]|Hname]);
    [..|by apply elem_of_nil in Hname]; (split; [by vm_compute|]).
  - exists 5%Z. eexists. repeat split; by vm_compute.
  - exists 421614%Z. eexists. repeat split; by vm_compute.
  - exists 80001%Z. eexists. repeat split; by vm_compute.
  - exists 31337%Z. eexists. repeat split; by vm_compute.
  - exists 56%Z. eexists. repeat split; by vm_compute.
  - exists 97%Z. eexists. repeat split; by vm_compute.
Qed.

Lemma networkToChainId_round_trip_witness :
  getNetworkFromId (VStr "31337") = Ok None
  /\ exists (n : Z) (s : selector),
       "31337" = pretty n
       /\ getNetworkFromId (VNum n) = Ok (Some s)
       /\ getNetworkFromId (VObj {[ "id" := VNum n ]}) = Ok (Some s)
       /\ selector_key s = "mainnet-fork".
Proof. apply (networkToChainId_round_trip "mainnet-fork" "31337"). by vm_compute. Defined.

(** ** A network without a bundled folder *)

(** X10. When the bundle is read and it has no folder for the network (as
    for [local], or for any network with [useOvm] when no [-ovm] folder is
    bundled), every accessor throws, the market and reward lists included,
    and the registry is left as it was. The one exception is a folder name
    that every object inherits from [Object.prototype] (as for the network
    [constructor]): there the accessors that hand the facet back as it is
    return [undefined], and the others throw. *)
Theorem unknown_folder_throws
    (data : gmap string bundle) (dirname : string)
    (JSON_parse : string -> result value)
    (JSON_parse_deployment : string -> result deployment_doc)
    (o : options) (assets : registry) :
  from_bundle o = true ->
  data !! getFolderNameForNetwork (default "mainnet" (network o)) (useOvm o) = None ->
  let folder := getFolderNameForNetwork (default "mainnet" (network o)) (useOvm o) in
  is_Throw (getTarget data dirname JSON_parse_deployment o)
  /\ is_Throw (getSource data dirname JSON_parse_deployment o)
  /\ is_Throw (getFeeds data dirname JSON_parse o assets).1
  /\ (getFeeds data dirname JSON_parse o assets).2 = assets
  /\ (getSynths data dirname JSON_parse o assets).2 = assets
  /\ is_Throw (getFuturesMarkets data dirname JSON_parse o assets)
  /\ is_Throw (getPerpsMarkets data dirname JSON_parse o assets)
  /\ (inherited folder = false ->
      is_Throw (loadDeploymentFile data dirname JSON_parse_deployment o)
      /\ is_Throw (getSynths data dirname JSON_parse o assets).1
      /\ is_Throw (getOffchainFeeds data dirname JSON_parse o)
      /\ is_Throw (getStakingRewards data dirname JSON_parse o)
      /\ is_Throw (getShortingRewards data dirname JSON_parse o)
      /\ is_Throw (getVersions data dirname JSON_parse o))
  /\ (inherited folder = true ->
      loadDeploymentFile data dirname JSON_parse_deployment o = Ok None
      /\ (if skipPopulate o
          then (getSynths data dirname JSON_parse o assets).1 = Ok VUndef
          else is_Throw (getSynths data dirname JSON_parse o assets).1)
      /\ getOffchainFeeds data dirname JSON_parse o = Ok VUndef
      /\ getStakingRewards data dirname JSON_parse o = Ok VUndef
      /\ getShortingRewards data dirname JSON_parse o = Ok VUndef
      /\ (if byContract o
          then is_Throw (getVersions data dirname JSON_parse o)
          else getVersions data dirname JSON_parse o = Ok VUndef)).
Proof.
  intros Hbundle Hfolder folder.
  assert (data_folder data (Some (default "mainnet" (network o))) (useOvm o)
          = if inherited folder then Ok None
            else Throw "TypeError: Cannot read properties of undefined") as Hdefault.
  { unfold data_folder. by rewrite Hfolder. }
  assert (data_folder data (network o) (useOvm o)
          = match network o with
            | Some _ => if inherited folder then Ok None
                        else Throw "TypeError: Cannot read properties of undefined"
            | None => Throw "TypeError: Cannot read properties of undefined (reading 'includes')"
            end) as Hplain.
  { destruct (network o) as [n|] eqn:Hn; [exact Hdefault|done]. }
  assert (network o = None -> inherited folder = false) as Hmainnet.
  { intros Hn. subst folder. rewrite Hn. by destruct (useOvm o). }
  unfold getTarget, getSource, loadDeploymentFile, getSynths, load_synths, getFeeds,
    load_feeds, getOffchainFeeds, getFuturesMarkets, getPerpsMarkets, getStakingRewards,
    getShortingRewards, load_rewards, getVersions, load_versions.
  change (from_bundle (with_network o)) with (from_bundle o).
  change (data_folder data (network (with_network o)) (useOvm (with_network o)))
    with (data_folder data (Some (default "mainnet" (network o))) (useOvm o)).
  rewrite Hbundle, Hdefault, Hplain.
  destruct (network o) as [n|].
  - destruct (inherited folder); cbn; destruct (skipPopulate o), (byContract o); cbn;
      repeat split; done.
  - rewrite (Hmainnet eq_refl). cbn. repeat split; done.
Qed.

Lemma unknown_folder_throws_witness :
  let data := Examples.two_folders in
  (let o := bundled (Some "local") false in
   is_Throw (getTarget data "" no_parse o)
   /\ is_Throw (getSource data "" no_parse o)
   /\ is_Throw (getFeeds data "" no_parse o ∅).1
   /\ (getFeeds data "" no_parse o ∅).2 = ∅
   /\ (getSynths data "" no_parse o ∅).2 = ∅
   /\ is_Throw (getFuturesMarkets data "" no_parse o ∅)
   /\ is_Throw (getPerpsMarkets data "" no_parse o ∅)
   /\ is_Throw (loadDeploymentFile data "" no_parse o)
   /\ is_Throw (getSynths data "" no_parse o ∅).1
   /\ is_Throw (getOffchainFeeds data "" no_parse o)
   /\ is_Throw (getStakingRewards data "" no_parse o)
   /\ is_Throw (getShortingRewards data "" no_parse o)
   /\ is_Throw (getVersions data "" no_parse o))
  /\ (let o := bundled (Some "constructor") false in
      is_Throw (getTarget data "" no_parse o)
      /\ is_Throw (getFeeds data "" no_parse o ∅).1
      /\ loadDeploymentFile data "" no_parse o = Ok None
      /\ is_Throw (getSynths data "" no_parse o ∅).1
      /\ getOffchainFeeds data "" no_parse o = Ok VUndef
      /\ getStakingRewards data "" no_parse o = Ok VUndef
      /\ getShortingRewards data "" no_parse o = Ok VUndef
      /\ getVersions data "" no_parse o = Ok VUndef).
Proof.
  intros data. split.
  - intros o.
    destruct (unknown_folder_throws data "" no_parse no_parse o ∅ eq_refl eq_refl)
      as (H1 & H2 & H3 & H4 & H5 & H6 & H7 & Hplain & _).
    destruct (Hplain eq_refl) as (H8 & H9 & H10 & H11 & H12 & H13).
    exact (conj H1 (conj H2 (conj H3 (conj H4 (conj H5 (conj H6 (conj H7 (conj H8
          (conj H9 (conj H10 (conj H11 (conj H12 H13)))))))))))).
  - intros o.
    destruct (unknown_folder_throws data "" no_parse no_parse o ∅ eq_refl eq_refl)
      as (H1 & _ & H3 & _ & _ & _ & _ & _ & Hinherited).
    destruct (Hinherited eq_refl) as (H8 & H9 & H10 & H11 & H12 & H13).
    exact (conj H1 (conj H3 (conj H8 (conj H9 (conj H10 (conj H11 (conj H12 H13))))))).
Defined.

(** ** More on [getFeeds] *)

Lemma Object_assign_twice (a : obj) (entry : value) :
  Object_assign (Object_assign a entry) entry = Object_assign a entry.
Proof.
  unfold Object_assign. by rewrite (assoc_L (∪)), (idemp_L (∪)).
Qed.

Lemma getFeeds_reduce_unknown (entries : list (string * value)) (memo assets : registry)
    (k : string) (entry : value) :
  (k, entry) ∈ entries -> registry_entry assets k = None ->
  is_Throw (getFeeds_reduce entries memo assets).1.
Proof.
  revert memo assets. induction entries as [|[k0 e0] entries IH];
    intros memo assets Hin Hk; [by apply elem_of_nil in Hin|].
  cbn [getFeeds_reduce]. destruct (registry_entry assets k0) as [a0|] eqn:Hk0; [|done].
  apply elem_of_cons in Hin as [[= -> ->]|Hin]; [congruence|].
  apply IH; [done|]. rewrite registry_entry_insert_ne; [done|]. congruence.
Qed.

Lemma getFeeds_reduce_again (entries : list (string * value))
    (memo assets memo' assets' : registry) :
  NoDup entries.*1 ->
  getFeeds_reduce entries memo assets = (Ok memo', assets') ->
  getFeeds_reduce entries memo assets' = (Ok memo', assets').
Proof.
  revert memo assets. induction entries as [|[k e] entries IH];
    intros memo assets Hnodup; cbn [getFeeds_reduce].
  - by intros [= <- <-].
  - apply NoDup_cons in Hnodup as [Hfresh Hnodup].
    destruct (registry_entry assets k) as [a|] eqn:Hk; [|done]. intros Hrun.
    destruct (getFeeds_reduce_frame _ _ _ _ _ _ Hfresh Hrun) as [_ Hk'].
    cbn [fst] in Hk'. rewrite lookup_insert_eq in Hk'.
    rewrite (registry_entry_own _ _ _ Hk'), Object_assign_twice.
    rewrite (insert_id assets') by done. by eapply IH.
Qed.

Section FeedEffects.

Context (data : gmap string bundle) (dirname : string)
        (JSON_parse : string -> result value).

(** X11. A feeds file that names an asset symbol the registry does not know
    makes [getFeeds] throw; the symbol is not one of the names every object
    inherits from [Object.prototype], under which [assets[asset]] is the
    inherited object and [Object.assign] has a target. *)
Theorem getFeeds_unknown_symbol (o : options) (feedsDoc entry : value)
    (assets : registry) (symbol : string) :
  load_feeds data dirname JSON_parse o = Ok feedsDoc ->
  own_props feedsDoc !! symbol = Some entry ->
  assets !! symbol = None ->
  symbol ∉ Object_prototype_properties ->
  is_Throw (getFeeds data dirname JSON_parse o assets).1.
Proof.
  intros Hload Hsymbol Hunknown Hplain. unfold getFeeds. rewrite Hload.
  assert (registry_entry assets symbol = None) as Hentry.
  { unfold registry_entry, inherited. rewrite Hunknown.
    by rewrite bool_decide_eq_false_2. }
  destruct feedsDoc; try done; cbn [Object_entries];
    (eapply getFeeds_reduce_unknown; [by apply elem_of_map_to_list|done]).
Qed.

(** X12. A second call of [getFeeds] changes nothing more: on the registry
    the first call left, it returns the same feeds and leaves the registry as
    it is. *)
Theorem getFeeds_again (o : options) (assets feeds assets' : registry) :
  getFeeds data dirname JSON_parse o assets = (Ok feeds, assets') ->
  getFeeds data dirname JSON_parse o assets' = (Ok feeds, assets').
Proof.
  unfold getFeeds. destruct (load_feeds _ _ _ o) as [feedsDoc|]; [|done].
  destruct (Object_entries feedsDoc) as [entries|] eqn:Hentries; [|done].
  apply getFeeds_reduce_again.
  destruct feedsDoc; try done; injection Hentries as <-; apply NoDup_fst_map_to_list.
Qed.

(** X13. What a successful [getFeeds] returns and writes: for a symbol of
    the feeds file, the registry entry with the feed entry's fields written
    over it, which is also the registry's entry afterwards; a symbol that is
    not in the feeds file is not returned and its registry entry is
    untouched. The registry entry is [assets[symbol]]: an entry of the
    registry for every symbol but the names of [Object.prototype]. *)
Theorem getFeeds_effect (o : options) (feedsDoc : value) (assets feeds assets' : registry)
    (symbol : string) :
  load_feeds data dirname JSON_parse o = Ok feedsDoc ->
  getFeeds data dirname JSON_parse o assets = (Ok feeds, assets') ->
  match own_props feedsDoc !! symbol with
  | Some entry =>
      exists a, registry_entry assets symbol = Some a
                /\ (symbol ∉ Object_prototype_properties -> assets !! symbol = Some a)
                /\ feeds !! symbol = Some (own_props entry ∪ a)
                /\ assets' !! symbol = Some (own_props entry ∪ a)
  | None => feeds !! symbol = None /\ assets' !! symbol = assets !! symbol
  end.
Proof.
  intros Hload. unfold getFeeds. rewrite Hload.
  destruct (Object_entries feedsDoc) as [entries|] eqn:Hentries; [|done].
  assert (entries = map_to_list (own_props feedsDoc)) as ->.
  { by destruct feedsDoc; try done; injection Hentries as <-. }
  intros Hrun. destruct (own_props feedsDoc !! symbol) as [entry|] eqn:Hsymbol.
  - destruct (getFeeds_reduce_lookup _ _ _ _ _ symbol entry
                (NoDup_fst_map_to_list _) ltac:(by apply elem_of_map_to_list) Hrun)
      as (a & Ha & Hfeeds & Hassets).
    exists a. repeat split; try done.
    intros Hplain. revert Ha. unfold registry_entry, inherited.
    destruct (assets !! symbol); [done|]. by rewrite bool_decide_eq_false_2.
  - assert (symbol ∉ (map_to_list (own_props feedsDoc)).*1) as Hfresh.
    { intros ([k e] & Hk & Hin)%list_elem_of_fmap. cbn in Hk. subst k.
      apply elem_of_map_to_list in Hin. congruence. }
    destruct (getFeeds_reduce_frame _ _ _ _ _ _ Hfresh Hrun) as [Hfeeds Hassets].
    by rewrite Hfeeds, Hassets, lookup_empty.
Qed.

End FeedEffects.

Lemma getFeeds_unknown_symbol_witness :
  is_Throw (getFeeds Examples.feed_networks "" no_parse (bundled (Some "mainnet") false) ∅).1.
Proof.
  apply (getFeeds_unknown_symbol Examples.feed_networks "" no_parse
           (bundled (Some "mainnet") false) (VObj {[ "BTC" := Examples.btc_feed ]})
           Examples.btc_feed ∅ "BTC").
  - vm_compute. reflexivity.
  - vm_compute. reflexivity.
  - reflexivity.
  - vm_compute. intros Hin. repeat (apply elem_of_cons in Hin as [Hin|Hin]; [done|]).
    by apply elem_of_nil in Hin.
Defined.

Lemma getFeeds_again_witness :
  getFeeds Examples.feed_networks "" no_parse (bundled (Some "mainnet") false)
    {[ "BTC" := <[ "feed" := VStr "0xFEED" ]> Examples.btc_asset ]}
  = (Ok {[ "BTC" := <[ "feed" := VStr "0xFEED" ]> Examples.btc_asset ]},
     {[ "BTC" := <[ "feed" := VStr "0xFEED" ]> Examples.btc_asset ]}).
Proof.
  apply (getFeeds_again Examples.feed_networks "" no_parse
           (bundled (Some "mainnet") false) Examples.btc_registry).
  vm_compute. reflexivity.
Defined.

Lemma getFeeds_effect_witness :
  match own_props (VObj {[ "BTC" := Examples.btc_feed ]}) !! "BTC" with
  | Some entry =>
      exists a, registry_entry Examples.btc_registry "BTC" = Some a
                /\ ("BTC" ∉ Object_prototype_properties
                    -> Examples.btc_registry !! "BTC" = Some a)
                /\ ({[ "BTC" := <[ "feed" := VStr "0xFEED" ]> Examples.btc_asset ]}
                      : registry) !! "BTC" = Some (own_props entry ∪ a)
                /\ ({[ "BTC" := <[ "feed" := VStr "0xFEED" ]> Examples.btc_asset ]}
                      : registry) !! "BTC" = Some (own_props entry ∪ a)
  | None =>
      ({[ "BTC" := <[ "feed" := VStr "0xFEED" ]> Examples.btc_asset ]} : registry) !! "BTC"
      = None
      /\ ({[ "BTC" := <[ "feed" := VStr "0xFEED" ]> Examples.btc_asset ]} : registry) !! "BTC"
         = Examples.btc_registry !! "BTC"
  end.
Proof.
  apply (getFeeds_effect Examples.feed_networks "" no_parse
           (bundled (Some "mainnet") false) (VObj {[ "BTC" := Examples.btc_feed ]})
           Examples.btc_registry
           {[ "BTC" := <[ "feed" := VStr "0xFEED" ]> Examples.btc_asset ]}
           {[ "BTC" := <[ "feed" := VStr "0xFEED" ]> Examples.btc_asset ]} "BTC").
  - vm_compute. reflexivity.
  - vm_compute. reflexivity.
Defined.

(** ** Order and fields of the synth and market lists *)

(** X14. [getSynths] returns one synth per record of the list, in the order
    of the list. Each keeps every field of its raw record (but [index], which
    is resolved), and takes its other fields (but [feed]) from the registry
    entry of the record's asset. *)
Theorem getSynths_order
    (data : gmap string bundle) (dirname : string) (JSON_parse : string -> result value)
    (o : options) (assets : registry) (synths populated : list value) :
  skipPopulate o = false ->
  load_synths data dirname JSON_parse o = Ok (VArr synths) ->
  (getSynths data dirname JSON_parse o assets).1 = Ok (VArr populated) ->
  length populated = length synths
  /\ forall i raw, synths !! i = Some (VObj raw) ->
       exists synth,
         populated !! i = Some (VObj synth)
         /\ (forall k v, raw !! k = Some v -> k <> "index" -> synth !! k = Some v)
         /\ (forall k, raw !! k = None -> k <> "index" -> k <> "feed" ->
               synth !! k
               = default ∅ ((getSynths data dirname JSON_parse o assets).2
                              !! to_key (default VUndef (raw !! "asset"))) !! k).
Proof.
  intros Hskip Hload Hrun.
  destruct (getSynths data dirname JSON_parse o assets) as [r assets'] eqn:Hget.
  cbn [fst snd] in *. subst r.
  destruct (getSynths_populated _ _ _ _ _ _ _ _ Hskip Hload Hget) as (feeds & _ & Hmap).
  split; [by eapply mapM_length|].
  intros i raw Hi.
  destruct (mapM_lookup _ _ _ _ _ Hmap Hi) as (y & Hy & Hout).
  destruct (populate_synth_fields _ _ _ _ _ Hy) as (synth & -> & Hsame).
  exists synth. split; [done|]. split.
  - intros k v Hk Hne. rewrite Hsame by done.
    by apply (populate_synth_mixed assets' feeds raw k v).
  - intros k Hk Hindex Hfeed. rewrite Hsame by done.
    set (synth1 := Object_assign _ (VObj raw)).
    assert (synth1 !! k
            = default ∅ (assets' !! to_key (default VUndef (raw !! "asset"))) !! k)
      as Hsynth1.
    { subst synth1. rewrite Object_assign_target by done.
      rewrite Object_assign_empty. unfold registry_get. by destruct (assets' !! _). }
    destruct (feeds !! _); [|done].
    rewrite <- Hsynth1. destruct (synth1 !! k) as [v|] eqn:Hk1.
    + by apply Object_assign_source.
    + rewrite Object_assign_target by done. by rewrite lookup_singleton_ne.
Qed.

Lemma getSynths_order_witness :
  length [VObj (<[ "name" := VStr "zBTC" ]> Examples.btc_asset)] = length [Examples.zBTC]
  /\ forall i raw, [Examples.zBTC] !! i = Some (VObj raw) ->
       exists synth,
         [VObj (<[ "name" := VStr "zBTC" ]> Examples.btc_asset)] !! i = Some (VObj synth)
         /\ (forall k v, raw !! k = Some v -> k <> "index" -> synth !! k = Some v)
         /\ (forall k, raw !! k = None -> k <> "index" -> k <> "feed" ->
               synth !! k
               = default ∅ ((getSynths Examples.feed_networks "" no_parse
                               (bundled (Some "testnet") false) Examples.btc_registry).2
                              !! to_key (default VUndef (raw !! "asset"))) !! k).
Proof.
  apply (getSynths_order Examples.feed_networks "" no_parse
           (bundled (Some "testnet") false) Examples.btc_registry [Examples.zBTC]
           [VObj (<[ "name" := VStr "zBTC" ]> Examples.btc_asset)]).
  - reflexivity.
  - vm_compute. reflexivity.
  - vm_compute. reflexivity.
Defined.

Lemma map_markets_mixed (legacy : list string) (assets : registry) (markets : value)
    (out : value) :
  map_markets legacy assets markets = Ok out ->
  exists list mixed,
    markets = VArr list /\ out = VArr mixed
    /\ length mixed = length list
    /\ forall i m a, list !! i = Some (VObj m) -> m !! "asset" = Some (VStr a) ->
         mixed !! i
         = Some (VObj (m ∪ default ∅ (assets !! (if bool_decide (a ∈ legacy)
                                                  then slice a 1 else a)))).
Proof.
  unfold map_markets. destruct markets as [| | | | |list|]; try done.
  destruct (mapM _ list) as [mixed|] eqn:Hmap; cbn [bind]; [|done].
  intros [= <-]. exists list, mixed. do 2 (split; [done|]).
  split; [by eapply mapM_length|].
  intros i m a Hi Ha.
  destruct (mapM_lookup _ _ _ _ _ Hmap Hi) as (y & Hy & ->).
  unfold mixin_market in Hy. cbn [get_prop bind] in Hy. rewrite Ha in Hy.
  cbn [default from_option id] in Hy. injection Hy as <-. do 2 f_equal.
  unfold Object_assign at 1. cbn [own_props]. f_equal.
  rewrite Object_assign_empty. unfold registry_get. by destruct (assets !! _).
Qed.

(** X15. The two market lists keep their length and order, and each market
    is merged over the registry entry of its asset, its own fields winning.
    The key of that entry is the market's [asset] without its first character
    for the legacy keys, which are [zBTC], [zETH] and [zLINK] for the futures
    markets but only [zBTC] and [zETH] for the perps markets. The list is the
    one of the bundled folder, or the one parsed from [futures-markets.json]
    and [perpsv2-markets.json] in the network's directory (in
    [deploymentPath], when it is given); without the file the result is the
    empty list. *)
Theorem markets_mixed_in
    (data : gmap string bundle) (dirname : string) (JSON_parse : string -> result value)
    (o : options) (assets : registry) :
  let folder := getFolderNameForNetwork (default "mainnet" (network o)) (useOvm o) in
  let mixed_over (legacy : list string) (markets out : value) :=
    exists list mixed,
      markets = VArr list /\ out = VArr mixed
      /\ length mixed = length list
      /\ forall i m a, list !! i = Some (VObj m) -> m !! "asset" = Some (VStr a) ->
           mixed !! i
           = Some (VObj (m ∪ default ∅
                (assets !! (if bool_decide (a ∈ legacy) then slice a 1 else a)))) in
  let futures := getFuturesMarkets data dirname JSON_parse o assets in
  let perps := getPerpsMarkets data dirname JSON_parse o assets in
  (forall b, from_bundle o = true -> data !! folder = Some b ->
     (forall out, futures = Ok out ->
        mixed_over ["zBTC"; "zETH"; "zLINK"] (b_futuresMarkets b) out)
     /\ (forall out, perps = Ok out ->
          mixed_over ["zBTC"; "zETH"] (b_perpsv2Markets b) out))
  /\ (forall p f, path o = Some p -> fs o = Some f ->
       let location (file : string) :=
         if given (deploymentPath o) then join p [default "" (deploymentPath o); file]
         else join p [dirname; "publish"; "deployed"; folder; file] in
       (forall text parsed,
          existsSync f (location "futures-markets.json") = true ->
          readFileSync f (location "futures-markets.json") = Ok text ->
          JSON_parse text = Ok parsed -> truthy parsed = true ->
          forall out, futures = Ok out -> mixed_over ["zBTC"; "zETH"; "zLINK"] parsed out)
       /\ (forall text parsed,
            existsSync f (location "perpsv2-markets.json") = true ->
            readFileSync f (location "perpsv2-markets.json") = Ok text ->
            JSON_parse text = Ok parsed -> truthy parsed = true ->
            forall out, perps = Ok out -> mixed_over ["zBTC"; "zETH"] parsed out)
       /\ (existsSync f (location "futures-markets.json") = false -> futures = Ok (VArr []))
       /\ (existsSync f (location "perpsv2-markets.json") = false -> perps = Ok (VArr []))).
Proof.
  intros folder mixed_over futures perps. split.
  - intros b Hbundle Hfolder. subst futures perps mixed_over.
    unfold getFuturesMarkets, getPerpsMarkets, data_folder.
    fold folder. rewrite Hbundle, Hfolder. cbn [bind facet from_option].
    split; intros out Hout; by apply map_markets_mixed.
  - intros p f Hpath Hfs location.
    assert (from_bundle o = false) as Hdisk.
    { unfold from_bundle. rewrite Hpath, Hfs. by destruct (given _). }
    assert (forall file, facet_path dirname o (Some (default "mainnet" (network o))) file
                         = Ok (location file)) as Hlocation.
    { intros file. subst location. unfold facet_path, getPathToNetwork.
      rewrite Hpath. by destruct (given _). }
    subst futures perps mixed_over.
    unfold getFuturesMarkets, getPerpsMarkets, load_markets.
    rewrite Hdisk, !Hlocation, Hfs. cbn [bind fs_existsSync fs_readFileSync].
    unfold constants.FUTURES_MARKETS_FILENAME, constants.PERPS_V2_MARKETS_FILENAME.
    repeat split.
    + intros text parsed -> Hread Hparse Htruthy. cbn [negb bind].
      rewrite Hread. cbn [bind]. rewrite Hparse. cbn [bind]. rewrite Htruthy.
      intros out Hout. by apply map_markets_mixed.
    + intros text parsed -> Hread Hparse Htruthy. cbn [negb bind].
      rewrite Hread. cbn [bind]. rewrite Hparse. cbn [bind]. rewrite Htruthy.
      intros out Hout. by apply map_markets_mixed.
    + by intros ->.
    + by intros ->.
Qed.

Lemma markets_mixed_in_witness :
  (exists list mixed,
     VArr [Examples.zBTC_market; Examples.zLINK_market] = VArr list
     /\ VArr [VObj (own_props Examples.zBTC_market ∪ Examples.btc_asset);
              VObj (own_props Examples.zLINK_market ∪ Examples.link_asset)] = VArr mixed
     /\ length mixed = length list
     /\ forall i m a, list !! i = Some (VObj m) -> m !! "asset" = Some (VStr a) ->
          mixed !! i
          = Some (VObj (m ∪ default ∅
               (Examples.market_registry
                  !! (if bool_decide (a ∈ ["zBTC"; "zETH"; "zLINK"])
                      then slice a 1 else a)))))
  /\ (exists list mixed,
        VArr [Examples.zBTC_market; Examples.zLINK_market] = VArr list
        /\ VArr [VObj (own_props Examples.zBTC_market ∪ Examples.btc_asset);
                 Examples.zLINK_market] = VArr mixed
        /\ length mixed = length list
        /\ forall i m a, list !! i = Some (VObj m) -> m !! "asset" = Some (VStr a) ->
             mixed !! i
             = Some (VObj (m ∪ default ∅
                  (Examples.market_registry
                     !! (if bool_decide (a ∈ ["zBTC"; "zETH"])
                         then slice a 1 else a)))))
  /\ (exists list mixed,
        VArr [Examples.zBTC_market; Examples.zLINK_market] = VArr list
        /\ VArr [VObj (own_props Examples.zBTC_market ∪ Examples.btc_asset);
                 Examples.zLINK_market] = VArr mixed
        /\ length mixed = length list
        /\ forall i m a, list !! i = Some (VObj m) -> m !! "asset" = Some (VStr a) ->
             mixed !! i
             = Some (VObj (m ∪ default ∅
                  (Examples.market_registry
                     !! (if bool_decide (a ∈ ["zBTC"; "zETH"])
                         then slice a 1 else a)))))
  /\ getFuturesMarkets ∅ "" Examples.parse_markets
       (on_disk (Some "testnet") false None Examples.market_disk) Examples.market_registry
     = Ok (VArr []).
Proof.
  pose proof (markets_mixed_in Examples.market_networks "" no_parse (bundled None false)
                Examples.market_registry) as [Hbundle _].
  destruct (Hbundle Examples.market_folder eq_refl eq_refl) as [Hfutures Hperps].
  pose proof (markets_mixed_in ∅ "" Examples.parse_markets
                (on_disk None false None Examples.market_disk)
                Examples.market_registry) as [_ Hdisk].
  destruct (Hdisk slash_path Examples.market_disk eq_refl eq_refl)
    as (_ & Hperps_disk & _ & _).
  pose proof (markets_mixed_in ∅ "" Examples.parse_markets
                (on_disk (Some "testnet") false None Examples.market_disk)
                Examples.market_registry) as [_ Habsent].
  destruct (Habsent slash_path Examples.market_disk eq_refl eq_refl)
    as (_ & _ & Hfutures_absent & _).
  split; [|split; [|split]].
  - apply Hfutures. vm_compute. reflexivity.
  - apply Hperps. vm_compute. reflexivity.
  - apply (Hperps_disk "markets"); reflexivity.
  - apply Hfutures_absent. reflexivity.
Defined.

(** ** More on the PerpsV2 grouping *)

Lemma startsWith_slice (s p : string) :
  startsWith s p = true -> s = p ++ slice s (String.length p).
Proof.
  revert s. induction p as [|a p IH]; intros s; [done|].
  destruct s as [|b s]; [done|]. cbn [startsWith].
  intros [Hab Hs]%andb_true_iff. apply Ascii.eqb_eq in Hab as ->.
  rewrite string_cons_app. cbn [String.length slice]. by rewrite <- IH.
Qed.

Lemma foldM_establish {A B} (P : A -> Prop) (f : A -> B -> result A) (xs : list B) (x0 : B) :
  x0 ∈ xs ->
  (forall a a', f a x0 = Ok a' -> P a') ->
  (forall a x a', P a -> f a x = Ok a' -> P a') ->
  forall a r, foldM f xs a = Ok r -> P r.
Proof.
  intros Hin Hset Hkeep. induction xs as [|x xs IH]; intros a r;
    [by apply elem_of_nil in Hin|].
  cbn [foldM]. destruct (f a x) as [a'|] eqn:Hf; cbn [bind]; [|done].
  apply elem_of_cons in Hin as [<-|Hin].
  - apply (foldM_invariant P f xs Hkeep). by eapply Hset.
  - by apply IH.
Qed.

Lemma foldM_throws {A B} (f : A -> B -> result A) (xs : list B) (x0 : B) (a : A) :
  x0 ∈ xs -> (forall a, is_Throw (f a x0)) -> is_Throw (foldM f xs a).
Proof.
  intros Hin Hthrow. revert a. induction xs as [|x xs IH]; intros a;
    [by apply elem_of_nil in Hin|].
  cbn [foldM]. apply elem_of_cons in Hin as [<-|Hin].
  - specialize (Hthrow a). by destruct (f a x0).
  - destruct (f a x); cbn [bind]; [by apply IH|done].
Qed.

Lemma assoc_elem_of {A} (l : list (string * A)) (k : string) (x : A) :
  assoc l k = Some x -> k ∈ l.*1.
Proof.
  induction l as [|[k' x'] l IH]; [done|]. cbn [assoc].
  destruct (String.eqb_spec k' k) as [->|_]; intros Hk.
  - apply elem_of_cons. by left.
  - apply elem_of_cons. right. by apply IH.
Qed.

Lemma elem_of_assoc {A} (l : list (string * A)) (k : string) :
  k ∈ l.*1 -> is_Some (assoc l k).
Proof.
  induction l as [|[k' x'] l IH]; [by intros ?%elem_of_nil|].
  cbn [assoc]. destruct (String.eqb_spec k' k) as [->|Hne]; [by eexists|].
  intros [Hk|Hk]%elem_of_cons; [by destruct Hne|by apply IH].
Qed.

(** The three things [_analyzeAndIncludePerpsV2] can do with a target: leave
    the accumulator, record the address of a proxy under the market its name
    ends with, or consolidate the ABI of a component under the market its
    name ends with. *)
Lemma _analyzeAndIncludePerpsV2_cases target targetData sourceData PerpsV2Proxied :
  _analyzeAndIncludePerpsV2 target targetData sourceData PerpsV2Proxied = Ok PerpsV2Proxied
  \/ (exists marketName,
        target = proxyPrefix ++ marketName
        /\ _analyzeAndIncludePerpsV2 target targetData sourceData PerpsV2Proxied
           = Ok (alter (fun m => {| m_address := address targetData; m_abi := m_abi m |})
                       marketName (init_market PerpsV2Proxied marketName)))
  \/ (exists prefix marketName,
        prefix ∈ component_prefixes
        /\ target = prefix ++ marketName
        /\ _analyzeAndIncludePerpsV2 target targetData sourceData PerpsV2Proxied
           = (let! currentAbi := abi_of sourceData in
              consolidate_market currentAbi marketName
                (init_market PerpsV2Proxied marketName))).
Proof.
  unfold _analyzeAndIncludePerpsV2.
  destruct (_ || _ || _); [by left|].
  destruct (startsWith target proxyPrefix) eqn:Hproxy.
  { right; left. eexists. split; [by apply startsWith_slice|done]. }
  unfold prefixes. cbn [foldl].
  assert (forall prefix,
            prefix ∈ component_prefixes -> startsWith target prefix = true ->
            forall outcome,
              outcome
              = (let! currentAbi := abi_of sourceData in
                 consolidate_market currentAbi (slice target (String.length prefix))
                   (init_market PerpsV2Proxied (slice target (String.length prefix)))) ->
              exists prefix0 marketName,
                prefix0 ∈ component_prefixes /\ target = prefix0 ++ marketName
                /\ outcome
                   = (let! currentAbi := abi_of sourceData in
                      consolidate_market currentAbi marketName
                        (init_market PerpsV2Proxied marketName)))
    as Hfound.
  { intros prefix Hin Hstarts outcome ->.
    exists prefix, (slice target (String.length prefix)).
    split; [done|]. split; [by apply startsWith_slice|done]. }
  assert (forall prefix, prefix ∈ ["PerpsV2MarketLiquidate"; "PerpsV2DelayedExecution";
                                   "PerpsV2DelayedIntent"; "PerpsV2MarketViews";
                                   "PerpsV2Market"] ->
                         prefix ∈ component_prefixes) as Hmember.
  { intros prefix. unfold component_prefixes, prefixes, marketPrefix. cbn [app].
    rewrite !elem_of_cons. tauto. }
  destruct (startsWith target "PerpsV2MarketLiquidate") eqn:H4.
  { right; right. apply (Hfound "PerpsV2MarketLiquidate"); [|done..].
    apply Hmember. rewrite !elem_of_cons. tauto. }
  destruct (startsWith target "PerpsV2DelayedExecution") eqn:H3.
  { right; right. apply (Hfound "PerpsV2DelayedExecution"); [|done..].
    apply Hmember. rewrite !elem_of_cons. tauto. }
  destruct (startsWith target "PerpsV2DelayedIntent") eqn:H2.
  { right; right. apply (Hfound "PerpsV2DelayedIntent"); [|done..].
    apply Hmember. rewrite !elem_of_cons. tauto. }
  destruct (startsWith target "PerpsV2MarketViews") eqn:H1.
  { right; right. apply (Hfound "PerpsV2MarketViews"); [|done..].
    apply Hmember. rewrite !elem_of_cons. tauto. }
  destruct (startsWith target marketPrefix) eqn:H0; [|by left].
  right; right. apply (Hfound "PerpsV2Market"); [|done..].
  apply Hmember. rewrite !elem_of_cons. tauto.
Qed.

Section PerpsReading.

Context (data : gmap string bundle) (dirname : string)
        (JSON_parse_deployment : string -> result deployment_doc).

(** What a visit that returns has done. *)
Lemma perps_visit_cases (o : options) (d : deployment_doc) (target : string)
    (PerpsV2Proxied out : gmap string market) :
  loadDeploymentFile data dirname JSON_parse_deployment (perps_options o None)
  = Ok (Some d) ->
  perps_visit data dirname JSON_parse_deployment o PerpsV2Proxied target = Ok out ->
  out = PerpsV2Proxied
  \/ (exists marketName targetData,
        target = proxyPrefix ++ marketName
        /\ assoc (targets d) target = Some targetData
        /\ out = alter (fun m => {| m_address := address targetData; m_abi := m_abi m |})
                       marketName (init_market PerpsV2Proxied marketName))
  \/ (exists prefix marketName targetData s src,
        prefix ∈ component_prefixes
        /\ target = prefix ++ marketName
        /\ assoc (targets d) target = Some targetData
        /\ source targetData = Some s
        /\ sources d !! s = Some src
        /\ out = alter (fun m => {| m_address := m_address m;
                                    m_abi := _consolidateAbi (abi src) (m_abi m) |})
                       marketName (init_market PerpsV2Proxied marketName)).
Proof.
  intros Hd. rewrite (perps_visit_loaded data dirname JSON_parse_deployment o d target PerpsV2Proxied Hd).
  destruct (negb _); [intros [= <-]; by left|].
  destruct (assoc (targets d) target) as [targetData|]; [|done].
  destruct (_analyzeAndIncludePerpsV2_cases target targetData (source_data d targetData)
              PerpsV2Proxied)
    as [->|[(m & Hm & ->)|(p & m & Hp & Hm & ->)]].
  - intros [= <-]. by left.
  - intros [= <-]. right; left. by exists m, targetData.
  - unfold source_data. destruct (source targetData) as [s|] eqn:Hs; [|done].
    cbn [given default from_option id]. destruct (negb (String.eqb s "")); [|done].
    destruct (sources d !! s) as [src|] eqn:Hsrc; [|done]. cbn [abi_of bind].
    intros ->%consolidate_market_Ok. right; right. by exists p, m, targetData, s, src.
Qed.

Lemma init_market_lookup (PerpsV2Proxied : gmap string market) (marketName : string) :
  marketName ∉ Object_prototype_properties ->
  init_market PerpsV2Proxied marketName !! marketName
  = Some (default {| m_address := None; m_abi := [] |} (PerpsV2Proxied !! marketName)).
Proof.
  intros Hplain. unfold init_market, inherited.
  destruct (PerpsV2Proxied !! marketName) eqn:Hm; [done|].
  rewrite bool_decide_eq_false_2 by done. by rewrite lookup_insert_eq.
Qed.

Lemma init_market_lookup_Some (PerpsV2Proxied : gmap string market) (marketName : string)
    (m : market) :
  init_market PerpsV2Proxied marketName !! marketName = Some m ->
  m = default {| m_address := None; m_abi := [] |} (PerpsV2Proxied !! marketName).
Proof.
  unfold init_market. destruct (PerpsV2Proxied !! marketName) eqn:Hm;
    cbn [default from_option id]; [congruence|].
  destruct (inherited marketName); [congruence|].
  rewrite lookup_insert_eq. congruence.
Qed.

Lemma init_market_present (PerpsV2Proxied : gmap string market) (marketName : string)
    (m : market) :
  PerpsV2Proxied !! marketName = Some m ->
  init_market PerpsV2Proxied marketName = PerpsV2Proxied.
Proof. intros Hm. unfold init_market. by rewrite Hm. Qed.

Lemma init_market_inherited (PerpsV2Proxied : gmap string market) (marketName : string) :
  marketName ∈ Object_prototype_properties ->
  init_market PerpsV2Proxied marketName = PerpsV2Proxied.
Proof.
  intros Hproto. unfold init_market, inherited.
  destruct (PerpsV2Proxied !! marketName); [done|].
  by rewrite bool_decide_eq_true_2.
Qed.

Lemma init_market_lookup_ne (PerpsV2Proxied : gmap string market) (marketName name : string) :
  marketName <> name ->
  init_market PerpsV2Proxied marketName !! name = PerpsV2Proxied !! name.
Proof.
  intros Hne. unfold init_market. destruct (PerpsV2Proxied !! marketName); [done|].
  destruct (inherited marketName); [done|]. by rewrite lookup_insert_ne.
Qed.

Lemma analyze_proxy marketName targetData sourceData PerpsV2Proxied :
  _analyzeAndIncludePerpsV2 (proxyPrefix ++ marketName) targetData sourceData PerpsV2Proxied
  = Ok (alter (fun m => {| m_address := address targetData; m_abi := m_abi m |}) marketName
              (init_market PerpsV2Proxied marketName)).
Proof. reflexivity. Qed.

Lemma analyze_component prefix marketName targetData sourceData PerpsV2Proxied :
  prefix ∈ prefixes ->
  startsWith (prefix ++ marketName) "PerpsV2" = true
  /\ _analyzeAndIncludePerpsV2 (prefix ++ marketName) targetData sourceData PerpsV2Proxied
     = (let! currentAbi := abi_of sourceData in
        consolidate_market currentAbi marketName (init_market PerpsV2Proxied marketName)).
Proof.
  unfold prefixes. rewrite !elem_of_cons, elem_of_nil.
  intros [->|[->|[->|[->|[]]]]]; by split.
Qed.

Lemma _consolidateAbi_mono (currentAbi consolidatedAbi : list fragment) (g : fragment) :
  g ∈ consolidatedAbi -> g ∈ _consolidateAbi currentAbi consolidatedAbi.
Proof.
  unfold _consolidateAbi. revert consolidatedAbi.
  induction currentAbi as [|x currentAbi IH]; intros acc Hg; [done|].
  cbn [foldl]. apply IH.
  destruct (negb _); [|done]. destruct (negb _); [|done].
  apply elem_of_app. by left.
Qed.

Lemma _consolidateAbi_subset (currentAbi consolidatedAbi : list fragment) (f : fragment) :
  f ∈ _consolidateAbi currentAbi consolidatedAbi -> f ∈ consolidatedAbi \/ f ∈ currentAbi.
Proof.
  unfold _consolidateAbi. revert consolidatedAbi.
  induction currentAbi as [|x currentAbi IH]; intros acc; [by left|].
  cbn [foldl]. intros [Hf|Hf]%IH; [|right; by apply elem_of_cons; right].
  destruct (negb _); [|by left]. destruct (negb _); [|by left].
  apply elem_of_app in Hf as [Hf|Hf%list_elem_of_singleton]; [by left|].
  right. apply elem_of_cons. by left.
Qed.

Lemma _consolidateAbi_covers (currentAbi consolidatedAbi : list fragment) (f : fragment) :
  f ∈ currentAbi -> ftype f <> "constructor" ->
  exists g, g ∈ _consolidateAbi currentAbi consolidatedAbi
            /\ fragment_key g = fragment_key f.
Proof.
  intros Hf Htype. revert consolidatedAbi.
  induction currentAbi as [|x currentAbi IH]; intros acc;
    [by apply elem_of_nil in Hf|].
  apply elem_of_cons in Hf as [<-|Hf]; [|by apply IH].
  change (_consolidateAbi (f :: currentAbi) acc)
    with (_consolidateAbi currentAbi
            (if negb (existsb (same_fragment f) acc) then
               if negb (String.eqb (ftype f) "constructor")
               then (acc ++ [f])%list else acc
             else acc)).
  destruct (existsb (same_fragment f) acc) eqn:Hfound; cbn [negb].
  - apply existsb_exists in Hfound as (g & Hg%list_elem_of_In & Hsame).
    apply same_fragment_true in Hsame as [Hkey _].
    exists g. split; [by apply _consolidateAbi_mono|done].
  - apply String.eqb_neq in Htype. rewrite Htype. cbn [negb].
    exists f. split; [|done]. apply _consolidateAbi_mono, elem_of_app.
    right. by apply list_elem_of_singleton.
Qed.

(** X16. A market of the result always comes from a target: its name is what
    follows the proxy prefix or one of the component prefixes in the name of
    a target that starts with [PerpsV2]. In particular a deployment without
    such targets gives the empty mapping. *)
Theorem getPerpsV2ProxiedMarkets_names (o : options) (d : deployment_doc)
    (markets : gmap string market) :
  loadDeploymentFile data dirname JSON_parse_deployment (perps_options o None)
  = Ok (Some d) ->
  getPerpsV2ProxiedMarkets data dirname JSON_parse_deployment o = Ok markets ->
  (forall marketName, is_Some (markets !! marketName) ->
     exists prefix,
       prefix ∈ proxyPrefix :: component_prefixes
       /\ prefix ++ marketName ∈ (targets d).*1
       /\ startsWith (prefix ++ marketName) "PerpsV2" = true)
  /\ ((forall target, target ∈ (targets d).*1 -> startsWith target "PerpsV2" = false) ->
      markets = ∅).
Proof.
  intros Hd Hrun. rewrite (getPerpsV2ProxiedMarkets_loaded data dirname JSON_parse_deployment o d Hd) in Hrun.
  set (P := fun markets : gmap string market =>
              forall marketName, is_Some (markets !! marketName) ->
                exists prefix,
                  prefix ∈ proxyPrefix :: component_prefixes
                  /\ prefix ++ marketName ∈ (targets d).*1
                  /\ startsWith (prefix ++ marketName) "PerpsV2" = true).
  assert (P markets) as Hnames.
  { assert (forall xs a r,
              (forall x, x ∈ xs -> x ∈ (targets d).*1) -> P a ->
              foldM (perps_visit data dirname JSON_parse_deployment o) xs a = Ok r -> P r)
      as Hfold.
    { induction xs as [|x xs IH]; intros a r Hsub Ha; cbn [foldM].
      - by intros [= <-].
      - destruct (perps_visit _ _ _ o a x) as [a'|] eqn:Hvisit; cbn [bind]; [|done].
        apply IH; [intros y Hy; apply Hsub; by apply elem_of_cons; right|].
        rewrite (perps_visit_loaded data dirname JSON_parse_deployment o d x a Hd) in Hvisit.
        destruct (startsWith x "PerpsV2") eqn:Hprefix; cbn [negb] in Hvisit;
          [|by injection Hvisit as <-].
        destruct (assoc (targets d) x) as [targetData|]; [|done].
        assert (x ∈ (targets d).*1) as Hx by (apply Hsub, elem_of_cons; by left).
        destruct (_analyzeAndIncludePerpsV2_cases x targetData (source_data d targetData) a)
          as [Hsame|[(m & Hm & Houtcome)|(p & m & Hp & Hm & Houtcome)]];
          rewrite Houtcome in Hvisit || rewrite Hsame in Hvisit.
        + by injection Hvisit as <-.
        + injection Hvisit as <-. intros name Hname.
          destruct (decide (name = m)) as [->|Hne].
          * exists proxyPrefix. split; [by apply elem_of_cons; left|]. by rewrite <- Hm.
          * apply Ha. by rewrite lookup_alter_ne, init_market_lookup_ne in Hname.
        + destruct (abi_of _) as [currentAbi|]; cbn [bind] in Hvisit; [|done].
          apply consolidate_market_Ok in Hvisit as ->. intros name Hname.
          destruct (decide (name = m)) as [->|Hne].
          * exists p. split; [by apply elem_of_cons; right|]. by rewrite <- Hm.
          * apply Ha. by rewrite lookup_alter_ne, init_market_lookup_ne in Hname. }
    apply (Hfold (targets d).*1 ∅ markets); [done| |done].
    intros name [m Hm]. by rewrite lookup_empty in Hm. }
  split; [done|].
  intros Hnone. apply map_empty. intros name.
  destruct (markets !! name) as [m|] eqn:Hm; [|done].
  destruct (Hnames name) as (p & _ & Hin & Hstarts); [by eexists|].
  by rewrite (Hnone _ Hin) in Hstarts.
Qed.


(** X17. A component whose source cannot be read makes the whole call
    throw: a target named by one of the long component prefixes whose
    [source] is missing, empty or not a key of [sources]. *)
Theorem getPerpsV2ProxiedMarkets_missing_source (o : options) (d : deployment_doc)
    (prefix marketName : string) (targetData : target_data) :
  loadDeploymentFile data dirname JSON_parse_deployment (perps_options o None)
  = Ok (Some d) ->
  prefix ∈ prefixes ->
  assoc (targets d) (prefix ++ marketName) = Some targetData ->
  match source targetData with
  | Some s => s = "" \/ sources d !! s = None
  | None => True
  end ->
  is_Throw (getPerpsV2ProxiedMarkets data dirname JSON_parse_deployment o).
Proof.
  intros Hd Hprefix Htarget Hsource.
  rewrite (getPerpsV2ProxiedMarkets_loaded data dirname JSON_parse_deployment o d Hd).
  apply (foldM_throws _ _ (prefix ++ marketName)); [by eapply assoc_elem_of|].
  intros a. rewrite (perps_visit_loaded data dirname JSON_parse_deployment o d _ a Hd), Htarget.
  destruct (analyze_component prefix marketName targetData (source_data d targetData) a
              Hprefix) as [-> ->].
  cbn [negb]. unfold source_data.
  destruct (source targetData) as [s|]; [|done].
  cbn [given default from_option id].
  destruct Hsource as [->|Hs]; [done|].
  destruct (negb (String.eqb s "")); [|done]. by rewrite Hs.
Qed.

(** X18. The grouping invents no fragment: every fragment of a market's
    [abi] is a fragment of the ABI of some source of the deployment. *)
Theorem getPerpsV2ProxiedMarkets_fragments (o : options) (d : deployment_doc)
    (markets : gmap string market) (marketName : string) (m : market) (f : fragment) :
  loadDeploymentFile data dirname JSON_parse_deployment (perps_options o None)
  = Ok (Some d) ->
  getPerpsV2ProxiedMarkets data dirname JSON_parse_deployment o = Ok markets ->
  markets !! marketName = Some m ->
  f ∈ m_abi m ->
  exists s src, sources d !! s = Some src /\ f ∈ abi src.
Proof.
  intros Hd Hrun. rewrite (getPerpsV2ProxiedMarkets_loaded data dirname JSON_parse_deployment o d Hd) in Hrun.
  revert marketName m f.
  eapply (foldM_invariant
            (fun markets : gmap string market =>
               forall name m f, markets !! name = Some m -> f ∈ m_abi m ->
                 exists s src, sources d !! s = Some src /\ f ∈ abi src));
    [|by intros name m f; rewrite lookup_empty|exact Hrun].
  intros a x a' Ha Hvisit.
  destruct (perps_visit_cases o d x a a' Hd Hvisit)
    as [->|[(m0 & td & _ & _ & ->)|(p & m0 & td & s & src & _ & _ & _ & _ & Hsrc & ->)]];
    [done| |]; intros name m f Hname Hf.
  - destruct (decide (m0 = name)) as [->|Hne].
    + rewrite lookup_alter_eq in Hname.
      destruct (init_market a name !! name) as [m1|] eqn:Hinit; [|done].
      apply init_market_lookup_Some in Hinit as ->. injection Hname as <-.
      cbn [m_abi] in Hf. destruct (a !! name) as [m1|] eqn:Hm1; [by eapply Ha|].
      by apply elem_of_nil in Hf.
    + rewrite lookup_alter_ne, init_market_lookup_ne in Hname by done. by eapply Ha.
  - destruct (decide (m0 = name)) as [->|Hne].
    + rewrite lookup_alter_eq in Hname.
      destruct (init_market a name !! name) as [m1|] eqn:Hinit; [|done].
      apply init_market_lookup_Some in Hinit as ->. injection Hname as <-.
      cbn [m_abi] in Hf. apply _consolidateAbi_subset in Hf as [Hf|Hf]; [|by eauto].
      destruct (a !! name) as [m1|] eqn:Hm1; [by eapply Ha|].
      by apply elem_of_nil in Hf.
    + rewrite lookup_alter_ne, init_market_lookup_ne in Hname by done. by eapply Ha.
Qed.

(** X19. The address of a market is the address of its proxy: when the
    deployment has a target [PerpsV2Proxy<Name>], the result has the market
    [<Name>] and its [address] is that target's. The names every object
    inherits from [Object.prototype] are apart: under such a name
    [PerpsV2Proxied[marketName]] is the inherited object, no market is
    created, and the result has no market of that name. *)
Theorem getPerpsV2ProxiedMarkets_address (o : options) (d : deployment_doc)
    (markets : gmap string market) (marketName : string) (targetData : target_data) :
  loadDeploymentFile data dirname JSON_parse_deployment (perps_options o None)
  = Ok (Some d) ->
  assoc (targets d) (proxyPrefix ++ marketName) = Some targetData ->
  getPerpsV2ProxiedMarkets data dirname JSON_parse_deployment o = Ok markets ->
  (marketName ∉ Object_prototype_properties ->
   exists m, markets !! marketName = Some m /\ m_address m = address targetData)
  /\ (marketName ∈ Object_prototype_properties -> markets !! marketName = None).
Proof.
  intros Hd Htarget Hrun. rewrite (getPerpsV2ProxiedMarkets_loaded data dirname JSON_parse_deployment o d Hd) in Hrun.
  split; intros Hname; revert Hrun.
  - apply (foldM_establish
             (fun markets : gmap string market =>
                exists m, markets !! marketName = Some m
                          /\ m_address m = address targetData)
             _ _ (proxyPrefix ++ marketName)); [by eapply assoc_elem_of| |].
    + intros a a'. rewrite (perps_visit_loaded data dirname JSON_parse_deployment o d _ a Hd), Htarget, analyze_proxy.
      intros [= <-]. rewrite lookup_alter_eq, init_market_lookup by done. by eexists.
    + intros a x a' (m & Hm & Haddress) Hvisit.
      destruct (perps_visit_cases o d x a a' Hd Hvisit)
        as [->|[(m0 & td & Hx & Hassoc & ->)
               |(p & m0 & td & s & src & _ & _ & _ & _ & _ & ->)]];
        [by eexists| |].
      * destruct (decide (m0 = marketName)) as [->|Hne].
        -- rewrite lookup_alter_eq, (init_market_present _ _ _ Hm), Hm.
           eexists. split; [done|].
           cbn [m_address]. rewrite Hx, Htarget in Hassoc. by injection Hassoc as <-.
        -- rewrite lookup_alter_ne, init_market_lookup_ne by done. by eexists.
      * destruct (decide (m0 = marketName)) as [->|Hne].
        -- rewrite lookup_alter_eq, (init_market_present _ _ _ Hm), Hm. by eexists.
        -- rewrite lookup_alter_ne, init_market_lookup_ne by done. by eexists.
  - apply (foldM_invariant (fun markets : gmap string market => markets !! marketName = None));
      [|done].
    intros a x a' Ha Hvisit.
    destruct (perps_visit_cases o d x a a' Hd Hvisit)
      as [->|[(m0 & td & _ & _ & ->)
             |(p & m0 & td & s & src & _ & _ & _ & _ & _ & ->)]];
      [done| |];
      (destruct (decide (m0 = marketName)) as [->|Hne];
       [by rewrite lookup_alter_eq, init_market_inherited, Ha
       |by rewrite lookup_alter_ne, init_market_lookup_ne]).
Qed.

(** X20. No fragment of a component is lost but the constructors: for a
    target named by one of the long component prefixes, every fragment of its
    source's ABI that is not a constructor is in the market's [abi], itself
    or through a fragment with the same type and name. *)
Theorem getPerpsV2ProxiedMarkets_complete (o : options) (d : deployment_doc)
    (markets : gmap string market) (prefix marketName s : string)
    (targetData : target_data) (src : source_entry) (f : fragment) :
  loadDeploymentFile data dirname JSON_parse_deployment (perps_options o None)
  = Ok (Some d) ->
  prefix ∈ prefixes ->
  assoc (targets d) (prefix ++ marketName) = Some targetData ->
  source targetData = Some s -> s <> "" ->
  sources d !! s = Some src ->
  f ∈ abi src -> ftype f <> "constructor" ->
  getPerpsV2ProxiedMarkets data dirname JSON_parse_deployment o = Ok markets ->
  exists m g, markets !! marketName = Some m
              /\ g ∈ m_abi m /\ fragment_key g = fragment_key f.
Proof.
  intros Hd Hprefix Htarget Hsource Hs Hsrc Hf Htype Hrun.
  rewrite (getPerpsV2ProxiedMarkets_loaded data dirname JSON_parse_deployment o d Hd) in Hrun. revert Hrun.
  apply (foldM_establish
           (fun markets : gmap string market =>
              exists m g, markets !! marketName = Some m
                          /\ g ∈ m_abi m /\ fragment_key g = fragment_key f)
           _ _ (prefix ++ marketName)); [by eapply assoc_elem_of| |].
  - intros a a'. rewrite (perps_visit_loaded data dirname JSON_parse_deployment o d _ a Hd), Htarget.
    destruct (analyze_component prefix marketName targetData (source_data d targetData) a
                Hprefix) as [-> ->].
    cbn [negb]. unfold source_data. rewrite Hsource.
    cbn [given default from_option id].
    apply String.eqb_neq in Hs. rewrite Hs, Hsrc. cbn [negb abi_of bind].
    destruct (init_market a marketName !! marketName) as [m1|] eqn:Hinit.
    + rewrite consolidate_market_Some by eauto.
      intros [= <-]. rewrite lookup_alter_eq, Hinit.
      destruct (_consolidateAbi_covers (abi src) (m_abi m1) f Hf Htype) as (g & Hg & Hkey).
      by eexists _, g.
    + unfold consolidate_market. rewrite Hinit.
      destruct (abi src); [by apply elem_of_nil in Hf|done].
  - intros a x a' (m & g & Hm & Hg & Hkey) Hvisit.
    destruct (perps_visit_cases o d x a a' Hd Hvisit)
      as [->|[(m0 & td & _ & _ & ->)
             |(p & m0 & td & s0 & src0 & _ & _ & _ & _ & _ & ->)]];
      [by eexists _, g| |].
    + destruct (decide (m0 = marketName)) as [->|Hne].
      * rewrite lookup_alter_eq, (init_market_present _ _ _ Hm), Hm. by eexists _, g.
      * rewrite lookup_alter_ne, init_market_lookup_ne by done. by eexists _, g.
    + destruct (decide (m0 = marketName)) as [->|Hne].
      * rewrite lookup_alter_eq, (init_market_present _ _ _ Hm), Hm. eexists _, g.
        split; [done|]. split; [|done]. by apply _consolidateAbi_mono.
      * rewrite lookup_alter_ne, init_market_lookup_ne by done. by eexists _, g.
Qed.

End PerpsReading.

Lemma getPerpsV2ProxiedMarkets_names_witness :
  let d := Examples.btc_deployment (Some "0xA") Examples.transfer in
  let markets : gmap string market :=
    {[ "BTC" := {| m_address := Some "0xA"; m_abi := [Examples.transfer] |} ]} in
  (forall marketName, is_Some (markets !! marketName) ->
     exists prefix,
       prefix ∈ proxyPrefix :: component_prefixes
       /\ prefix ++ marketName ∈ (targets d).*1
       /\ startsWith (prefix ++ marketName) "PerpsV2" = true)
  /\ ((forall target, target ∈ (targets d).*1 -> startsWith target "PerpsV2" = false) ->
      markets = ∅).
Proof.
  apply (getPerpsV2ProxiedMarkets_names
           (Examples.one_folder "mainnet"
              (Examples.btc_deployment (Some "0xA") Examples.transfer))
           "" no_parse (bundled None false)).
  - vm_compute. reflexivity.
  - vm_compute. reflexivity.
Defined.

Lemma getPerpsV2ProxiedMarkets_missing_source_witness :
  is_Throw (getPerpsV2ProxiedMarkets
              (Examples.one_folder "mainnet" Examples.orphan_deployment) "" no_parse
              (bundled None false)).
Proof.
  apply (getPerpsV2ProxiedMarkets_missing_source
           (Examples.one_folder "mainnet" Examples.orphan_deployment) "" no_parse
           (bundled None false) Examples.orphan_deployment "PerpsV2DelayedIntent" "BTC"
           {| address := Some "0x04"; source := Some "PerpsV2DelayedIntent" |}).
  - vm_compute. reflexivity.
  - unfold prefixes. rewrite !elem_of_cons. tauto.
  - vm_compute. reflexivity.
  - right. vm_compute. reflexivity.
Defined.

Lemma getPerpsV2ProxiedMarkets_fragments_witness :
  exists s src,
    sources (Examples.btc_deployment (Some "0xA") Examples.transfer) !! s = Some src
    /\ Examples.transfer ∈ abi src.
Proof.
  apply (getPerpsV2ProxiedMarkets_fragments
           (Examples.one_folder "mainnet"
              (Examples.btc_deployment (Some "0xA") Examples.transfer))
           "" no_parse (bundled None false)
           (Examples.btc_deployment (Some "0xA") Examples.transfer)
           {[ "BTC" := {| m_address := Some "0xA"; m_abi := [Examples.transfer] |} ]}
           "BTC" {| m_address := Some "0xA"; m_abi := [Examples.transfer] |}
           Examples.transfer).
  - vm_compute. reflexivity.
  - vm_compute. reflexivity.
  - vm_compute. reflexivity.
  - apply elem_of_cons. by left.
Defined.

Lemma getPerpsV2ProxiedMarkets_address_witness :
  (exists m,
     ({[ "BTC" := {| m_address := Some "0xA"; m_abi := [Examples.transfer] |} ]}
        : gmap string market) !! "BTC" = Some m
     /\ m_address m = Some "0xA")
  /\ getPerpsV2ProxiedMarkets (Examples.one_folder "mainnet" Examples.inherited_deployment)
       "" no_parse (bundled None false)
     = Ok ∅.
Proof.
  split.
  - apply (getPerpsV2ProxiedMarkets_address
             (Examples.one_folder "mainnet"
                (Examples.btc_deployment (Some "0xA") Examples.transfer))
             "" no_parse (bundled None false)
             (Examples.btc_deployment (Some "0xA") Examples.transfer)
             {[ "BTC" := {| m_address := Some "0xA"; m_abi := [Examples.transfer] |} ]}
             "BTC" {| address := Some "0xA"; source := Some "ProxyPerpsV2" |}).
    + vm_compute. reflexivity.
    + vm_compute. reflexivity.
    + vm_compute. reflexivity.
    + intros Hin. repeat (apply elem_of_cons in Hin as [Hin|Hin]; [done|]).
      by apply elem_of_nil in Hin.
  - reflexivity.
Defined.

Lemma getPerpsV2ProxiedMarkets_complete_witness :
  exists m g,
    ({[ "BTC" := {| m_address := Some "0xA"; m_abi := [Examples.transfer] |} ]}
       : gmap string market) !! "BTC" = Some m
    /\ g ∈ m_abi m /\ fragment_key g = fragment_key Examples.transfer.
Proof.
  apply (getPerpsV2ProxiedMarkets_complete
           (Examples.one_folder "mainnet"
              (Examples.btc_deployment (Some "0xA") Examples.transfer))
           "" no_parse (bundled None false)
           (Examples.btc_deployment (Some "0xA") Examples.transfer)
           {[ "BTC" := {| m_address := Some "0xA"; m_abi := [Examples.transfer] |} ]}
           "PerpsV2MarketViews" "BTC" "PerpsV2MarketViews"
           {| address := Some "0x01"; source := Some "PerpsV2MarketViews" |}
           {| abi := [Examples.transfer]; bytecode := "" |} Examples.transfer).
  - vm_compute. reflexivity.
  - unfold prefixes. rewrite !elem_of_cons. tauto.
  - vm_compute. reflexivity.
  - reflexivity.
  - discriminate.
  - vm_compute. reflexivity.
  - apply elem_of_cons. by left.
  - discriminate.
  - vm_compute. reflexivity.
Defined.

(** ** More on the decode enhancer *)

Lemma match_bytes32 {T} (s : string) (A B : T) :
  match s with "bytes32" => A | _ => B end = if String.eqb s "bytes32" then A else B.
Proof. do 8 (destruct s as [|[[] [] [] [] [] [] [] []] s]; try reflexivity). Qed.

Lemma match_bytes32_array {T} (s : string) (A B : T) :
  match s with "bytes32[]" => A | _ => B end = if String.eqb s "bytes32[]" then A else B.
Proof. do 10 (destruct s as [|[[] [] [] [] [] [] [] []] s]; try reflexivity). Qed.

Lemma match_tuple {T} (s : string) (A B : T) :
  match s with "tuple" => A | _ => B end = if String.eqb s "tuple" then A else B.
Proof. do 6 (destruct s as [|[[] [] [] [] [] [] [] []] s]; try reflexivity). Qed.

Lemma mapM_total {A B} (f : A -> result B) (xs : list A) :
  (forall x, x ∈ xs -> exists y, f x = Ok y) ->
  exists ys, mapM f xs = Ok ys /\ length ys = length xs.
Proof.
  induction xs as [|x xs IH]; intros Hall; [by exists []|].
  destruct (Hall x) as [y Hy]; [by apply elem_of_cons; left|].
  destruct IH as (ys & Hys & Hlen); [intros z Hz; apply Hall; by apply elem_of_cons; right|].
  exists (y :: ys). cbn [mapM]. rewrite Hy, Hys. cbn. by rewrite Hlen.
Qed.

(** A parameter that is not a tuple is always enhanced, whatever [toBN]
    does with its value. *)
Lemma enhance_param_total (toBN : value -> result Z) (isNaN : string -> bool) (p : obj) :
  field p "type" <> VStr "tuple" ->
  (field p "type" = VStr "bytes32[]" -> exists elements, field p "value" = VArr elements) ->
  exists enhanced, enhance_param toBN isNaN (VObj p) = Ok enhanced.
Proof.
  intros Htuple Harray. unfold enhance_param. cbn [get_prop bind].
  fold (field p "type"). fold (field p "value").
  destruct (field p "type") as [| | | |s| |] eqn:Htype;
    try (cbn [bind get_prop]; destruct (is_int_type _); by eexists).
  rewrite match_bytes32. destruct (String.eqb s "bytes32"); [by eexists|].
  rewrite match_bytes32_array. destruct (String.eqb_spec s "bytes32[]") as [->|_].
  - destruct Harray as [elements ->]; [done|]. cbn [bind get_prop].
    change (is_int_type (to_key (VStr "bytes32[]"))) with false. by eexists.
  - cbn [bind get_prop]. destruct (is_int_type _); [by eexists|].
    rewrite match_tuple. destruct (String.eqb_spec s "tuple") as [->|_]; [done|].
    by eexists.
Qed.

(** X21. Where no parameter is a tuple the enhancer always returns: for a
    decoded call whose parameters are objects, none of type [tuple] and those
    of type [bytes32[]] with an array value, [enhanceDecodedData] returns the
    decoded call with as many parameters as before, whatever [toBN] accepts
    or rejects. *)
Theorem enhanceDecodedData_total (toBN : value -> result Z) (isNaN : string -> bool)
    (decoded method : value) (params : list value) :
  get_prop decoded "method" = Ok method ->
  get_prop method "params" = Ok (VArr params) ->
  (forall p, p ∈ params ->
     exists o, p = VObj o
               /\ field o "type" <> VStr "tuple"
               /\ (field o "type" = VStr "bytes32[]" ->
                   exists elements, field o "value" = VArr elements)) ->
  exists enhanced,
    enhanceDecodedData toBN isNaN decoded
    = Ok (VObj (<[ "method" := VObj (<[ "params" := VArr enhanced ]> (own_props method)) ]>
                  (own_props decoded)))
    /\ length enhanced = length params.
Proof.
  intros Hmethod Hparams Hall. unfold enhanceDecodedData.
  rewrite Hmethod. cbn [bind]. rewrite Hparams. cbn [bind].
  destruct (mapM_total (enhance_param toBN isNaN) params) as (enhanced & -> & Hlen).
  { intros p Hp. destruct (Hall p Hp) as (o & -> & Htuple & Harray).
    by apply enhance_param_total. }
  by exists enhanced.
Qed.

Lemma enhanceDecodedData_total_witness :
  exists enhanced,
    enhanceDecodedData (fun _ => Throw "not a number") Examples.sample_isNaN
      Examples.decoded_exchange
    = Ok (VObj (<[ "method" :=
                     VObj (<[ "params" := VArr enhanced ]>
                             (own_props (field (own_props Examples.decoded_exchange)
                                               "method"))) ]>
                  (own_props Examples.decoded_exchange)))
    /\ length enhanced = 2%nat.
Proof.
  apply (enhanceDecodedData_total (fun _ => Throw "not a number") Examples.sample_isNaN
           Examples.decoded_exchange
           (field (own_props Examples.decoded_exchange) "method")
           [VObj (<[ "name" := VStr "key" ]> (<[ "type" := VStr "bytes32" ]>
                    {[ "value" := VStr (toBytes32 "zUSD") ]}));
            VObj (<[ "name" := VStr "amount" ]> (<[ "type" := VStr "uint256" ]>
                    {[ "value" := VStr "1234567" ]}))]).
  - vm_compute. reflexivity.
  - vm_compute. reflexivity.
  - intros p [->|[->|[]%elem_of_nil]%elem_of_cons]%elem_of_cons;
      eexists; (split; [reflexivity|]); split; vm_compute; discriminate.
Defined.

(** ** A deployment path replaces the network *)

Section DeploymentPath.

Context (data : gmap string bundle) (dirname : string)
        (JSON_parse : string -> result value)
        (JSON_parse_deployment : string -> result deployment_doc).

Lemma facet_path_deploymentPath (o o' : options) (network network' : option string)
    (file : string) :
  given (deploymentPath o) = true ->
  path o' = path o -> deploymentPath o' = deploymentPath o ->
  facet_path dirname o' network' file = facet_path dirname o network file.
Proof.
  intros Hgiven Hpath Hdep. unfold facet_path. by rewrite Hdep, Hpath, Hgiven.
Qed.

Lemma from_bundle_deploymentPath (o : options) :
  given (deploymentPath o) = true -> from_bundle o = false.
Proof. intros Hgiven. unfold from_bundle. by rewrite Hgiven. Qed.

(** X22. Once [deploymentPath] is given the network and the [useOvm] flag
    are not looked at when a facet is located: every accessor that reads a
    facet returns the same result, and leaves the same registry, for every
    network and flag. The one place where the network still shows is the
    error of a missing [deployment.json], which names it: there
    [loadDeploymentFile], [getTarget], [getSource] and
    [getPerpsV2ProxiedMarkets] throw [Cannot find deployment for network:]
    with the network of the call. *)
Theorem deploymentPath_overrides_network (o : options) (n : option string) (b : bool)
    (assets : registry) :
  given (deploymentPath o) = true ->
  let o' := retargeted n b o in
  let same_deployment :=
    loadDeploymentFile data dirname JSON_parse_deployment o'
    = loadDeploymentFile data dirname JSON_parse_deployment o
    /\ getTarget data dirname JSON_parse_deployment o'
       = getTarget data dirname JSON_parse_deployment o
    /\ getSource data dirname JSON_parse_deployment o'
       = getSource data dirname JSON_parse_deployment o
    /\ getPerpsV2ProxiedMarkets data dirname JSON_parse_deployment o'
       = getPerpsV2ProxiedMarkets data dirname JSON_parse_deployment o in
  (getFeeds data dirname JSON_parse o' assets = getFeeds data dirname JSON_parse o assets
   /\ getOffchainFeeds data dirname JSON_parse o' = getOffchainFeeds data dirname JSON_parse o
   /\ getSynths data dirname JSON_parse o' assets = getSynths data dirname JSON_parse o assets
   /\ getFuturesMarkets data dirname JSON_parse o' assets
      = getFuturesMarkets data dirname JSON_parse o assets
   /\ getPerpsMarkets data dirname JSON_parse o' assets
      = getPerpsMarkets data dirname JSON_parse o assets
   /\ getStakingRewards data dirname JSON_parse o' = getStakingRewards data dirname JSON_parse o
   /\ getShortingRewards data dirname JSON_parse o'
      = getShortingRewards data dirname JSON_parse o
   /\ getVersions data dirname JSON_parse o' = getVersions data dirname JSON_parse o)
  /\ (forall p f, path o = Some p -> fs o = Some f ->
        let file := join p [default "" (deploymentPath o); "deployment.json"] in
        (existsSync f file = true -> same_deployment)
        /\ (existsSync f file = false ->
            forall x, x = o \/ x = o' ->
              let missing := deployment_not_found (default "mainnet" (network x)) in
              loadDeploymentFile data dirname JSON_parse_deployment x = Throw missing
              /\ getTarget data dirname JSON_parse_deployment x = Throw missing
              /\ getSource data dirname JSON_parse_deployment x = Throw missing
              /\ getPerpsV2ProxiedMarkets data dirname JSON_parse_deployment x
                 = Throw missing))
  /\ (path o = None \/ fs o = None -> same_deployment).
Proof.
  intros Hgiven o' same_deployment.
  assert (forall o1 o2 : options,
            given (deploymentPath o1) = true ->
            path o2 = path o1 -> fs o2 = fs o1 -> deploymentPath o2 = deploymentPath o1 ->
            (forall p f, path o1 = Some p -> fs o1 = Some f ->
               existsSync f (join p [default "" (deploymentPath o1); "deployment.json"])
               = true) ->
            loadDeploymentFile data dirname JSON_parse_deployment o2
            = loadDeploymentFile data dirname JSON_parse_deployment o1) as Hload.
  { intros o1 o2 H1 Hp Hf Hd Hfile. unfold loadDeploymentFile.
    rewrite (from_bundle_deploymentPath o1) by done.
    rewrite (from_bundle_deploymentPath o2) by (by rewrite Hd).
    unfold facet_path. rewrite Hd, Hp, Hf, H1.
    destruct (path o1) as [p|]; [|done]. cbn [path_join bind].
    destruct (fs o1) as [f|]; [|done]. cbn [fs_existsSync bind].
    unfold constants.DEPLOYMENT_FILENAME. by rewrite (Hfile p f eq_refl eq_refl). }
  assert (forall (x : options) p f,
            given (deploymentPath x) = true -> path x = Some p -> fs x = Some f ->
            existsSync f (join p [default "" (deploymentPath x); "deployment.json"]) = false ->
            loadDeploymentFile data dirname JSON_parse_deployment x
            = Throw (deployment_not_found (default "mainnet" (network x)))) as Hmissing.
  { intros x p f H1 Hp Hf Hfile. unfold loadDeploymentFile.
    rewrite (from_bundle_deploymentPath x) by done.
    unfold facet_path. rewrite H1, Hp, Hf. cbn [path_join bind fs_existsSync].
    unfold constants.DEPLOYMENT_FILENAME. by rewrite Hfile. }
  assert (forall o1 o2 : options,
            given (deploymentPath o1) = true ->
            path o2 = path o1 -> fs o2 = fs o1 -> deploymentPath o2 = deploymentPath o1 ->
            load_feeds data dirname JSON_parse o2 = load_feeds data dirname JSON_parse o1)
    as Hfeeds.
  { intros o1 o2 H1 Hp Hf Hd. unfold load_feeds.
    rewrite (from_bundle_deploymentPath o1) by done.
    rewrite (from_bundle_deploymentPath o2) by (by rewrite Hd).
    rewrite (facet_path_deploymentPath o1 o2 (network o1)) by done.
    by rewrite Hf. }
  assert (forall file,
            load_markets dirname JSON_parse o' file
            = load_markets dirname JSON_parse o file) as Hmarkets.
  { intros file. unfold load_markets.
    by rewrite (facet_path_deploymentPath o o' (Some (default "mainnet" (network o)))). }
  assert (forall bundled file,
            load_rewards data dirname JSON_parse o' bundled file
            = load_rewards data dirname JSON_parse o bundled file) as Hrewards.
  { intros bundled file. unfold load_rewards.
    rewrite (from_bundle_deploymentPath o) by done.
    rewrite (from_bundle_deploymentPath o') by done.
    by rewrite (facet_path_deploymentPath o o' (Some (default "mainnet" (network o)))). }
  assert ((forall p f, path o = Some p -> fs o = Some f ->
             existsSync f (join p [default "" (deploymentPath o); "deployment.json"]) = true)
          -> same_deployment) as Hsame.
  { intros Hfile. subst same_deployment.
    split; [by apply Hload|].
    split; [unfold getTarget; by rewrite (Hload o o')|].
    split; [unfold getSource; by rewrite (Hload o o')|].
    unfold getPerpsV2ProxiedMarkets.
    rewrite (Hload (perps_options o None) (perps_options o' None)) by done.
    destruct (loadDeploymentFile _ _ _ _) as [d|msg]; [|done]. cbn [bind].
    destruct (read_deployment d) as [d0|msg]; [|done]. cbn [bind].
    apply foldM_ext. intros m target. unfold perps_visit.
    destruct (negb _); [done|]. unfold getTarget, getSource.
    rewrite (Hload (perps_options o (Some target)) (perps_options o' (Some target)))
      by done.
    destruct (loadDeploymentFile _ _ _ _) as [d'|msg]; [|done]. cbn [bind].
    destruct (read_deployment d') as [d1|msg]; [|done]. cbn [bind].
    change (contract (perps_options o' (Some target))) with (Some target).
    change (contract (perps_options o (Some target))) with (Some target).
    destruct (given (Some target)); [|done].
    destruct (assoc _ _) as [td|]; [|done]. cbn [bind].
    by rewrite (Hload (perps_options o (source td)) (perps_options o' (source td))). }
  split; [|split].
  - split; [unfold getFeeds; by rewrite (Hfeeds o o')|].
    split.
    { unfold getOffchainFeeds.
      rewrite (from_bundle_deploymentPath o) by done.
      rewrite (from_bundle_deploymentPath o') by done.
      by rewrite (facet_path_deploymentPath o o' (network o)). }
    split.
    { unfold getSynths, load_synths, getFeeds.
      rewrite (from_bundle_deploymentPath o) by done.
      rewrite (from_bundle_deploymentPath o') by done.
      rewrite (facet_path_deploymentPath o o' (Some (default "mainnet" (network o))))
        by done.
      by rewrite (Hfeeds (with_network o) (with_network o')). }
    split.
    { unfold getFuturesMarkets.
      rewrite (from_bundle_deploymentPath o) by done.
      rewrite (from_bundle_deploymentPath o') by done.
      by rewrite Hmarkets. }
    split.
    { unfold getPerpsMarkets.
      rewrite (from_bundle_deploymentPath o) by done.
      rewrite (from_bundle_deploymentPath o') by done.
      by rewrite Hmarkets. }
    split; [unfold getStakingRewards; by rewrite Hrewards|].
    split; [unfold getShortingRewards; by rewrite Hrewards|].
    unfold getVersions, load_versions.
    rewrite (from_bundle_deploymentPath o) by done.
    rewrite (from_bundle_deploymentPath o') by done.
    by rewrite (facet_path_deploymentPath o o' (Some (default "mainnet" (network o)))).
  - intros p f Hpath Hfs file. split.
    + intros Hfile. apply Hsame. intros p0 f0 Hp0 Hf0.
      rewrite Hpath in Hp0. rewrite Hfs in Hf0.
      injection Hp0 as <-. by injection Hf0 as <-.
    + intros Hfile x Hx missing.
      assert (given (deploymentPath x) = true /\ path x = Some p /\ fs x = Some f
              /\ deploymentPath x = deploymentPath o) as (Hx1 & Hx2 & Hx3 & Hx4).
      { by destruct Hx as [-> | ->]. }
      assert (forall c,
                loadDeploymentFile data dirname JSON_parse_deployment (perps_options x c)
                = Throw missing) as Hperps.
      { intros c. apply (Hmissing (perps_options x c) p f); [done..|].
        cbn [deploymentPath perps_options]. by rewrite Hx4. }
      split; [apply (Hmissing x p f); [done..|by rewrite Hx4]|].
      split; [unfold getTarget; rewrite (Hmissing x p f); [done..|by rewrite Hx4]|].
      split; [unfold getSource; rewrite (Hmissing x p f); [done..|by rewrite Hx4]|].
      unfold getPerpsV2ProxiedMarkets. by rewrite Hperps.
  - intros Hnone. apply Hsame. intros p f Hpath Hfs.
    destruct Hnone; congruence.
Qed.

End DeploymentPath.

Lemma deploymentPath_overrides_network_witness :
  let o := on_disk (Some "mainnet") false (Some "/deployments/fork") Examples.fork_disk in
  let o' := retargeted (Some "goerli") true o in
  let e := on_disk (Some "mainnet") false (Some "/deployments/fork") empty_fs in
  let e' := retargeted (Some "goerli") true e in
  (getFeeds ∅ "" no_parse o' ∅ = getFeeds ∅ "" no_parse o ∅
   /\ getOffchainFeeds ∅ "" no_parse o' = getOffchainFeeds ∅ "" no_parse o
   /\ getSynths ∅ "" no_parse o' ∅ = getSynths ∅ "" no_parse o ∅
   /\ getFuturesMarkets ∅ "" no_parse o' ∅ = getFuturesMarkets ∅ "" no_parse o ∅
   /\ getPerpsMarkets ∅ "" no_parse o' ∅ = getPerpsMarkets ∅ "" no_parse o ∅
   /\ getStakingRewards ∅ "" no_parse o' = getStakingRewards ∅ "" no_parse o
   /\ getShortingRewards ∅ "" no_parse o' = getShortingRewards ∅ "" no_parse o
   /\ getVersions ∅ "" no_parse o' = getVersions ∅ "" no_parse o)
  /\ (loadDeploymentFile ∅ "" Examples.parse_disk_folder o'
      = loadDeploymentFile ∅ "" Examples.parse_disk_folder o
      /\ getTarget ∅ "" Examples.parse_disk_folder o'
         = getTarget ∅ "" Examples.parse_disk_folder o
      /\ getSource ∅ "" Examples.parse_disk_folder o'
         = getSource ∅ "" Examples.parse_disk_folder o
      /\ getPerpsV2ProxiedMarkets ∅ "" Examples.parse_disk_folder o'
         = getPerpsV2ProxiedMarkets ∅ "" Examples.parse_disk_folder o)
  /\ (loadDeploymentFile ∅ "" Examples.parse_disk_folder e'
      = Throw "Cannot find deployment for network: goerli."
      /\ getTarget ∅ "" Examples.parse_disk_folder e'
         = Throw "Cannot find deployment for network: goerli."
      /\ getSource ∅ "" Examples.parse_disk_folder e'
         = Throw "Cannot find deployment for network: goerli."
      /\ getPerpsV2ProxiedMarkets ∅ "" Examples.parse_disk_folder e'
         = Throw "Cannot find deployment for network: goerli.").
Proof.
  intros o o' e e'.
  destruct (deploymentPath_overrides_network ∅ "" no_parse Examples.parse_disk_folder
              o (Some "goerli") true ∅ eq_refl) as (Hfacets & Hdisk & _).
  destruct (Hdisk slash_path Examples.fork_disk eq_refl eq_refl) as [Hfound _].
  destruct (deploymentPath_overrides_network ∅ "" no_parse Examples.parse_disk_folder
              e (Some "goerli") true ∅ eq_refl) as (_ & Hempty & _).
  destruct (Hempty slash_path empty_fs eq_refl eq_refl) as [_ Hmissing].
  split; [exact Hfacets|]. split; [exact (Hfound eq_refl)|].
  exact (Hmissing eq_refl e' (or_intror eq_refl)).
Defined.

(** ** System users *)

Lemma folder_ovm (network : string) :
  includes (getFolderNameForNetwork network true) "ovm" = true.
Proof.
  unfold getFolderNameForNetwork. destruct (includes network "ovm") eqn:Hovm; [done|].
  by apply includes_app_r.
Qed.

(** X23. With [useOvm] set, [getUsers] throws for every network and every
    user name: no key of its table carries the [ovm] suffix. *)
Theorem getUsers_ovm_throws (network user : option string) :
  is_Throw (getUsers network user true).
Proof.
  unfold getUsers.
  pose proof (folder_ovm (default "mainnet" network)) as Hovm.
  generalize dependent (getFolderNameForNetwork (default "mainnet" network) true).
  intros folder Hovm.
  assert (assoc Users.map folder = None) as ->.
  { unfold Users.map. cbn [assoc].
    repeat match goal with
           | |- context [String.eqb ?k folder] =>
               destruct (String.eqb_spec k folder) as [<-|_]; [by vm_compute in Hovm|]
           end.
    done. }
  rewrite bool_decide_eq_false_2; [done|].
  unfold Object_prototype_properties. intros Hin.
  repeat (apply elem_of_cons in Hin as [->|Hin]; [by vm_compute in Hovm|]).
  by apply elem_of_nil in Hin.
Qed.

(** X24. On each of the five networks of the table [getUsers] lists the
    same six names in the same order, [fee] and [zero] with the addresses of
    the base table, and asked for one of the six names it returns the entry
    of that name; asked for any other name it returns [undefined]. Leaving
    the network out reads [mainnet]. *)
Theorem getUsers_known_networks (network : string) :
  network ∈ ["mainnet"; "testnet"; "goerli"; "mumbai"; "sepolia"] ->
  exists users,
    getUsers (Some network) None false = Ok (All users)
    /\ users.*1 = user_names
    /\ assoc users "fee" = assoc Users.base "fee"
    /\ assoc users "zero" = Some ("0x" ++ repeat_char "0" 40)
    /\ (forall user, user ∈ user_names ->
          exists address,
            getUsers (Some network) (Some user) false = Ok (One (Some (user, address)))
            /\ (user, address) ∈ users)
    /\ (forall user, user ∉ user_names -> user <> "" ->
          getUsers (Some network) (Some user) false = Ok (One None))
    /\ (network = "mainnet" -> getUsers None None false = Ok (All users)).
Proof.
  intros Hin.
  assert (forall users,
            getUsers (Some network) None false = Ok (All users) ->
            users.*1 = user_names ->
            forall user, user ∉ user_names -> user <> "" ->
              getUsers (Some network) (Some user) false = Ok (One None)) as Hother.
  { intros users Hall Hnames user Hnot Hne. revert Hall. unfold getUsers.
    destruct (match assoc Users.map _ with Some _ => _ | None => _ end) as [us|msg];
      [|done].
    cbn [bind given]. intros [= ->].
    destruct (String.eqb_spec user "") as [->|_]; [done|]. cbn [negb default from_option id].
    do 2 f_equal. apply eq_None_not_Some. intros [[name address] Hfind].
    apply find_some in Hfind as [Hmem Heq]. cbn [fst] in Heq.
    apply String.eqb_eq in Heq as ->. apply Hnot. rewrite <- Hnames.
    apply list_elem_of_fmap. exists (user, address). split; [done|].
    by apply list_elem_of_In. }
  repeat (apply elem_of_cons in Hin as [->|Hin];
    [eexists; split; [by vm_compute|];
     split; [by vm_compute|]; split; [by vm_compute|]; split; [by vm_compute|];
     split; [|split; [by eapply Hother; vm_compute|by (vm_compute || discriminate)]];
     intros user Huser;
     repeat (apply elem_of_cons in Huser as [->|Huser];
       [eexists; split; [by vm_compute|]; vm_compute; repeat constructor|]);
     by apply elem_of_nil in Huser|]).
  by apply elem_of_nil in Hin.
Qed.

Lemma getUsers_known_networks_witness :
  exists users,
    getUsers (Some "goerli") None false = Ok (All users)
    /\ users.*1 = user_names
    /\ assoc users "fee" = assoc Users.base "fee"
    /\ assoc users "zero" = Some ("0x" ++ repeat_char "0" 40)
    /\ (forall user, user ∈ user_names ->
          exists address,
            getUsers (Some "goerli") (Some user) false = Ok (One (Some (user, address)))
            /\ (user, address) ∈ users)
    /\ (forall user, user ∉ user_names -> user <> "" ->
          getUsers (Some "goerli") (Some user) false = Ok (One None))
    /\ ("goerli" = "mainnet" -> getUsers None None false = Ok (All users)).
Proof. apply (getUsers_known_networks "goerli"). repeat constructor. Defined.

(** ** Versions by contract *)

Lemma foldM_seen {A B} (P : list B -> A -> Prop) (f : A -> B -> result A) (xs : list B) :
  (forall seen a x a', P seen a -> f a x = Ok a' -> P (seen ++ [x])%list a') ->
  forall seen a r, P seen a -> foldM f xs a = Ok r -> P (seen ++ xs)%list r.
Proof.
  intros Hstep. induction xs as [|x xs IH]; intros seen a r Ha; cbn [foldM].
  - intros [= <-]. by rewrite app_nil_r.
  - destruct (f a x) as [a'|] eqn:Hf; cbn [bind]; [|done]. intros Hrest.
    rewrite (cons_middle x), (assoc_L (++)%list). eapply IH; [|exact Hrest]. eauto.
Qed.

Lemma push_entries_cons (stamp : obj) (memo : gmap string (list value)) (k : string)
    (e : value) (entries : list (string * value)) :
  push_entries stamp memo ((k, e) :: entries)
  = push_entries stamp
      (<[ k := (default [] (memo !! k) ++ [VObj (Object_assign stamp e)])%list ]> memo)
      entries.
Proof. reflexivity. Qed.

Lemma push_entries_other (stamp : obj) (entries : list (string * value))
    (memo : gmap string (list value)) (c : string) :
  c ∉ entries.*1 -> push_entries stamp memo entries !! c = memo !! c.
Proof.
  revert memo. induction entries as [|[k e] entries IH]; intros memo Hnot; [done|].
  rewrite push_entries_cons. cbn [fmap list_fmap fst] in Hnot.
  apply not_elem_of_cons in Hnot as [Hne Hnot].
  rewrite IH by done. by rewrite lookup_insert_ne.
Qed.

Lemma push_entries_here (stamp : obj) (entries : list (string * value))
    (memo : gmap string (list value)) (c : string) (e : value) :
  NoDup entries.*1 -> (c, e) ∈ entries ->
  push_entries stamp memo entries !! c
  = Some (default [] (memo !! c) ++ [VObj (Object_assign stamp e)])%list.
Proof.
  revert memo. induction entries as [|[k e'] entries IH]; intros memo Hnodup Hin;
    [by apply elem_of_nil in Hin|].
  rewrite push_entries_cons. cbn [fmap list_fmap fst] in Hnodup.
  apply NoDup_cons in Hnodup as [Hfresh Hnodup].
  apply elem_of_cons in Hin as [[= <- <-]|Hin].
  - rewrite push_entries_other by done. by rewrite lookup_insert_eq.
  - rewrite IH by done. rewrite lookup_insert_ne; [done|]. intros ->.
    apply Hfresh. apply list_elem_of_fmap. by exists (c, e).
Qed.

Lemma versions_by_contract_push (memo memo' : gmap string (list value)) (version : value) :
  versions_by_contract memo version = Ok memo' ->
  memo' = push_entries (version_stamp version) memo
            (map_to_list (own_props (prop_of version "contracts"))).
Proof.
  unfold versions_by_contract, version_stamp, prop_of.
  destruct (get_prop version "tag") as [tag|] eqn:Htag; [|done].
  assert (forall k, exists x, get_prop version k = Ok x) as Hget.
  { intros k. destruct version; try done; by eexists. }
  destruct (Hget "release") as [release ->], (Hget "date") as [date ->],
    (Hget "commit") as [commit ->], (Hget "block") as [block ->],
    (Hget "contracts") as [contracts ->].
  cbn [bind]. unfold Object_entries.
  destruct contracts; cbn [bind]; try done;
    (destruct (existsb _ _); [done|]); by intros [= <-].
Qed.

Lemma by_contract_step (seen : list value) (memo : gmap string (list value))
    (version : value) (memo' : gmap string (list value)) :
  by_contract seen memo -> versions_by_contract memo version = Ok memo' ->
  by_contract (seen ++ [version]) memo'.
Proof.
  intros [Hsound Hcomplete] Hstep. apply versions_by_contract_push in Hstep as ->.
  set (contracts := own_props (prop_of version "contracts")).
  pose proof (NoDup_fst_map_to_list contracts) as Hnodup.
  split.
  - intros c l Hl.
    destruct (contracts !! c) as [ce|] eqn:Hc.
    + rewrite (push_entries_here _ _ _ c ce) in Hl
        by (done || by apply elem_of_map_to_list).
      injection Hl as <-. split; [by destruct (default [] (memo !! c))|].
      intros e [He|He]%elem_of_app.
      * destruct (memo !! c) as [l0|] eqn:Hl0; [|by apply elem_of_nil in He].
        destruct (Hsound c l0 Hl0) as [_ Hall].
        destruct (Hall e He) as (v & ce' & Hv & Hd & ->).
        exists v, ce'. split; [|done]. apply elem_of_app. by left.
      * apply list_elem_of_singleton in He as ->. exists version, ce.
        split; [|done]. apply elem_of_app. right. by apply list_elem_of_singleton.
    + rewrite push_entries_other in Hl.
      * destruct (Hsound c l Hl) as [Hne Hall]. split; [done|].
        intros e He. destruct (Hall e He) as (v & ce' & Hv & Hd & ->).
        exists v, ce'. split; [|done]. apply elem_of_app. by left.
      * intros ((c' & e') & Heq & Hin)%list_elem_of_fmap. cbn [fst] in Heq. subst c'.
        apply elem_of_map_to_list in Hin. by rewrite Hin in Hc.
  - intros v c ce [Hv|Hv]%elem_of_app Hd.
    + destruct (Hcomplete v c ce Hv Hd) as (l0 & Hl0 & Hin).
      destruct (contracts !! c) as [ce'|] eqn:Hc.
      * eexists. split; [apply (push_entries_here _ _ _ c ce');
                         [done|by apply elem_of_map_to_list]|].
        rewrite Hl0. apply elem_of_app. by left.
      * exists l0. split; [|done]. rewrite push_entries_other; [done|].
        intros ((c' & e') & Heq & Hin')%list_elem_of_fmap. cbn [fst] in Heq. subst c'.
        apply elem_of_map_to_list in Hin'. by rewrite Hin' in Hc.
    + apply list_elem_of_singleton in Hv as ->.
      eexists. split; [apply (push_entries_here _ _ _ c ce);
                       [done|by apply elem_of_map_to_list]|].
      apply elem_of_app. right. by apply list_elem_of_singleton.
Qed.

(** X25. With [byContract], [getVersions] regroups the releases by
    contract: the list under a contract is never empty, each of its entries
    is the entry some release has for that contract merged over that
    release's [tag], [release], [date], [commit] and [block] (the contract's
    own fields win), and every contract entry of every release appears so
    under its contract. *)
Theorem getVersions_byContract
    (data : gmap string bundle) (dirname : string) (JSON_parse : string -> result value)
    (o : options) (versions result : value) :
  byContract o = true ->
  load_versions data dirname JSON_parse o = Ok versions ->
  getVersions data dirname JSON_parse o = Ok result ->
  exists memo,
    result = VObj (VArr <$> memo)
    /\ (forall contract entries, memo !! contract = Some entries ->
          entries <> []
          /\ forall e, e ∈ entries ->
               exists key version contractEntry,
                 own_props versions !! key = Some version
                 /\ deploys version contract contractEntry
                 /\ e = stamped version contractEntry)
    /\ (forall key version contract contractEntry,
          own_props versions !! key = Some version ->
          deploys version contract contractEntry ->
          exists entries,
            memo !! contract = Some entries /\ stamped version contractEntry ∈ entries).
Proof.
  intros Hby Hload. unfold getVersions. rewrite Hload, Hby. cbn [bind].
  destruct (Object_entries versions) as [entries|] eqn:Hentries; [|done]. cbn [bind].
  destruct (foldM versions_by_contract entries.*2 ∅) as [memo|] eqn:Hfold; [|done].
  cbn [bind]. intros [= <-]. exists memo. split; [done|].
  assert (forall version,
            version ∈ entries.*2 <-> exists key, own_props versions !! key = Some version)
    as Hvalues.
  { intros version. unfold Object_entries in Hentries.
    assert (entries = map_to_list (own_props versions)) as ->
      by (destruct versions; by inversion Hentries).
    rewrite list_elem_of_fmap. split.
    - intros ([k v] & -> & Hin). exists k. by apply elem_of_map_to_list.
    - intros [k Hk]. exists (k, version). split; [done|]. by apply elem_of_map_to_list. }
  destruct (foldM_seen by_contract versions_by_contract entries.*2 by_contract_step
              [] ∅ memo) as [Hsound Hcomplete]; [|done|].
  { split; [intros c l Hl; by rewrite lookup_empty in Hl|].
    intros v c ce Hv. by apply elem_of_nil in Hv. }
  cbn [app] in Hsound, Hcomplete. split.
  - intros c l Hl. destruct (Hsound c l Hl) as [Hne Hall]. split; [done|].
    intros e He. destruct (Hall e He) as (v & ce & Hv & Hd & ->).
    apply Hvalues in Hv as [key Hkey]. by exists key, v, ce.
  - intros key v c ce Hkey Hd. apply (Hcomplete v c ce); [|done].
    apply Hvalues. by exists key.
Qed.

Lemma getVersions_byContract_witness :
  exists memo,
    getVersions Examples.versions_networks "" no_parse Examples.by_contract_options
    = Ok (VObj (VArr <$> memo))
    /\ (forall contract entries, memo !! contract = Some entries ->
          entries <> []
          /\ forall e, e ∈ entries ->
               exists key version contractEntry,
                 own_props Examples.two_releases !! key = Some version
                 /\ deploys version contract contractEntry
                 /\ e = stamped version contractEntry)
    /\ (forall key version contract contractEntry,
          own_props Examples.two_releases !! key = Some version ->
          deploys version contract contractEntry ->
          exists entries,
            memo !! contract = Some entries /\ stamped version contractEntry ∈ entries).
Proof.
  edestruct (getVersions_byContract Examples.versions_networks "" no_parse
               Examples.by_contract_options Examples.two_releases)
    as (memo & Hresult & Hrest); [reflexivity|reflexivity|vm_compute; reflexivity|].
  exists memo. split; [|exact Hrest]. rewrite <- Hresult. vm_compute. reflexivity.
Defined.

(** ** Tokens *)

Lemma getFeeds_reduce_keys (entries : list (string * value))
    (memo assets memo' assets' : registry) (k : string) :
  inherited k = false ->
  getFeeds_reduce entries memo assets = (Ok memo', assets') ->
  (is_Some (assets' !! k) <-> is_Some (assets !! k))
  /\ (is_Some (memo' !! k) ->
      is_Some (memo !! k) \/ (k ∈ entries.*1 /\ is_Some (assets !! k))).
Proof.
  intros Hplain. revert memo assets. induction entries as [|[asset entry] entries IH];
    intros memo assets; cbn [getFeeds_reduce].
  - intros [= <- <-]. split; [done|]. by left.
  - destruct (registry_entry assets asset) as [a|] eqn:Ha; [|done]. intros Hrun.
    destruct (IH _ _ Hrun) as [Hassets Hmemo]. cbn [fmap list_fmap fst].
    destruct (decide (k = asset)) as [->|Hne].
    + rewrite registry_entry_plain in Ha by done.
      rewrite lookup_insert_eq in Hassets. rewrite Ha. split.
      * rewrite Hassets. by split.
      * intros _. right. split; [apply list_elem_of_here|done].
    + rewrite lookup_insert_ne in Hassets by done. split; [done|].
      intros Hk. destruct (Hmemo Hk) as [Hm|[Hin Hsome]].
      * rewrite lookup_insert_ne in Hm by done. by left.
      * right. split; [by apply list_elem_of_further|].
        by rewrite lookup_insert_ne in Hsome.
Qed.

Section TokenFacts.

Context (data : gmap string bundle) (dirname : string)
        (JSON_parse : string -> result value)
        (JSON_parse_deployment : string -> result deployment_doc)
        (Array_sort : list value -> list value).

Lemma getFeeds_keys (o : options) (assets feeds assets' : registry) (k : string) :
  inherited k = false ->
  getFeeds data dirname JSON_parse o assets = (Ok feeds, assets') ->
  (is_Some (assets' !! k) <-> is_Some (assets !! k))
  /\ (is_Some (feeds !! k) ->
      is_Some (assets !! k)
      /\ exists doc, load_feeds data dirname JSON_parse o = Ok doc
                     /\ is_Some (own_props doc !! k)).
Proof.
  intros Hplain.
  unfold getFeeds. destruct (load_feeds _ _ _ _) as [doc|]; [|done].
  destruct (Object_entries doc) as [entries|] eqn:Hentries; [|done]. intros Hrun.
  destruct (getFeeds_reduce_keys _ _ _ _ _ k Hplain Hrun) as [Hassets Hmemo].
  split; [done|]. intros Hk.
  destruct (Hmemo Hk) as [Hempty|[Hin Hsome]];
    [rewrite lookup_empty in Hempty; by destruct Hempty|].
  split; [done|]. exists doc. split; [done|].
  assert (entries = map_to_list (own_props doc)) as ->
    by (unfold Object_entries in Hentries; destruct doc; by inversion Hentries).
  apply list_elem_of_fmap in Hin as ([k' e] & -> & Hin).
  apply elem_of_map_to_list in Hin. by exists e.
Qed.

Lemma getSynths_keys (o : options) (assets assets' : registry) (r : result value)
    (k : string) :
  inherited k = false ->
  getSynths data dirname JSON_parse o assets = (r, assets') ->
  is_Some (assets' !! k) <-> is_Some (assets !! k).
Proof.
  intros Hplain.
  unfold getSynths. destruct (load_synths _ _ _ _) as [synths|]; [|by intros [= <- <-]].
  destruct (skipPopulate o); [by intros [= <- <-]|].
  destruct (getFeeds _ _ _ _ _) as [[feeds|msg] assets1] eqn:Hfeeds.
  - intros Hrun.
    assert (assets' = assets1) as -> by (destruct synths; by inversion Hrun).
    by destruct (getFeeds_keys _ _ _ _ k Hplain Hfeeds).
  - revert Hfeeds. unfold getFeeds.
    destruct (load_feeds _ _ _ _) as [doc|]; [|by intros [= <- <-] [= <- <-]].
    destruct (Object_entries doc) as [entries|]; [|by intros [= <- <-] [= <- <-]].
    intros Hrun [= <- <-]. revert Hrun. generalize (∅ : registry).
    revert assets. induction entries as [|[asset entry] entries IH];
      intros assets memo; cbn [getFeeds_reduce]; [done|].
    destruct (registry_entry assets asset) as [a|] eqn:Ha; [|by intros [= <- <-]].
    intros Hrun. rewrite (IH _ _ Hrun).
    destruct (decide (k = asset)) as [->|Hne].
    + rewrite registry_entry_plain in Ha by done.
      rewrite lookup_insert_eq, Ha. by split.
    + by rewrite lookup_insert_ne.
Qed.

(** The fields of the token made from a synth. *)
Lemma token_of_fields (targets : list (string * target_data)) (synth : value) :
  exists fields,
    token_of targets synth = VObj fields
    /\ (forall k, is_Some (fields !! k)
                  <-> k ∈ ["symbol"; "asset"; "name"; "address"; "index"; "decimals"; "feed"])
    /\ field fields "symbol" = prop_of synth "name"
    /\ field fields "asset" = prop_of synth "asset"
    /\ field fields "name" = prop_of synth "description"
    /\ field fields "address"
       = from_option (fun t => opt_string (address t)) VUndef
           (assoc targets ("Proxy" ++ to_key (prop_of synth "name")))
    /\ field fields "index" = prop_of synth "index"
    /\ field fields "decimals" = VNum 18
    /\ field fields "feed" = prop_of synth "feed".
Proof.
  eexists. split; [reflexivity|]. split.
  - intros k. split.
    + intros Hk.
      destruct (decide (k ∈ ["symbol"; "asset"; "name"; "address"; "index"; "decimals";
                             "feed"])) as [|Hout]; [done|].
      rewrite !lookup_insert_ne, lookup_singleton_ne in Hk
        by (intros <-; apply Hout; repeat constructor).
      by destruct Hk.
    + rewrite !elem_of_cons, elem_of_nil.
      intros [->|[->|[->|[->|[->|[->|[->|[]]]]]]]]; by eexists.
  - unfold field. repeat split; reflexivity.
Qed.

Local Abbreviation tokens := (getTokens data dirname JSON_parse JSON_parse_deployment Array_sort).

(** X26. What [getTokens] returns: the [HZN] token first, with the address
    of the [ProxySynthetix] target, then (in the order [sort] leaves them)
    one token for each synth of [getSynths] whose category is not
    [internal], and none for the others. The token of a synth has seven
    fields: the synth's [name] as [symbol], its [asset], its [description] as
    [name], the address of the target [Proxy<name>] (when there is one), its
    [index], 18 decimals and its [feed]. *)
Theorem getTokens_shape (o : options) (assets assets' : registry) (result : list value) :
  (forall l, Array_sort l ≡ₚ l) ->
  tokens o assets = (Ok result, assets') ->
  let internal (synth : value) : bool :=
    match prop_of synth "category" with
    | VStr category => String.eqb category "internal"
    | _ => false
    end in
  exists (synths : list value) (d : deployment_doc) (proxy : target_data) (hzn : value)
         (rest listed : list value),
    (getSynths data dirname JSON_parse (tokens_options o) assets).1 = Ok (VArr synths)
    /\ loadDeploymentFile data dirname JSON_parse_deployment (tokens_options o)
       = Ok (Some d)
    /\ assoc (targets d) "ProxySynthetix" = Some proxy
    /\ result = hzn :: rest
    /\ prop_of hzn "symbol" = VStr "HZN"
    /\ prop_of hzn "asset" = VStr "HZN"
    /\ prop_of hzn "name" = VStr "Synthetix"
    /\ prop_of hzn "address" = opt_string (address proxy)
    /\ prop_of hzn "decimals" = VNum 18
    /\ rest ≡ₚ listed
    /\ Forall2
         (fun synth token =>
            exists fields,
              token = VObj fields
              /\ (forall k, is_Some (fields !! k)
                            <-> k ∈ ["symbol"; "asset"; "name"; "address"; "index";
                                     "decimals"; "feed"])
              /\ field fields "symbol" = prop_of synth "name"
              /\ field fields "asset" = prop_of synth "asset"
              /\ field fields "name" = prop_of synth "description"
              /\ field fields "address"
                 = from_option (fun t => opt_string (address t)) VUndef
                     (assoc (targets d) ("Proxy" ++ to_key (prop_of synth "name")))
              /\ field fields "index" = prop_of synth "index"
              /\ field fields "decimals" = VNum 18
              /\ field fields "feed" = prop_of synth "feed")
         (filter (fun synth => internal synth = false) synths) listed.
Proof.
  intros Hsort Hrun internal. revert Hrun. unfold getTokens.
  destruct (getSynths _ _ _ _ _) as [[synths|] assets1]; [|done].
  unfold getTarget. destruct (loadDeploymentFile _ _ _ _) as [[d|]|]; [|done..].
  cbn [bind read_deployment tokens_options contract given].
  destruct (getFeeds _ _ _ _ _) as [[feeds|] assets2]; [|done].
  unfold tokens_of.
  destruct (assoc (targets d) "ProxySynthetix") as [proxy|] eqn:Hproxy; [|done].
  destruct (feeds !! "HZN") as [entry|]; [|done]. cbn [bind].
  destruct synths as [| | | | |list|]; try done. unfold filter_synths.
  destruct (mapM _ list) as [categories|]; [|done]. cbn [bind].
  intros [= <- <-].
  exists list, d, proxy, (hzn_token proxy (field entry "feed")),
    (Array_sort (token_of (targets d)
                   <$> filter (fun synth => not_internal synth = true) list)),
    (token_of (targets d) <$> filter (fun synth => internal synth = false) list).
  do 4 (split; [done|]).
  assert (filter (fun synth => not_internal synth = true) list
          = filter (fun synth => internal synth = false) list) as ->.
  { apply list_filter_iff. intros synth. unfold not_internal, internal.
    destruct (prop_of synth "category"); try done.
    by rewrite negb_true_iff. }
  split; [|split; [|split; [|split; [|split; [|split; [apply Hsort|]]]]]].
  6: { apply Forall2_fmap_r, Forall_Forall2_diag, Forall_forall.
       intros synth _. apply token_of_fields. }
  all: unfold hzn_token, prop_of, get_prop, Object_assign;
    (destruct (truthy (field entry "feed")); cbn [own_props];
     [rewrite lookup_union_r by (by rewrite lookup_singleton_ne)|rewrite (left_id_L ∅ (∪))];
     by vm_compute).
Qed.

(** X27. [getTokens] returns only where the asset registry knows [HZN],
    the feeds document lists [HZN] and the deployment has a
    [ProxySynthetix] target; otherwise it throws. *)
Theorem getTokens_requires (o : options) (assets assets' : registry) (result : list value) :
  tokens o assets = (Ok result, assets') ->
  is_Some (assets !! "HZN")
  /\ (exists doc, load_feeds data dirname JSON_parse (tokens_options o) = Ok doc
                  /\ is_Some (own_props doc !! "HZN"))
  /\ (exists d, loadDeploymentFile data dirname JSON_parse_deployment (tokens_options o)
                = Ok (Some d)
                /\ is_Some (assoc (targets d) "ProxySynthetix")).
Proof.
  unfold getTokens.
  destruct (getSynths _ _ _ _ _) as [[synths|] assets1] eqn:Hsynths; [|done].
  unfold getTarget. destruct (loadDeploymentFile _ _ _ _) as [[d|]|]; [|done..].
  cbn [bind read_deployment tokens_options contract given].
  destruct (getFeeds _ _ _ _ _) as [[feeds|] assets2] eqn:Hfeeds; [|done].
  unfold tokens_of.
  destruct (assoc (targets d) "ProxySynthetix") as [proxy|] eqn:Hproxy; [|done].
  destruct (feeds !! "HZN") as [entry|] eqn:Hentry; [|done]. intros _.
  destruct (getFeeds_keys _ _ _ _ "HZN" eq_refl Hfeeds) as [_ Hk].
  destruct Hk as [Hknown Hdoc]; [by rewrite Hentry|].
  split; [by apply (getSynths_keys _ _ _ _ "HZN" eq_refl Hsynths)|].
  split; [done|]. exists d. by rewrite Hproxy.
Qed.

End TokenFacts.

Lemma getTokens_shape_witness :
  let internal (synth : value) : bool :=
    match prop_of synth "category" with
    | VStr category => String.eqb category "internal"
    | _ => false
    end in
  exists (synths : list value) (d : deployment_doc) (proxy : target_data) (hzn : value)
         (rest listed : list value),
    (getSynths Examples.token_networks "" no_parse
       (tokens_options (bundled None false)) Examples.token_registry).1
    = Ok (VArr synths)
    /\ loadDeploymentFile Examples.token_networks "" no_parse
         (tokens_options (bundled None false)) = Ok (Some d)
    /\ assoc (targets d) "ProxySynthetix" = Some proxy
    /\ (getTokens Examples.token_networks "" no_parse no_parse id (bundled None false)
          Examples.token_registry).1 = Ok (hzn :: rest)
    /\ prop_of hzn "symbol" = VStr "HZN"
    /\ prop_of hzn "asset" = VStr "HZN"
    /\ prop_of hzn "name" = VStr "Synthetix"
    /\ prop_of hzn "address" = opt_string (address proxy)
    /\ prop_of hzn "decimals" = VNum 18
    /\ rest ≡ₚ listed
    /\ Forall2
         (fun synth token =>
            exists fields,
              token = VObj fields
              /\ (forall k, is_Some (fields !! k)
                            <-> k ∈ ["symbol"; "asset"; "name"; "address"; "index";
                                     "decimals"; "feed"])
              /\ field fields "symbol" = prop_of synth "name"
              /\ field fields "asset" = prop_of synth "asset"
              /\ field fields "name" = prop_of synth "description"
              /\ field fields "address"
                 = from_option (fun t => opt_string (address t)) VUndef
                     (assoc (targets d) ("Proxy" ++ to_key (prop_of synth "name")))
              /\ field fields "index" = prop_of synth "index"
              /\ field fields "decimals" = VNum 18
              /\ field fields "feed" = prop_of synth "feed")
         (filter (fun synth => internal synth = false) synths) listed.
Proof.
  intros internal.
  edestruct (getTokens_shape Examples.token_networks "" no_parse no_parse id
               (bundled None false) Examples.token_registry)
    as (synths & d & proxy & hzn & rest & listed & H1 & H2 & H3 & H4 & H5);
    [intros l; reflexivity|vm_compute; reflexivity|].
  exists synths, d, proxy, hzn, rest, listed.
  split; [exact H1|]. split; [exact H2|]. split; [exact H3|].
  split; [rewrite <- H4; vm_compute; reflexivity|]. exact H5.
Defined.

Lemma getTokens_requires_witness :
  is_Some (Examples.token_registry !! "HZN")
  /\ (exists doc, load_feeds Examples.token_networks "" no_parse
                    (tokens_options (bundled None false)) = Ok doc
                  /\ is_Some (own_props doc !! "HZN"))
  /\ (exists d, loadDeploymentFile Examples.token_networks "" no_parse
                  (tokens_options (bundled None false)) = Ok (Some d)
                /\ is_Some (assoc (targets d) "ProxySynthetix")).
Proof.
  eapply (getTokens_requires Examples.token_networks "" no_parse no_parse id
            (bundled None false) Examples.token_registry).
  vm_compute. reflexivity.
Defined.

(** ** The next release *)

Lemma strip_non_word_all_word (s : string) : all_word (strip_non_word s) = true.
Proof.
  induction s as [|c s IH]; [done|]. cbn [strip_non_word].
  destruct (is_word c) eqn:Hc; [|done]. cbn [all_word]. by rewrite Hc, IH.
Qed.

Lemma find_release_first (useOvm : bool) (releases : list value) (release : value) :
  find_release useOvm releases = Ok (Some release) ->
  exists i,
    releases !! i = Some release
    /\ pending useOvm release = Ok true
    /\ forall j earlier, (j < i)%nat -> releases !! j = Some earlier ->
         pending useOvm earlier = Ok false.
Proof.
  induction releases as [|x rest IH]; [done|]. cbn [find_release].
  destruct (pending useOvm x) as [[]|] eqn:Hx; cbn [bind]; [| |done].
  - intros [= <-]. exists 0%nat. split; [done|]. split; [done|]. lia.
  - intros Hrest. destruct (IH Hrest) as (i & Hi & Hp & Hbefore).
    exists (S i). split; [done|]. split; [done|].
    intros [|j] earlier Hj; cbn; [by intros [= <-]|].
    apply Hbefore. lia.
Qed.

(** X28. [getNextRelease] returns the first release of the list that is not
    released and is on the layer asked for, with [releaseName] its name
    without the characters that are not word characters; it returns only
    when there is such a release and its name is a string. *)
Theorem getNextRelease_first_pending (releases : list value) (useOvm : bool)
    (next : value) :
  getNextRelease releases useOvm = Ok next ->
  exists (i : nat) (release : obj) (name : string),
    releases !! i = Some (VObj release)
    /\ truthy (field release "released") = false
    /\ truthy (field release "ovm") = useOvm
    /\ (forall j earlier, (j < i)%nat -> releases !! j = Some earlier ->
          pending useOvm earlier = Ok false)
    /\ field release "name" = VStr name
    /\ next = VObj (<[ "releaseName" := VStr (strip_non_word name) ]> release)
    /\ all_word (strip_non_word name) = true.
Proof.
  unfold getNextRelease.
  destruct (find_release useOvm releases) as [[found|]|] eqn:Hfind; [| done | done].
  cbn [bind default from_option id].
  destruct (find_release_first _ _ _ Hfind) as (i & Hi & Hp & Hbefore).
  destruct found as [| | | | | |release]; try done.
  cbn [get_prop bind]. fold (field release "name").
  destruct (field release "name") as [| | | |name| |] eqn:Hname; try done.
  intros [= <-]. exists i, release, name.
  split; [done|]. revert Hp. unfold pending. cbn [get_prop bind].
  fold (field release "released"). fold (field release "ovm"). intros [= Hp].
  apply andb_true_iff in Hp as [Hreleased Hovm].
  split; [by apply negb_true_iff|].
  split; [destruct useOvm; [done|by apply negb_true_iff]|].
  split; [done|]. split; [done|]. split; [|apply strip_non_word_all_word].
  unfold Object_assign. cbn [own_props].
  by rewrite (right_id_L ∅ (∪)), insert_union_singleton_l.
Qed.

Lemma getNextRelease_first_pending_witness :
  exists (i : nat) (release : obj) (name : string),
    Examples.some_releases !! i = Some (VObj release)
    /\ truthy (field release "released") = false
    /\ truthy (field release "ovm") = false
    /\ (forall j earlier, (j < i)%nat -> Examples.some_releases !! j = Some earlier ->
          pending false earlier = Ok false)
    /\ field release "name" = VStr name
    /\ VObj (<[ "releaseName" := VStr "SiriusB" ]>
               (<[ "name" := VStr "Sirius-B" ]> {[ "released" := VBool false ]}))
       = VObj (<[ "releaseName" := VStr (strip_non_word name) ]> release)
    /\ all_word (strip_non_word name) = true.
Proof.
  apply (getNextRelease_first_pending Examples.some_releases false).
  vm_compute. reflexivity.
Defined.

(** ** Syntax trees *)

Lemma assoc_Some_elem {A} (l : list (string * A)) (k : string) (x : A) :
  assoc l k = Some x -> (k, x) ∈ l.
Proof.
  induction l as [|[k' x'] l IH]; [done|]. cbn [assoc].
  destruct (String.eqb_spec k' k) as [->|_].
  - intros [= ->]. apply list_elem_of_here.
  - intros Hk. apply list_elem_of_further. by apply IH.
Qed.

Lemma assign_key_elem {A} (o : list (string * A)) (k : string) (v : A) (e : string * A) :
  e ∈ assign_key o k v -> e ∈ o \/ e = (k, v).
Proof.
  induction o as [|[k' v'] o IH]; cbn [assign_key].
  - intros ->%list_elem_of_singleton. by right.
  - destruct (String.eqb_spec k' k) as [->|_].
    + intros [->|He]%elem_of_cons; [by right|]. left. by apply list_elem_of_further.
    + intros [->|He]%elem_of_cons; [left; apply list_elem_of_here|].
      destruct (IH He) as [Ho | ->]; [|by right]. left. by apply list_elem_of_further.
Qed.

Lemma reduce_assign_elem {A} (entries memo : list (string * A)) (e : string * A) :
  e ∈ foldl (fun memo '(key, val) => assign_key memo key val) memo entries ->
  e ∈ memo \/ e ∈ entries.
Proof.
  revert memo. induction entries as [|[k v] entries IH]; intros memo; cbn [foldl].
  - by left.
  - intros He. destruct (IH _ He) as [Hm|Hin].
    + destruct (assign_key_elem _ _ _ _ Hm) as [Ho | ->]; [by left|].
      right. apply list_elem_of_here.
    + right. by apply list_elem_of_further.
Qed.

(** X29. [getAST] returns only with [path] and [fs] given and the AST file
    read, and what it returns has passed the pattern: for a source, the
    entry under that very key, or the only entry of a one-key object whose
    key contains [/source], or (for a name of [Object.prototype]) what the
    prototype holds; without a source, entries of the file whose keys match.
    The file is taken to have no [__proto__] key: written through
    [memo[key] = val] it would replace the prototype of the result. *)
Theorem getAST_matches (dirname : string)
    (JSON_parse_ast : string -> result (list (string * value)))
    (o : ast_options) (r : ast_result) :
  (forall text fullAST, JSON_parse_ast text = Ok fullAST -> "__proto__" ∉ fullAST.*1) ->
  getAST dirname JSON_parse_ast o = Ok r ->
  exists resolve fs text fullAST,
    ast_path o = Some resolve /\ ast_fs o = Some fs
    /\ readFileSync fs (resolve [dirname; "build"; "ast"; "asts.json"]) = Ok text
    /\ JSON_parse_ast text = Ok fullAST
    /\ let test := default (fun key => startsWith key "contracts/") (ast_match o) in
       let source := default "" (ast_source o) in
       match r with
       | Entry entry =>
           given (ast_source o) = true /\ test source = true /\ (source, entry) ∈ fullAST
       | Inherited name =>
           given (ast_source o) = true /\ name = source
           /\ source ∈ Object_prototype_properties
       | Single key entry =>
           given (ast_source o) = true /\ test key = true
           /\ includes key ("/" ++ source) = true /\ truthy entry = true
           /\ (key, entry) ∈ fullAST
       | Whole ast =>
           given (ast_source o) = false
           /\ forall key entry, (key, entry) ∈ ast ->
                test key = true /\ (key, entry) ∈ fullAST
       end.
Proof.
  intros _. unfold getAST.
  destruct (ast_path o) as [resolve|]; [|done].
  destruct (ast_fs o) as [fs|]; [|done].
  destruct (existsSync fs _); cbn [negb]; [|done].
  destruct (readFileSync fs _) as [text|] eqn:Hread; [|done]. cbn [bind].
  destruct (JSON_parse_ast text) as [fullAST|] eqn:Hparse; [|done]. cbn [bind].
  set (test := default _ (ast_match o)). set (source := default "" (ast_source o)).
  set (ast := foldl _ [] _).
  assert (forall key entry, (key, entry) ∈ ast -> test key = true /\ (key, entry) ∈ fullAST)
    as Hast.
  { intros key entry He. apply reduce_assign_elem in He as [He|He];
      [by apply elem_of_nil in He|].
    by apply list_elem_of_filter in He. }
  intros Hr. exists resolve, fs, text, fullAST. do 4 (split; [done|]). cbn zeta.
  destruct (given (ast_source o)); [|injection Hr as Hr; by subst r].
  destruct (assoc ast source) as [entry|] eqn:Hsource.
  { injection Hr as Hr; subst r. apply assoc_Some_elem in Hsource.
    destruct (Hast _ _ Hsource). done. }
  destruct (bool_decide (source ∈ Object_prototype_properties)) eqn:Hproto.
  { injection Hr as Hr; subst r. by apply bool_decide_eq_true in Hproto. }
  destruct (find _ ast) as [[key entry]|] eqn:Hfind; [|done].
  destruct (negb (truthy (VStr key)) || negb (truthy entry)) eqn:Hfalsy; [done|].
  injection Hr as Hr; subst r. apply find_some in Hfind as [Hin Hincl].
  apply list_elem_of_In in Hin. destruct (Hast _ _ Hin) as [Htest Hfile].
  apply orb_false_iff in Hfalsy as [_ Hentry]. apply negb_false_iff in Hentry.
  done.
Qed.

Lemma getAST_matches_witness :
  exists resolve fs text fullAST,
    ast_path (AstExamples.ast_for (Some "ISynthetix.sol")) = Some resolve
    /\ ast_fs (AstExamples.ast_for (Some "ISynthetix.sol")) = Some fs
    /\ readFileSync fs (resolve ["/repo"; "build"; "ast"; "asts.json"]) = Ok text
    /\ AstExamples.ast_parse text = Ok fullAST
    /\ (true = true /\ startsWith "contracts/interfaces/ISynthetix.sol" "contracts/" = true
        /\ includes "contracts/interfaces/ISynthetix.sol" ("/" ++ "ISynthetix.sol") = true
        /\ truthy (VObj {[ "interfaces" := VObj ∅ ]}) = true
        /\ ("contracts/interfaces/ISynthetix.sol", VObj {[ "interfaces" := VObj ∅ ]})
           ∈ fullAST).
Proof.
  apply (getAST_matches "/repo" AstExamples.ast_parse
           (AstExamples.ast_for (Some "ISynthetix.sol"))
           (Single "contracts/interfaces/ISynthetix.sol" (VObj {[ "interfaces" := VObj ∅ ]}))).
  - intros text fullAST [= <-] Hin.
    repeat (apply elem_of_cons in Hin as [Hin|Hin]; [discriminate|]).
    by apply elem_of_nil in Hin.
  - reflexivity.
Defined.
